(** * SmartPDF Pro: the orchestration core of [App.tsx] and
      [services/geminiService.ts]

    The development embeds the state-carrying part of the React component
    [App] (its [useState] cells, its handlers and the effect that loads the
    history), the two service functions of [geminiService.ts] and the
    helper [downloadContent], and states the properties of the
    specification over that embedding.

    [App.tsx] holds two revisions of the component, one after the other
    (lines 1-616 and 617-1286).  The first, the one with the chat panel
    and the list of steps, is embedded at the top level; the second, with
    the progress bar, in the module [Rev2].  The helpers and the service
    are the same for both.

    Conventions of the embedding.
    - A JavaScript string is a Rocq [string]; one character of the model is
      one UTF-16 code unit in the range 0..255.  Text outside that alphabet
      is outside the model: [JSON_parse] yields no value for a text with an
      escape of a higher code unit, although the platform accepts it, and
      [JSON_valid] tells the two cases apart.
    - A JavaScript number that comes from JSON text or from an integer is an
      exact decimal (sign, significant digits, position of the point).  The
      rounding of literals to IEEE doubles is not modelled, so the model is
      exact for literals of at most 15 significant digits of ordinary
      magnitude.
    - A value that TypeScript merely casts ([JSON.parse(text) as
      AnalysisResult], [JSON.parse(saved)] stored in a [HistoryItem[]] cell)
      stays an untyped [JSValue], as it is at run time.
    - An asynchronous function is cut at its [await]s: the part before an
      [await] runs in the step of the event that started it, the part after
      runs in the step of the event that settles the awaited promise.
      Values read from a closure are recorded in the pending task.
    - The values of [crypto.randomUUID()] and [Date.now()] come with the
      event in whose step they are read.
    - Of the JSX only the conditions under which an element is rendered or
      enabled are modelled, and the list of recent files
      ([recent_entries]).  Rendering is not a step of the model: it
      dereferences the fields of the result and of the ledger, and for a
      value that lacks them it throws and React takes the component down.
      The statements about a published result and about a loaded ledger
      are therefore made for values of the declared type
      ([is_AnalysisResult], [is_history]), for which rendering is type
      correct.  The scrolling of the chat panel, the clipboard and the
      quota of local storage are outside the model. *)

From Stdlib Require Import ZArith QArith Ascii String DecimalString Lia.
From stdpp Require Import gmap strings list.

(** ** Exceptions and the error monad *)

Inductive JSError :=
| TypeError (msg : string)
| SyntaxError (msg : string)
| Error (msg : string)
| ServiceFailure (msg : string).

Inductive result (A : Type) :=
| Ok (a : A)
| Throw (e : JSError).
Arguments Ok {A} a.
Arguments Throw {A} e.

#[global] Instance result_ret : MRet result := fun A a => Ok a.

#[global] Instance result_bind : MBind result := fun A B k r =>
  match r with
  | Ok a => k a
  | Throw e => Throw e
  end.

(** ** Characters *)

Definition code (c : ascii) : nat := nat_of_ascii c.

Definition is_digit (c : ascii) : bool :=
  (48 <=? code c)%nat && (code c <=? 57)%nat.

Definition is_lower (c : ascii) : bool :=
  (97 <=? code c)%nat && (code c <=? 122)%nat.

Definition digit_val (c : ascii) : Z := Z.of_nat (code c) - 48.

Fixpoint take_while (p : ascii -> bool) (l : list ascii) : list ascii :=
  match l with
  | c :: r => if p c then c :: take_while p r else []
  | [] => []
  end.

Fixpoint drop_while (p : ascii -> bool) (l : list ascii) : list ascii :=
  match l with
  | c :: r => if p c then drop_while p r else l
  | [] => []
  end.

Definition is_zero_digit (c : ascii) : bool := Ascii.eqb c "0".

Definition dquote : ascii := ascii_of_nat 34.

(** A text with quotation marks is written with apostrophes in their
    place: [js] puts the quotation marks back. *)
Definition js (s : string) : string :=
  string_of_list_ascii
    (map (fun c => if Ascii.eqb c "'" then dquote else c) (list_ascii_of_string s)).

Definition Z_of_digits (ds : list ascii) : Z :=
  fold_left (fun acc c => 10 * acc + digit_val c)%Z ds 0%Z.

Definition decimal_of_Z (z : Z) : string :=
  NilZero.string_of_uint (N.to_uint (Z.to_N (Z.abs z))).

(** ** Numbers *)

(** [mkNum s ds p] is the number [(-1)^s * 0.d1 d2 ... dk * 10^p], with
    [d1] and [dk] different from zero; zero is [mkNum false [] 0] (the sign
    of a negative zero is dropped: both zeros are falsy and print as [0]). *)
Record JSNumber := mkNum {
  negative : bool;
  digits : list ascii;
  point : Z
}.

Definition num_zero : JSNumber := mkNum false [] 0.

Definition canon (neg : bool) (all : list ascii) (pt : Z) : JSNumber :=
  let lz := length (take_while is_zero_digit all) in
  let sig := rev (drop_while is_zero_digit (rev (drop_while is_zero_digit all))) in
  match sig with
  | [] => num_zero
  | _ => mkNum neg sig (pt - Z.of_nat lz)
  end.

Definition num_of_Z (z : Z) : JSNumber :=
  let ds := list_ascii_of_string (decimal_of_Z z) in
  canon (z <? 0)%Z ds (Z.of_nat (length ds)).

(** The JSON number grammar: an optional minus sign; an integer part that
    is either the single digit 0 or starts with a non-zero digit; an
    optional fraction (a point and at least one digit); an optional
    exponent (e or E, an optional sign, at least one digit). *)
Definition number_of_literal (l : list ascii) : option JSNumber :=
  let '(neg, l1) :=
    match l with
    | "-"%char :: r => (true, r)
    | _ => (false, l)
    end in
  let ip := take_while is_digit l1 in
  let l2 := drop_while is_digit l1 in
  let int_ok :=
    match ip with
    | [] => false
    | [_] => true
    | d :: _ => negb (is_zero_digit d)
    end in
  if negb int_ok then None else
  let frac :=
    match l2 with
    | "."%char :: r =>
        match take_while is_digit r with
        | [] => None
        | fp => Some (fp, drop_while is_digit r)
        end
    | _ => Some ([], l2)
    end in
  match frac with
  | None => None
  | Some (fp, l3) =>
      let mk (e : Z) := Some (canon neg (ip ++ fp) (Z.of_nat (length ip) + e)) in
      let exponent (sgn : Z) (r : list ascii) :=
        match take_while is_digit r, drop_while is_digit r with
        | (_ :: _) as ds, [] => mk (sgn * Z_of_digits ds)%Z
        | _, _ => None
        end in
      match l3 with
      | [] => mk 0%Z
      | c :: r =>
          if Ascii.eqb c "e" || Ascii.eqb c "E" then
            match r with
            | "+"%char :: r' => exponent 1%Z r'
            | "-"%char :: r' => exponent (-1)%Z r'
            | _ => exponent 1%Z r
            end
          else None
      end
  end.

(** [Number::toString] (radix 10) on the exact decimal. *)
Definition number_to_string (n : JSNumber) : string :=
  match digits n with
  | [] => "0"
  | d1 :: rest =>
      let k := Z.of_nat (length (digits n)) in
      let p := point n in
      let ds := string_of_list_ascii (digits n) in
      let zeros (m : Z) := string_of_list_ascii (replicate (Z.to_nat m) "0"%char) in
      let body :=
        if (k <=? p)%Z && (p <=? 21)%Z then ds +:+ zeros (p - k)%Z
        else if (0 <? p)%Z && (p <=? 21)%Z then
          string_of_list_ascii (take (Z.to_nat p) (digits n)) +:+ "." +:+
          string_of_list_ascii (drop (Z.to_nat p) (digits n))
        else if (-6 <? p)%Z && (p <=? 0)%Z then "0." +:+ zeros (- p)%Z +:+ ds
        else
          let e := (p - 1)%Z in
          String d1 "" +:+
          match rest with
          | [] => ""
          | _ => "." +:+ string_of_list_ascii rest
          end +:+ "e" +:+ (if (0 <=? e)%Z then "+" else "-") +:+ decimal_of_Z e
      in
      (if negative n then "-" else "") +:+ body
  end.


(** ** Values *)

#[local] Set Warnings "-register-all".

Inductive JSValue :=
| JUndefined
| JNull
| JBool (b : bool)
| JNum (n : JSNumber)
| JStr (s : string)
| JArr (l : list JSValue)
| JObj (m : list (string * JSValue)).

(** [!!v] of JavaScript: ToBoolean. *)
Definition to_boolean (v : JSValue) : bool :=
  match v with
  | JUndefined | JNull => false
  | JBool b => b
  | JNum n => match digits n with [] => false | _ => true end
  | JStr s => negb (String.eqb s "")
  | JArr _ | JObj _ => true
  end.

(** Own property of an object; a later duplicate key of the JSON text has
    already replaced the earlier one (see [obj_set]). *)
Fixpoint obj_get (m : list (string * JSValue)) (k : string) : JSValue :=
  match m with
  | [] => JUndefined
  | (k', v) :: r => if String.eqb k' k then v else obj_get r k
  end.

Fixpoint obj_has (m : list (string * JSValue)) (k : string) : bool :=
  match m with
  | [] => false
  | (k', _) :: r => String.eqb k' k || obj_has r k
  end.

(** A key that is an array index: the decimal text, without leading
    zeros, of an integer from 0 to 2^32 - 2. *)
Definition array_index (k : string) : option Z :=
  let l := list_ascii_of_string k in
  match l with
  | [] => None
  | c :: r =>
      if forallb is_digit l
         && (match r with [] => true | _ => negb (is_zero_digit c) end)
         && (length l <=? 10)%nat
         && (Z_of_digits l <=? 4294967294)%Z
      then Some (Z_of_digits l)
      else None
  end.

(** Whether a new key [k] is enumerated before the key [k']: array indices
    come first, in ascending order; other keys keep the order in which
    they were defined. *)
Definition enumerated_before (k k' : string) : bool :=
  match array_index k, array_index k' with
  | Some n, Some n' => (n <? n')%Z
  | Some _, None => true
  | None, _ => false
  end.

(** Defining a property: an existing key keeps its place and takes the new
    value; a new key goes where the enumeration of own keys puts it, an
    array index among the indices and any other key last. *)
Fixpoint obj_set (m : list (string * JSValue)) (k : string) (v : JSValue)
  : list (string * JSValue) :=
  match m with
  | [] => [(k, v)]
  | (k', v') :: r =>
      if String.eqb k' k then (k, v) :: r
      else if enumerated_before k k' then (k, v) :: (k', v') :: r
      else (k', v') :: obj_set r k v
  end.

(** [v.k] for the property names the program reads ([id], [summary],
    [stats], [markdownContent], [suggestedFilename]); none of them is
    inherited from a prototype, so on anything but an object with that own
    key the access yields [undefined], and on [null] and [undefined] it
    throws. *)
Definition get_prop (v : JSValue) (k : string) : result JSValue :=
  match v with
  | JUndefined => Throw (TypeError ("Cannot read properties of undefined (reading '" +:+ k +:+ "')"))
  | JNull => Throw (TypeError ("Cannot read properties of null (reading '" +:+ k +:+ "')"))
  | JObj m => Ok (obj_get m k)
  | _ => Ok JUndefined
  end.

(** [v !== s] for a string [s]. *)
Definition strict_ne_string (v : JSValue) (s : string) : bool :=
  match v with
  | JStr s' => negb (String.eqb s' s)
  | _ => true
  end.

(** ToString, as a template literal applies it.  An object that carries an
    own [toString] key (a JSON value, hence not callable) has no primitive
    value. *)
Fixpoint to_string (v : JSValue) : result string :=
  match v with
  | JUndefined => Ok "undefined"
  | JNull => Ok "null"
  | JBool true => Ok "true"
  | JBool false => Ok "false"
  | JNum n => Ok (number_to_string n)
  | JStr s => Ok s
  | JArr l =>
      let elem (x : JSValue) : result string :=
        match x with
        | JUndefined | JNull => Ok ""
        | _ => to_string x
        end in
      (fix join (l : list JSValue) : result string :=
         match l with
         | [] => Ok ""
         | [x] => elem x
         | x :: r => s ← elem x; t ← join r; Ok (s +:+ "," +:+ t)
         end) l
  | JObj m =>
      if obj_has m "toString"
      then Throw (TypeError "Cannot convert object to primitive value")
      else Ok "[object Object]"
  end.

(** ** JSON.parse

    The platform function, as a lexer that reads the text one character at
    a time and a shift-reduce parser that reads the tokens one at a time.
    Both are total and structurally recursive on their input. *)

Inductive token :=
| TLBrace | TRBrace | TLBracket | TRBracket | TColon | TComma
| TString (s : string)
| TNumber (n : JSNumber)
| TTrue | TFalse | TNull.

Inductive lstate :=
| LTop
| LStr (acc : list ascii)
| LEsc (acc : list ascii)
| LHex (acc : list ascii) (hex : list ascii)
| LNum (acc : list ascii)
| LWord (acc : list ascii).

Definition is_json_space (c : ascii) : bool :=
  let n := code c in
  (n =? 32)%nat || (n =? 9)%nat || (n =? 10)%nat || (n =? 13)%nat.

Definition is_number_char (c : ascii) : bool :=
  is_digit c || Ascii.eqb c "-" || Ascii.eqb c "+" || Ascii.eqb c "."
  || Ascii.eqb c "e" || Ascii.eqb c "E".

Definition hex_val (c : ascii) : option nat :=
  let n := code c in
  if is_digit c then Some (n - 48)%nat
  else if (97 <=? n)%nat && (n <=? 102)%nat then Some (n - 87)%nat
  else if (65 <=? n)%nat && (n <=? 70)%nat then Some (n - 55)%nat
  else None.

Definition hex_code (hex : list ascii) : option nat :=
  fold_left (fun acc c =>
               match acc, hex_val c with
               | Some a, Some d => Some (16 * a + d)%nat
               | _, _ => None
               end) hex (Some 0%nat).

Definition top_step (c : ascii) : option (lstate * list token) :=
  if is_json_space c then Some (LTop, [])
  else if Ascii.eqb c "{" then Some (LTop, [TLBrace])
  else if Ascii.eqb c "}" then Some (LTop, [TRBrace])
  else if Ascii.eqb c "[" then Some (LTop, [TLBracket])
  else if Ascii.eqb c "]" then Some (LTop, [TRBracket])
  else if Ascii.eqb c ":" then Some (LTop, [TColon])
  else if Ascii.eqb c "," then Some (LTop, [TComma])
  else if Ascii.eqb c dquote then Some (LStr [], [])
  else if is_digit c || Ascii.eqb c "-" then Some (LNum [c], [])
  else if is_lower c then Some (LWord [c], [])
  else None.

Definition word_token (acc : list ascii) : option token :=
  let w := string_of_list_ascii (rev acc) in
  if String.eqb w "true" then Some TTrue
  else if String.eqb w "false" then Some TFalse
  else if String.eqb w "null" then Some TNull
  else None.

Definition number_token (acc : list ascii) : option token :=
  TNumber <$> number_of_literal (rev acc).

Definition lex_step (st : lstate) (c : ascii) : option (lstate * list token) :=
  match st with
  | LTop => top_step c
  | LStr acc =>
      if Ascii.eqb c dquote then Some (LTop, [TString (string_of_list_ascii (rev acc))])
      else if Ascii.eqb c "\" then Some (LEsc acc, [])
      else if (code c <? 32)%nat then None
      else Some (LStr (c :: acc), [])
  | LEsc acc =>
      let put (d : ascii) := Some (LStr (d :: acc), []) in
      if Ascii.eqb c dquote || Ascii.eqb c "\" || Ascii.eqb c "/" then put c
      else if Ascii.eqb c "b" then put (ascii_of_nat 8)
      else if Ascii.eqb c "f" then put (ascii_of_nat 12)
      else if Ascii.eqb c "n" then put (ascii_of_nat 10)
      else if Ascii.eqb c "r" then put (ascii_of_nat 13)
      else if Ascii.eqb c "t" then put (ascii_of_nat 9)
      else if Ascii.eqb c "u" then Some (LHex acc [], [])
      else None
  | LHex acc hex =>
      match hex_val c with
      | None => None
      | Some _ =>
          let hex' := hex ++ [c] in
          if (length hex' <? 4)%nat then Some (LHex acc hex', [])
          else
            match hex_code hex' with
            | Some n =>
                (* a code unit above 255 is outside the model's alphabet *)
                if (n <? 256)%nat then Some (LStr (ascii_of_nat n :: acc), []) else None
            | None => None
            end
      end
  | LNum acc =>
      if is_number_char c then Some (LNum (c :: acc), [])
      else
        t ← number_token acc;
        '(st', ts) ← top_step c;
        Some (st', t :: ts)
  | LWord acc =>
      if is_lower c then Some (LWord (c :: acc), [])
      else
        t ← word_token acc;
        '(st', ts) ← top_step c;
        Some (st', t :: ts)
  end.

Definition lex_end (st : lstate) : option (list token) :=
  match st with
  | LTop => Some []
  | LNum acc => t ← number_token acc; Some [t]
  | LWord acc => t ← word_token acc; Some [t]
  | LStr _ | LEsc _ | LHex _ _ => None
  end.

Fixpoint lex (st : lstate) (l : list ascii) : option (list token) :=
  match l with
  | [] => lex_end st
  | c :: r =>
      '(st', ts) ← lex_step st c;
      rest ← lex st' r;
      Some (ts ++ rest)
  end.

(** A container that is being read: an array with the elements read so
    far, or an object with the members read so far and the key whose value
    comes next. *)
Inductive frame :=
| FArr (elems : list JSValue)
| FObj (mem : list (string * JSValue)) (key : string).

Inductive pstate :=
| PValue (stk : list frame)
| PArrFirst (stk : list frame)
| PObjFirst (stk : list frame)
| PKey (mem : list (string * JSValue)) (stk : list frame)
| PColon (mem : list (string * JSValue)) (key : string) (stk : list frame)
| PArrNext (elems : list JSValue) (stk : list frame)
| PObjNext (mem : list (string * JSValue)) (stk : list frame)
| PDone (v : JSValue).

(** A complete value goes into the innermost open container. *)
Definition reduce (v : JSValue) (stk : list frame) : pstate :=
  match stk with
  | [] => PDone v
  | FArr elems :: stk' => PArrNext (elems ++ [v]) stk'
  | FObj mem key :: stk' => PObjNext (obj_set mem key v) stk'
  end.

Definition value_step (t : token) (stk : list frame) : option pstate :=
  match t with
  | TString s => Some (reduce (JStr s) stk)
  | TNumber n => Some (reduce (JNum n) stk)
  | TTrue => Some (reduce (JBool true) stk)
  | TFalse => Some (reduce (JBool false) stk)
  | TNull => Some (reduce JNull stk)
  | TLBracket => Some (PArrFirst stk)
  | TLBrace => Some (PObjFirst stk)
  | _ => None
  end.

Definition parse_step (st : pstate) (t : token) : option pstate :=
  match st, t with
  | PValue stk, _ => value_step t stk
  | PArrFirst stk, TRBracket => Some (reduce (JArr []) stk)
  | PArrFirst stk, _ => value_step t (FArr [] :: stk)
  | PObjFirst stk, TRBrace => Some (reduce (JObj []) stk)
  | PObjFirst stk, TString k => Some (PColon [] k stk)
  | PKey mem stk, TString k => Some (PColon mem k stk)
  | PColon mem k stk, TColon => Some (PValue (FObj mem k :: stk))
  | PArrNext elems stk, TComma => Some (PValue (FArr elems :: stk))
  | PArrNext elems stk, TRBracket => Some (reduce (JArr elems) stk)
  | PObjNext mem stk, TComma => Some (PKey mem stk)
  | PObjNext mem stk, TRBrace => Some (reduce (JObj mem) stk)
  | _, _ => None
  end.

Fixpoint parse_tokens (st : pstate) (ts : list token) : option JSValue :=
  match ts with
  | [] => match st with PDone v => Some v | _ => None end
  | t :: r => st' ← parse_step st t; parse_tokens st' r
  end.

(** [JSON.parse(text)].  [None] stands for the [SyntaxError] it throws,
    and also for a text with an escape of a code unit above 255, which the
    platform accepts and the alphabet of the model cannot hold. *)
Definition JSON_parse (text : string) : option JSValue :=
  ts ← lex LTop (list_ascii_of_string text);
  parse_tokens (PValue []) ts.

(** The lexer that takes every escape of four hexadecimal digits, as the
    platform does; a code unit above 255 is kept as a question mark, the
    text of a string being of no account for whether a text is JSON. *)
Definition lex_step_any (st : lstate) (c : ascii) : option (lstate * list token) :=
  match st with
  | LHex acc hex =>
      match hex_val c with
      | None => None
      | Some _ =>
          let hex' := hex ++ [c] in
          if (length hex' <? 4)%nat then Some (LHex acc hex', [])
          else
            match hex_code hex' with
            | Some n =>
                Some (LStr ((if (n <? 256)%nat then ascii_of_nat n else "?"%char) :: acc), [])
            | None => None
            end
      end
  | _ => lex_step st c
  end.

Fixpoint lex_any (st : lstate) (l : list ascii) : option (list token) :=
  match l with
  | [] => lex_end st
  | c :: r =>
      '(st', ts) ← lex_step_any st c;
      rest ← lex_any st' r;
      Some (ts ++ rest)
  end.

(** Whether [JSON.parse(text)] returns: when this is [false] it throws a
    [SyntaxError]. *)
Definition JSON_valid (text : string) : bool :=
  match (ts ← lex_any LTop (list_ascii_of_string text); parse_tokens (PValue []) ts) with
  | Some _ => true
  | None => false
  end.

(** ** JSON.stringify *)

Definition hex_digit (n : nat) : ascii :=
  if (n <? 10)%nat then ascii_of_nat (48 + n) else ascii_of_nat (87 + n).

Definition quote_char (c : ascii) : list ascii :=
  let n := code c in
  if Ascii.eqb c dquote then ["\"%char; dquote]
  else if Ascii.eqb c "\" then ["\"; "\"]%char
  else if (n =? 8)%nat then ["\"; "b"]%char
  else if (n =? 12)%nat then ["\"; "f"]%char
  else if (n =? 10)%nat then ["\"; "n"]%char
  else if (n =? 13)%nat then ["\"; "r"]%char
  else if (n =? 9)%nat then ["\"; "t"]%char
  else if (n <? 32)%nat then
    ["\"; "u"; "0"; "0"; hex_digit (n / 16); hex_digit (n mod 16)]%char
  else [c].

Definition quote (s : string) : string :=
  string_of_list_ascii
    (dquote :: concat (map quote_char (list_ascii_of_string s)) ++ [dquote]).

(** [None] is the [undefined] that [JSON.stringify] returns for
    [undefined]; inside an array [undefined] is written [null], and a
    member of an object whose value is [undefined] is left out. *)
Fixpoint JSON_stringify (v : JSValue) : option string :=
  match v with
  | JUndefined => None
  | JNull => Some "null"
  | JBool true => Some "true"
  | JBool false => Some "false"
  | JNum n => Some (number_to_string n)
  | JStr s => Some (quote s)
  | JArr l =>
      let elem (x : JSValue) : string := default "null" (JSON_stringify x) in
      Some ("[" +:+
            (fix join (l : list JSValue) : string :=
               match l with
               | [] => ""
               | [x] => elem x
               | x :: r => elem x +:+ "," +:+ join r
               end) l +:+ "]")
  | JObj m =>
      Some ("{" +:+
            (fix members (first : bool) (m : list (string * JSValue)) : string :=
               match m with
               | [] => ""
               | (k, x) :: r =>
                   match JSON_stringify x with
                   | None => members first r
                   | Some s =>
                       (if first then "" else ",") +:+ quote k +:+ ":" +:+ s +:+
                       members false r
                   end
               end) true m +:+ "}")
  end.

(** ** Strings of the platform *)

Definition LF : string := String (ascii_of_nat 10) "".

Definition lines (ls : list string) : string := String.concat LF ls.

(** [s.slice(0, n)] on a string and on an array. *)
Fixpoint string_take (n : N) (s : string) : string :=
  match s with
  | EmptyString => EmptyString
  | String c r => if (n =? 0)%N then EmptyString else String c (string_take (N.pred n) r)
  end.

Fixpoint list_take {A} (n : N) (l : list A) : list A :=
  match l with
  | [] => []
  | x :: r => if (n =? 0)%N then [] else x :: list_take (N.pred n) r
  end.

(** White space and line terminators of [String.prototype.trim] within
    the alphabet: TAB, LF, VT, FF, CR, SP and NBSP. *)
Definition is_js_space (c : ascii) : bool :=
  let n := code c in
  ((9 <=? n)%nat && (n <=? 13)%nat) || (n =? 32)%nat || (n =? 160)%nat.

Definition trim (s : string) : string :=
  string_of_list_ascii
    (rev (drop_while is_js_space (rev (drop_while is_js_space (list_ascii_of_string s))))).

(** [s.replace(pat, rep)] with a string pattern: the first occurrence. *)
Fixpoint replace_first (pat rep s : string) : string :=
  if String.prefix pat s then rep +:+ string_of_list_ascii (drop (String.length pat) (list_ascii_of_string s))
  else
    match s with
    | EmptyString => EmptyString
    | String c r => String c (replace_first pat rep r)
    end.

(** [s.split(',')]. *)
Fixpoint split_comma (cur : list ascii) (l : list ascii) : list string :=
  match l with
  | [] => [string_of_list_ascii (rev cur)]
  | c :: r =>
      if Ascii.eqb c "," then string_of_list_ascii (rev cur) :: split_comma [] r
      else split_comma (c :: cur) r
  end.

(** ** types.ts *)

Inductive AppState := IDLE | UPLOADING | PROCESSING | ANALYZING | COMPLETE | ERROR.

Inductive StepStatus := pending | active | completed.

Record ProcessingStep := mkStep {
  step_id : string;
  step_label : string;
  step_status : StepStatus
}.

Record FileData := mkFileData {
  fd_id : string;
  fd_name : string;
  fd_size : Z;
  fd_type : string;
  fd_previewUrl : option string;
  fd_base64 : option string;
  fd_uploadDate : Z
}.

Inductive Role := user | model.

Record ChatMessage := mkChatMessage {
  msg_id : string;
  msg_role : Role;
  msg_text : string;
  msg_timestamp : Z
}.

(** The browser's [File]: what [processFile] reads of it. *)
Record File := mkFile {
  file_name : string;
  file_size : Z;
  file_type : string
}.

(** ** geminiService.ts *)

(** The descriptor of the response schema that goes out with the analysis
    request. *)
Inductive Schema :=
| SString (description : option string) (enum : list string)
| SNumber (description : option string)
| SInteger
| SArray (items : Schema)
| SObject (properties : list (string * Schema)) (required : list string).

Definition responseSchema : Schema :=
  SObject
    [("markdownContent", SString (Some "Full Markdown conversion") []);
     ("summary", SString (Some "Executive summary (max 100 words)") []);
     ("suggestedFilename", SString None []);
     ("keywords", SArray (SString None []));
     ("keyQuotes", SArray (SString None []));
     ("actionItems",
      SArray (SObject [("task", SString None []);
                       ("priority", SString None ["High"; "Medium"; "Low"])] []));
     ("entities",
      SArray (SObject [("name", SString None []);
                       ("type", SString None ["Person"; "Organization"; "Location"; "Concept"; "Date"]);
                       ("count", SInteger)] []));
     ("stats",
      SObject [("pageCount", SNumber None);
               ("wordCount", SNumber None);
               ("paragraphCount", SNumber None);
               ("imageCount", SNumber None);
               ("sentimentScore", SNumber (Some "0-100"));
               ("complexityScore", SNumber (Some "0-100"));
               ("readingTimeMin", SNumber None);
               ("language", SString None []);
               ("category", SString None []);
               ("tone", SString (Some "One word tone description") [])]
              ["wordCount"; "sentimentScore"; "tone"])]
    [].

Definition prompt : string :=
  lines [""; "    Analyze this PDF document thoroughly."; "    "; "    Tasks:";
         "    1. Convert full content to clean Markdown.";
         "    2. Extract key statistics and metadata.";
         "    3. Identify top 10 entities (people, orgs, locations).";
         "    4. Extract actionable items or key takeaways.";
         "    5. Select 3 impactful quotes.";
         "    6. Analyze tone and complexity.";
         "    "; "    Output strictly in JSON."; "  "].

(** What goes out to the external service. *)
Inductive Request :=
| GenerateContent (model_name : string) (mimeType : string) (data : option string)
    (text : string) (responseMimeType : string) (schema : Schema)
| SendMessage (model_name : string) (systemInstruction : string)
    (history : list (Role * string)) (message : string).

(** How a request ends: the promise rejects, or it resolves to a response
    whose [text] is a string or [undefined]. *)
Inductive Outcome :=
| Rejected (e : JSError)
| Responded (text : option string).

(** [process.env.API_KEY] is [None] when it is not set. *)
Definition getClient (API_KEY : option string) : result string :=
  match API_KEY with
  | Some k => if String.eqb k "" then Throw (Error "API Key not found") else Ok k
  | None => Throw (Error "API Key not found")
  end.

(** [analyzeAndConvertPDF] up to its [await]: the request it sends. *)
Definition analyzeAndConvertPDF_request (API_KEY : option string)
    (base64Data : option string) (mimeType : string) : result Request :=
  _ ← getClient API_KEY;
  Ok (GenerateContent "gemini-2.5-flash" mimeType base64Data prompt
        "application/json" responseSchema).

(** [analyzeAndConvertPDF] from its [await] on.  Everything thrown here is
    thrown inside the [try], so the caller of this function logs it with
    [console.error] and throws it again. *)
Definition analyzeAndConvertPDF_response (o : Outcome) : result JSValue :=
  match o with
  | Rejected e => Throw e
  | Responded None => Throw (Error "No response from AI")
  | Responded (Some text) =>
      if String.eqb text "" then Throw (Error "No response from AI")
      else
        match JSON_parse text with
        | Some v => Ok v
        | None => Throw (SyntaxError "JSON.parse")
        end
  end.

(** [documentContext.slice(0, 500000)]: strings and arrays have the
    method, nothing else that JSON can produce has. *)
Definition slice_context (documentContext : JSValue) : result JSValue :=
  match documentContext with
  | JStr s => Ok (JStr (string_take 500000 s))
  | JArr l => Ok (JArr (list_take 500000 l))
  | JUndefined => Throw (TypeError "Cannot read properties of undefined (reading 'slice')")
  | JNull => Throw (TypeError "Cannot read properties of null (reading 'slice')")
  | _ => Throw (TypeError "documentContext.slice is not a function")
  end.

Definition contextPrompt (documentContext : JSValue) : result string :=
  sliced ← slice_context documentContext;
  body ← to_string sliced;
  Ok (lines [""; "    You are a helpful AI assistant analyzing a specific document.";
             "    Here is the content of the document:"; "    ---";
             "    " +:+ body; "    ---"; "    ";
             "    Answer the user's questions based ONLY on the document above.";
             "    Keep answers concise and relevant."; "  "]).

(** [chatWithDocument] up to its [await]. *)
Definition chatWithDocument_request (API_KEY : option string)
    (history : list ChatMessage) (newMessage : string) (documentContext : JSValue)
  : result Request :=
  _ ← getClient API_KEY;
  sys ← contextPrompt documentContext;
  Ok (SendMessage "gemini-2.5-flash" sys
        (map (fun h => (msg_role h, msg_text h)) history) newMessage).

(** [chatWithDocument] from its [await] on: [response.text || "..."]. *)
Definition chatWithDocument_response (o : Outcome) : result string :=
  match o with
  | Rejected e => Throw e
  | Responded None => Ok "I couldn't generate a response."
  | Responded (Some text) =>
      if String.eqb text "" then Ok "I couldn't generate a response." else Ok text
  end.

(** ** App.tsx: [downloadContent] *)

Inductive ExportType := doc | md | json | txt.

Definition ext_of (type : ExportType) : string :=
  match type with
  | doc => "doc"
  | md => "md"
  | json => "json"
  | txt => "txt"
  end.

(** The file handed to the browser by [a.click()]: the text of the blob,
    its MIME type and the name of the download. *)
Record Download := mkDownload {
  blob_text : string;
  blob_type : string;
  download_name : string
}.

(** The bytes of [new Blob([text])]: the UTF-8 encoding of the text. *)
Definition utf8 (text : string) : list N :=
  concat (map (fun c =>
                 let n := N.of_nat (code c) in
                 if (n <? 128)%N then [n]
                 else [(192 + n / 64)%N; (128 + n mod 64)%N])
              (list_ascii_of_string text)).

Definition blob_bytes (d : Download) : list N := utf8 (blob_text d).

Definition is_line_terminator (c : ascii) : bool :=
  (code c =? 10)%nat || (code c =? 13)%nat.

(** Applies [f] to every line: a line is a maximal run of characters that
    are not line terminators, which is what [^], [.] and [$] delimit under
    the [m] flag. *)
Fixpoint map_lines (f : list ascii -> list ascii) (cur : list ascii) (l : list ascii)
  : list ascii :=
  match l with
  | [] => f (rev cur)
  | c :: r =>
      if is_line_terminator c then f (rev cur) ++ c :: map_lines f [] r
      else map_lines f (c :: cur) r
  end.

Fixpoint strip_prefix (pre l : list ascii) : option (list ascii) :=
  match pre, l with
  | [], _ => Some l
  | p :: pre', c :: l' => if Ascii.eqb p c then strip_prefix pre' l' else None
  | _ :: _, [] => None
  end.

(** The first two [replace] calls on one line: a line that starts with the
    marker (a hash sign and a blank for [h1], two hash signs and a blank
    for [h2]) becomes the rest of the line inside the tag. *)
Definition heading (marker tag : string) (line : list ascii) : list ascii :=
  match strip_prefix (list_ascii_of_string marker) line with
  | Some rest =>
      list_ascii_of_string ("<" +:+ tag +:+ ">") ++ rest ++
      list_ascii_of_string ("</" +:+ tag +:+ ">")
  | None => line
  end.

(** Splits at the first occurrence of two asterisks. *)
Fixpoint split_stars (seen : list ascii) (l : list ascii)
  : option (list ascii * list ascii) :=
  match l with
  | "*"%char :: "*"%char :: r => Some (rev seen, r)
  | c :: r => split_stars (c :: seen) r
  | [] => None
  end.

(** The third [replace] call on one line: the match starts at the first
    pair of asterisks and, the middle of the pattern being greedy, ends
    with the last pair that does not overlap the first; nothing after it
    can match again.  What lies between goes inside the [b] tag. *)
Definition bold (line : list ascii) : list ascii :=
  match split_stars [] line with
  | None => line
  | Some (before, rest) =>
      match split_stars [] (rev rest) with
      | None => line
      | Some (rev_after, rev_inner) =>
          before ++ list_ascii_of_string "<b>" ++ rev rev_inner ++
          list_ascii_of_string "</b>" ++ rev rev_after
      end
  end.

Definition br (l : list ascii) : list ascii :=
  concat (map (fun c => if (code c =? 10)%nat then list_ascii_of_string "<br>" else [c]) l).

(** The chain of four [replace] calls of the [doc] branch. *)
Definition md_to_html (content : string) : string :=
  let l := list_ascii_of_string content in
  let l := map_lines (heading "# " "h1") [] l in
  let l := map_lines (heading "## " "h2") [] l in
  let l := map_lines bold [] l in
  string_of_list_ascii (br l).

Definition doc_header : string :=
  "<html xmlns:o='urn:schemas-microsoft-com:office:office' xmlns:w='urn:schemas-microsoft-com:office:word'><head><meta charset='utf-8'></head><body>".

Definition doc_footer : string := "</body></html>".

(** [downloadContent(content, filename, type)].  Its callers pass
    [result.markdownContent] and [result.suggestedFilename], which are
    strings only if the service kept to the schema; [content.replace] and
    [filename.replace] throw on anything else, and a blob part that is not
    a string is converted with ToString. *)
Definition downloadContent (content filename : JSValue) (type : ExportType)
  : result Download :=
  let mime :=
    match type with
    | doc => "application/msword"
    | json => "application/json"
    | _ => "text/plain"
    end in
  data ← match type with
         | doc =>
             match content with
             | JStr c => Ok (doc_header +:+ md_to_html c +:+ doc_footer)
             | JUndefined | JNull => Throw (TypeError "Cannot read properties (reading 'replace')")
             | _ => Throw (TypeError "content.replace is not a function")
             end
         | _ => to_string content
         end;
  name ← match filename with
         | JStr f => Ok (replace_first ".docx" "" f)
         | JUndefined | JNull => Throw (TypeError "Cannot read properties (reading 'replace')")
         | _ => Throw (TypeError "filename.replace is not a function")
         end;
  Ok (mkDownload data mime (name +:+ "." +:+ ext_of type)).

(** ** App.tsx: the state of the component *)

Inductive Tab := dashboard | chat | preview | settings.

(** The [useState] cells (lines 97-119).  [result] is [JNull] for [null];
    [recentFiles] is whatever [JSON.parse] made of the stored text. *)
Record AppModel := mkApp {
  activeTab : Tab;
  appState : AppState;
  fileData : option FileData;
  result_ : JSValue;
  error : option string;
  chatHistory : list ChatMessage;
  chatInput : string;
  isChatLoading : bool;
  steps : list ProcessingStep;
  recentFiles : JSValue;
  sidebarOpen : bool
}.

Definition setActiveTab (v : Tab) (a : AppModel) : AppModel :=
  mkApp v (appState a) (fileData a) (result_ a) (error a) (chatHistory a) (chatInput a)
        (isChatLoading a) (steps a) (recentFiles a) (sidebarOpen a).
Definition setAppState (v : AppState) (a : AppModel) : AppModel :=
  mkApp (activeTab a) v (fileData a) (result_ a) (error a) (chatHistory a) (chatInput a)
        (isChatLoading a) (steps a) (recentFiles a) (sidebarOpen a).
Definition setFileData (v : option FileData) (a : AppModel) : AppModel :=
  mkApp (activeTab a) (appState a) v (result_ a) (error a) (chatHistory a) (chatInput a)
        (isChatLoading a) (steps a) (recentFiles a) (sidebarOpen a).
Definition setResult (v : JSValue) (a : AppModel) : AppModel :=
  mkApp (activeTab a) (appState a) (fileData a) v (error a) (chatHistory a) (chatInput a)
        (isChatLoading a) (steps a) (recentFiles a) (sidebarOpen a).
Definition setError (v : option string) (a : AppModel) : AppModel :=
  mkApp (activeTab a) (appState a) (fileData a) (result_ a) v (chatHistory a) (chatInput a)
        (isChatLoading a) (steps a) (recentFiles a) (sidebarOpen a).
Definition setChatHistory (f : list ChatMessage -> list ChatMessage) (a : AppModel) : AppModel :=
  mkApp (activeTab a) (appState a) (fileData a) (result_ a) (error a) (f (chatHistory a))
        (chatInput a) (isChatLoading a) (steps a) (recentFiles a) (sidebarOpen a).
Definition setChatInput (v : string) (a : AppModel) : AppModel :=
  mkApp (activeTab a) (appState a) (fileData a) (result_ a) (error a) (chatHistory a) v
        (isChatLoading a) (steps a) (recentFiles a) (sidebarOpen a).
Definition setIsChatLoading (v : bool) (a : AppModel) : AppModel :=
  mkApp (activeTab a) (appState a) (fileData a) (result_ a) (error a) (chatHistory a)
        (chatInput a) v (steps a) (recentFiles a) (sidebarOpen a).
Definition setSteps (f : list ProcessingStep -> list ProcessingStep) (a : AppModel) : AppModel :=
  mkApp (activeTab a) (appState a) (fileData a) (result_ a) (error a) (chatHistory a)
        (chatInput a) (isChatLoading a) (f (steps a)) (recentFiles a) (sidebarOpen a).
Definition setRecentFiles (v : JSValue) (a : AppModel) : AppModel :=
  mkApp (activeTab a) (appState a) (fileData a) (result_ a) (error a) (chatHistory a)
        (chatInput a) (isChatLoading a) (steps a) v (sidebarOpen a).
Definition setSidebarOpen (v : bool) (a : AppModel) : AppModel :=
  mkApp (activeTab a) (appState a) (fileData a) (result_ a) (error a) (chatHistory a)
        (chatInput a) (isChatLoading a) (steps a) (recentFiles a) v.

(** The initial values of the cells (lines 97-119). *)
Definition initial_app : AppModel :=
  mkApp dashboard IDLE None JNull None [] "" false
        [mkStep "upload" "Secure Encryption" pending;
         mkStep "analyze" "AI Deep Analysis" pending;
         mkStep "extract" "Extracting Entities" pending;
         mkStep "generate" "Generating Document" pending]
        (JArr []) true.

(** [s.map(step => ({...step, status: 'pending'}))] and
    [s.map(step => step.id === id ? {...step, status} : step)]. *)
Definition all_pending (s : list ProcessingStep) : list ProcessingStep :=
  map (fun st => mkStep (step_id st) (step_label st) pending) s.

Definition mark (id : string) (status : StepStatus) (s : list ProcessingStep)
  : list ProcessingStep :=
  map (fun st => if String.eqb (step_id st) id
                 then mkStep (step_id st) (step_label st) status else st) s.

(** ** App.tsx: the component and its environment *)

(** What a pending promise or callback needs when it is resumed.  The
    pipeline tasks carry [recent], the value of [recentFiles] in the
    closure of [addToHistory], which is the one of the render in which
    [processFile] was called. *)
Inductive Task :=
| ReaderTask (file : File) (recent : JSValue)
| AnalysisTask (newFile : FileData) (recent : JSValue)
| PaceExtract (newFile : FileData) (analysis : JSValue) (recent : JSValue)
| PaceGenerate (newFile : FileData) (analysis : JSValue) (recent : JSValue)
| ChatTask.

Record World := mkWorld {
  app : AppModel;
  localStorage : gmap string string;
  API_KEY : option string;
  tasks : gmap nat Task;
  next_task : nat;
  requests : list Request;
  downloads : list Download;
  console_errors : list JSError;
  uncaught : list JSError;
  unmounted : bool
}.

Definition with_app (f : AppModel -> AppModel) (w : World) : World :=
  mkWorld (f (app w)) (localStorage w) (API_KEY w) (tasks w) (next_task w) (requests w)
          (downloads w) (console_errors w) (uncaught w) (unmounted w).

Definition setItem (k v : string) (w : World) : World :=
  mkWorld (app w) (<[k:=v]> (localStorage w)) (API_KEY w) (tasks w) (next_task w)
          (requests w) (downloads w) (console_errors w) (uncaught w) (unmounted w).

Definition spawn (t : Task) (w : World) : World :=
  mkWorld (app w) (localStorage w) (API_KEY w) (<[next_task w:=t]> (tasks w))
          (S (next_task w)) (requests w) (downloads w) (console_errors w) (uncaught w)
          (unmounted w).

Definition finish (tid : nat) (w : World) : World :=
  mkWorld (app w) (localStorage w) (API_KEY w) (delete tid (tasks w)) (next_task w)
          (requests w) (downloads w) (console_errors w) (uncaught w) (unmounted w).

Definition send (r : Request) (w : World) : World :=
  mkWorld (app w) (localStorage w) (API_KEY w) (tasks w) (next_task w) (requests w ++ [r])
          (downloads w) (console_errors w) (uncaught w) (unmounted w).

Definition save (d : Download) (w : World) : World :=
  mkWorld (app w) (localStorage w) (API_KEY w) (tasks w) (next_task w) (requests w)
          (downloads w ++ [d]) (console_errors w) (uncaught w) (unmounted w).

Definition console_error (e : JSError) (w : World) : World :=
  mkWorld (app w) (localStorage w) (API_KEY w) (tasks w) (next_task w) (requests w)
          (downloads w) (console_errors w ++ [e]) (uncaught w) (unmounted w).

(** An exception that leaves a handler, or a rejection nobody handles. *)
Definition escape (e : JSError) (w : World) : World :=
  mkWorld (app w) (localStorage w) (API_KEY w) (tasks w) (next_task w) (requests w)
          (downloads w) (console_errors w) (uncaught w ++ [e]) (unmounted w).

(** An exception that leaves an effect: React takes the component down. *)
Definition crash (e : JSError) (w : World) : World :=
  mkWorld (app w) (localStorage w) (API_KEY w) (tasks w) (next_task w) (requests w)
          (downloads w) (console_errors w) (uncaught w ++ [e]) true.

Definition history_key : string := "smartpdf_history".

(** The effect of lines 121-124. *)
Definition load_history (w : World) : World :=
  match localStorage w !! history_key with
  | None => w
  | Some saved =>
      if String.eqb saved "" then w
      else
        match JSON_parse saved with
        | Some v => with_app (setRecentFiles v) w
        | None => crash (SyntaxError "JSON.parse") w
        end
  end.

(** The component after its first render and its effect, over what the
    browser holds in local storage and what the build put in
    [process.env.API_KEY]. *)
Definition boot (storage : gmap string string) (key : option string) : World :=
  load_history (mkWorld initial_app storage key ∅ 0 [] [] [] [] false).

(** [recentFiles.filter(i => i.id !== id)] on the elements of an array. *)
Fixpoint filter_other_ids (id : string) (l : list JSValue) : result (list JSValue) :=
  match l with
  | [] => Ok []
  | i :: r =>
      v ← get_prop i "id";
      rest ← filter_other_ids id r;
      Ok (if strict_ne_string v id then i :: rest else rest)
  end.

Definition filter_recent (id : string) (recent : JSValue) : result (list JSValue) :=
  match recent with
  | JArr l => filter_other_ids id l
  | JUndefined | JNull => Throw (TypeError "Cannot read properties (reading 'filter')")
  | _ => Throw (TypeError "recentFiles.filter is not a function")
  end.

Definition newItem (file : FileData) (now : Z) (summary stats : JSValue) : JSValue :=
  JObj [("id", JStr (fd_id file)); ("fileName", JStr (fd_name file));
        ("date", JNum (num_of_Z now)); ("summary", summary); ("stats", stats)].

(** [addToHistory(file, analysis)] (lines 126-137), with [recent] the
    [recentFiles] of its closure and [now] the value of [Date.now()]. *)
Definition addToHistory (recent : JSValue) (file : FileData) (analysis : JSValue)
    (now : Z) (w : World) : result World :=
  summary ← get_prop analysis "summary";
  stats ← get_prop analysis "stats";
  kept ← filter_recent (fd_id file) recent;
  let updated := JArr (take 10 (newItem file now summary stats :: kept)) in
  Ok (setItem history_key (default "undefined" (JSON_stringify updated))
        (with_app (setRecentFiles updated) w)).

Definition size_limit : Z := 20 * 1024 * 1024.

(** [processFile(file)] up to the registration of [reader.onload] (lines
    139-156).  Nothing in the [try] block throws for a [File]. *)
Definition processFile (file : File) (w : World) : World :=
  if (file_size file >? size_limit)%Z then
    with_app (setError (Some "File size exceeds 20MB limit.")) w
  else
    let recent := recentFiles (app w) in
    let w := with_app (setAppState UPLOADING) w in
    let w := with_app (setError None) w in
    let w := with_app (setResult JNull) w in
    let w := with_app (setChatHistory (fun _ => [])) w in
    let w := with_app (setSteps all_pending) w in
    let w := with_app (setSteps (mark "upload" active)) w in
    spawn (ReaderTask file recent) w.

(** The [reader.onload] callback up to [await analyzeAndConvertPDF]
    (lines 157-176).  [dataURL] is [reader.result], [uuid] the value of
    [crypto.randomUUID()], [now] the value of [Date.now()].  When
    [analyzeAndConvertPDF] rejects at once the rejection leaves the
    callback: the [try] of [processFile] ended long before. *)
Definition reader_onload (file : File) (recent : JSValue) (dataURL uuid : string)
    (now : Z) (w : World) : World :=
  let base64 := split_comma [] (list_ascii_of_string dataURL) !! 1%nat in
  let newFile :=
    mkFileData uuid (file_name file) (file_size file) (file_type file) None base64 now in
  let w := with_app (setFileData (Some newFile)) w in
  let w := with_app (setSteps (mark "upload" completed)) w in
  let w := with_app (setAppState PROCESSING) w in
  let w := with_app (setSteps (mark "analyze" active)) w in
  match analyzeAndConvertPDF_request (API_KEY w) base64 (file_type file) with
  | Ok req => spawn (AnalysisTask newFile recent) (send req w)
  | Throw e => escape e w
  end.

(** The callback from the [await] of the analysis to the first pacing
    timer (lines 176-181). *)
Definition analysis_settled (newFile : FileData) (recent : JSValue) (o : Outcome)
    (w : World) : World :=
  match analyzeAndConvertPDF_response o with
  | Throw e => escape e (console_error e w)
  | Ok analysis =>
      let w := with_app (setSteps (mark "analyze" completed)) w in
      let w := with_app (setSteps (mark "extract" active)) w in
      spawn (PaceExtract newFile analysis recent) w
  end.

(** Lines 183-186. *)
Definition extract_paced (newFile : FileData) (analysis recent : JSValue) (w : World)
  : World :=
  let w := with_app (setSteps (mark "extract" completed)) w in
  let w := with_app (setSteps (mark "generate" active)) w in
  spawn (PaceGenerate newFile analysis recent) w.

(** Lines 188-192. *)
Definition generate_paced (newFile : FileData) (analysis recent : JSValue) (now : Z)
    (w : World) : World :=
  let w := with_app (setSteps (mark "generate" completed)) w in
  let w := with_app (setResult analysis) w in
  let w := with_app (setAppState COMPLETE) w in
  match addToHistory recent newFile analysis now w with
  | Ok w' => w'
  | Throw e => escape e w
  end.

(** [handleChat()] up to [await chatWithDocument] (lines 201-210), and
    through its [catch] and [finally] when the call rejects at once. *)
Definition handleChat (uuid : string) (now : Z) (w : World) : World :=
  let a := app w in
  if String.eqb (trim (chatInput a)) "" || negb (to_boolean (result_ a)) then w
  else
    let userMsg := mkChatMessage uuid user (chatInput a) now in
    let w1 := with_app (setChatHistory (fun prev => prev ++ [userMsg])) w in
    let w1 := with_app (setChatInput "") w1 in
    let w1 := with_app (setIsChatLoading true) w1 in
    match (ctx ← get_prop (result_ a) "markdownContent";
           chatWithDocument_request (API_KEY w) (chatHistory a) (chatInput a) ctx) with
    | Ok req => spawn ChatTask (send req w1)
    | Throw e => with_app (setIsChatLoading false) (console_error e w1)
    end.

(** [handleChat()] from the [await] on (lines 210-218). *)
Definition chat_settled (o : Outcome) (uuid : string) (now : Z) (w : World) : World :=
  match chatWithDocument_response o with
  | Ok responseText =>
      let aiMsg := mkChatMessage uuid model responseText now in
      let w := with_app (setChatHistory (fun prev => prev ++ [aiMsg])) w in
      with_app (setIsChatLoading false) w
  | Throw e => with_app (setIsChatLoading false) (console_error e w)
  end.

(** The Clear button of the first revision (line 296):
    [setResult(null) || setAppState(AppState.IDLE)]; the setter returns
    [undefined], so both calls are made. *)
Definition onClear (w : World) : World :=
  with_app (setAppState IDLE) (with_app (setResult JNull) w).

(** The export buttons (lines 302 and 581). *)
Definition onExport (type : ExportType) (w : World) : World :=
  match (content ← get_prop (result_ (app w)) "markdownContent";
         filename ← get_prop (result_ (app w)) "suggestedFilename";
         downloadContent content filename type) with
  | Ok d => save d w
  | Throw e => escape e w
  end.

(** ** App.tsx: what can happen, and when

    An event is a user action on an element that the JSX renders, or the
    completion of something the component started.  [step] yields [None]
    when the event cannot happen: the element is not rendered or is
    disabled in the current state, or no such task is pending.  Rendering
    itself is not modelled beyond these conditions. *)

Inductive Event :=
| SelectFile (file : File)
| ReaderLoad (tid : nat) (dataURL uuid : string) (now : Z)
| ReaderFail (tid : nat)
| Settle (tid : nat) (o : Outcome) (uuid : string) (now : Z)
| TimerFires (tid : nat) (now : Z)
| ClickTab (t : Tab)
| ClickClear
| ClickDownloadDocx
| ClickExport (type : ExportType)
| ClickSuggestion (q : string)
| TypeChatInput (text : string)
| PressEnter (uuid : string) (now : Z)
| ClickSend (uuid : string) (now : Z)
| DismissError
| ToggleSidebar.

#[global] Instance AppState_eq_dec : EqDecision AppState.
Proof. solve_decision. Defined.

#[global] Instance Tab_eq_dec : EqDecision Tab.
Proof. solve_decision. Defined.

Definition is_state (s : AppState) (w : World) : bool :=
  bool_decide (appState (app w) = s).

(** The condition of line 386 together with the one of line 489: the chat
    panel is on screen. *)
Definition chat_panel (w : World) : bool :=
  is_state COMPLETE w && to_boolean (result_ (app w))
  && bool_decide (activeTab (app w) = chat).

Definition suggestions : list string :=
  ["Summarize this"; "What are the main risks?"; "List the key dates"].

Definition step (w : World) (ev : Event) : option World :=
  if unmounted w then None else
  match ev with
  | SelectFile file =>
      (* the upload box, line 315 *)
      if is_state IDLE w then Some (processFile file w) else None
  | ReaderLoad tid dataURL uuid now =>
      match tasks w !! tid with
      | Some (ReaderTask file recent) =>
          Some (reader_onload file recent dataURL uuid now (finish tid w))
      | _ => None
      end
  | ReaderFail tid =>
      (* no [onerror] handler is registered *)
      match tasks w !! tid with
      | Some (ReaderTask _ _) => Some (finish tid w)
      | _ => None
      end
  | Settle tid o uuid now =>
      match tasks w !! tid with
      | Some (AnalysisTask newFile recent) =>
          Some (analysis_settled newFile recent o (finish tid w))
      | Some ChatTask => Some (chat_settled o uuid now (finish tid w))
      | _ => None
      end
  | TimerFires tid now =>
      match tasks w !! tid with
      | Some (PaceExtract newFile analysis recent) =>
          Some (extract_paced newFile analysis recent (finish tid w))
      | Some (PaceGenerate newFile analysis recent) =>
          Some (generate_paced newFile analysis recent now (finish tid w))
      | _ => None
      end
  | ClickTab t =>
      (* lines 242-243 *)
      if is_state COMPLETE w then Some (with_app (setActiveTab t) w) else None
  | ClickClear =>
      (* line 293 *)
      if is_state COMPLETE w then Some (onClear w) else None
  | ClickDownloadDocx =>
      (* lines 293 and 302 *)
      if is_state COMPLETE w
      then Some (if to_boolean (result_ (app w)) then onExport doc w else w)
      else None
  | ClickExport type =>
      (* lines 386, 574 and 581 *)
      if is_state COMPLETE w && to_boolean (result_ (app w))
         && bool_decide (activeTab (app w) = settings)
      then Some (onExport type w) else None
  | ClickSuggestion q =>
      (* lines 502 and 507-508 *)
      if chat_panel w && bool_decide (chatHistory (app w) = [])
         && bool_decide (q ∈ suggestions)
      then Some (with_app (setChatInput q) w) else None
  | TypeChatInput text =>
      if chat_panel w then Some (with_app (setChatInput text) w) else None
  | PressEnter uuid now =>
      (* line 539: nothing but the key is tested *)
      if chat_panel w then Some (handleChat uuid now w) else None
  | ClickSend uuid now =>
      (* lines 544-545 *)
      if chat_panel w
         && negb (String.eqb (trim (chatInput (app w))) "" || isChatLoading (app w))
      then Some (handleChat uuid now w) else None
  | DismissError =>
      (* lines 607 and 611 *)
      match error (app w) with
      | Some _ => Some (with_app (setError None) w)
      | None => None
      end
  | ToggleSidebar =>
      Some (with_app (fun a => setSidebarOpen (negb (sidebarOpen a)) a) w)
  end.

(** The worlds after each event of a sequence, and the last of them. *)
Fixpoint trace (w : World) (evs : list Event) : option (list World) :=
  match evs with
  | [] => Some []
  | ev :: r => w' ← step w ev; ws ← trace w' r; Some (w' :: ws)
  end.

Fixpoint run (w : World) (evs : list Event) : option World :=
  match evs with
  | [] => Some w
  | ev :: r => w' ← step w ev; run w' r
  end.

(** The values a cell takes over time: consecutive repetitions count
    once. *)
Fixpoint changes (prev : AppState) (l : list AppState) : list AppState :=
  match l with
  | [] => []
  | s :: r => if bool_decide (s = prev) then changes prev r else s :: changes s r
  end.

Definition visited (w : World) (ws : list World) : list AppState :=
  appState (app w) :: changes (appState (app w)) (map (fun x => appState (app x)) ws).

(** One question asked and answered: the text goes into the input, Enter
    is pressed, and the request, if one went out (a task was started),
    settles with the given outcome before anything else happens. *)
Record Ask := mkAsk {
  question : string;
  asked_id : string;
  asked_at : Z;
  outcome : Outcome;
  answered_id : string;
  answered_at : Z
}.

Definition ask (w : World) (q : Ask) : option World :=
  w1 ← step w (TypeChatInput (question q));
  w2 ← step w1 (PressEnter (asked_id q) (asked_at q));
  if (next_task w2 =? S (next_task w1))%nat
  then step w2 (Settle (next_task w1) (outcome q) (answered_id q) (answered_at q))
  else Some w2.

Fixpoint asks (w : World) (qs : list Ask) : option World :=
  match qs with
  | [] => Some w
  | q :: r => w' ← ask w q; asks w' r
  end.

(** ** The vocabulary of the specification *)

(** The phases the specification speaks of, and the phase each value of
    [AppState] stands for.  [UPLOADING] is set when a file was accepted and
    is being read, [PROCESSING] when the document is ready and the request
    goes out; [ANALYZING] is declared and rendered like them but never
    assigned. *)
Inductive PipelinePhase := Idle | Ingesting | Analyzing | Completed | Failed.

Definition phase_of (s : AppState) : PipelinePhase :=
  match s with
  | IDLE => Idle
  | UPLOADING => Ingesting
  | PROCESSING | ANALYZING => Analyzing
  | COMPLETE => Completed
  | ERROR => Failed
  end.

(** The validation the specification describes for a payload: a required
    field of [stats] is missing or ill-typed, or a score lies outside
    0..100. *)
Definition is_number (v : JSValue) : bool :=
  match v with JNum _ => true | _ => false end.

Definition is_string (v : JSValue) : bool :=
  match v with JStr _ => true | _ => false end.



(** ** The declared types *)

(** The interfaces of [types.ts] as predicates on the values of JSON: an
    object with every declared property, each of its declared type.
    Further properties may be present.  The component is type checked
    against these interfaces, so on such values no property read of the
    render meets [undefined]. *)
Definition has_number (m : list (string * JSValue)) (k : string) : bool :=
  is_number (obj_get m k).

Definition has_string (m : list (string * JSValue)) (k : string) : bool :=
  is_string (obj_get m k).


Definition array_of (p : JSValue -> bool) (v : JSValue) : bool :=
  match v with
  | JArr l => forallb p l
  | _ => false
  end.

Definition is_DocumentStats (v : JSValue) : bool :=
  match v with
  | JObj m =>
      forallb (has_number m)
        ["pageCount"; "wordCount"; "paragraphCount"; "imageCount"; "sentimentScore";
         "complexityScore"; "readingTimeMin"]
      && forallb (has_string m) ["language"; "category"; "tone"]
  | _ => false
  end.




Definition is_HistoryItem (v : JSValue) : bool :=
  match v with
  | JObj m =>
      has_string m "id" && has_string m "fileName" && has_number m "date"
      && has_string m "summary" && is_DocumentStats (obj_get m "stats")
  | _ => false
  end.

(** [HistoryItem[]], the declared type of the ledger. *)
Definition is_history (v : JSValue) : bool := array_of is_HistoryItem v.

(** ** The ways a call of the service fails *)



(** ** A complete run, for the examples *)

Definition sample_file : File := mkFile "report.pdf" 1000 "application/pdf".

Definition sample_payload : string :=
  (js "{'markdownContent':'# Title','summary':'S','suggestedFilename':'report.docx','keywords':['k'],'keyQuotes':['q'],'actionItems':[{'task':'t','priority':'High'}],'entities':[{'name':'n','type':'Person','count':2}],'stats':{'pageCount':1,'wordCount':500,'paragraphCount':3,'imageCount':0,'sentimentScore':70,'complexityScore':40,'readingTimeMin':2,'language':'en','category':'report','tone':'neutral'}}").

Definition sample_run (payload : string) : list Event :=
  [SelectFile sample_file;
   ReaderLoad 0 "data:application/pdf;base64,QUJD" "id-1" 1700000000000;
   Settle 1 (Responded (Some payload)) "" 0;
   TimerFires 2 0;
   TimerFires 3 1700000000900].

Definition sample_world : option World := run (boot ∅ (Some "key")) (sample_run sample_payload).

Ltac unfold_bind := unfold mbind, result_bind, option_bind in *.


(** The sample run with the chat tab opened, with a question in flight,
    and with a question asked and answered. *)
Definition or_boot (o : option World) : World := default (boot ∅ None) o.

Definition chat_world : World :=
  or_boot (w ← sample_world; step w (ClickTab chat)).

Definition asking_world : World :=
  or_boot (run chat_world [TypeChatInput "What is it?"; PressEnter "id-2" 1700000001000]).

Definition answered_world : World :=
  or_boot (step asking_world (Settle 4 (Responded (Some "A title.")) "id-3" 1700000002000)).




(** ** The ledger *)

(** A value other than [null] and [undefined]: one whose properties can be
    read. *)
Definition readable (v : JSValue) : bool :=
  match v with
  | JUndefined | JNull => false
  | _ => true
  end.

(** The document identity of an entry, and the test of [addToHistory]'s
    filter on it. *)
Definition item_id (i : JSValue) : JSValue :=
  match i with
  | JObj m => obj_get m "id"
  | _ => JUndefined
  end.

Definition other_id (id : string) (i : JSValue) : bool := strict_ne_string (item_id i) id.

(** One record operation, and a sequence of them, each with the file, the
    analysis and the time of the recording; [addToHistory] reads the
    current ledger. *)
Definition record (op : FileData * JSValue * Z) (w : World) : result World :=
  let '(file, analysis, now) := op in
  addToHistory (recentFiles (app w)) file analysis now w.

Fixpoint records (ops : list (FileData * JSValue * Z)) (w : World) : result World :=
  match ops with
  | [] => Ok w
  | op :: r => w' ← record op w; records r w'
  end.

(** ** The transcript *)

(** Whether [chatWithDocument] gets as far as sending its request: the
    key is there and the document context can be put into the prompt. *)
Definition can_call (key : option string) (result : JSValue) : bool :=
  match (ctx ← get_prop result "markdownContent"; _ ← getClient key; contextPrompt ctx) with
  | Ok _ => true
  | Throw _ => false
  end.

(** The text a call returns, if it returns one. *)
Definition answer (key : option string) (result : JSValue) (q : Ask) : option string :=
  if can_call key result then
    match chatWithDocument_response (outcome q) with
    | Ok text => Some text
    | Throw _ => None
    end
  else None.

Definition user_turn (q : Ask) : ChatMessage :=
  mkChatMessage (asked_id q) user (question q) (asked_at q).

Definition model_turn (q : Ask) (text : string) : ChatMessage :=
  mkChatMessage (answered_id q) model text (answered_at q).

(** The turns one question leaves in the transcript. *)
Definition turns (key : option string) (result : JSValue) (q : Ask) : list ChatMessage :=
  user_turn q :: match answer key result q with
                 | Some text => [model_turn q text]
                 | None => []
                 end.

(** Three questions, the second of which the service fails to answer. *)
Definition three_questions : list Ask :=
  [mkAsk "What is it?" "q-1" 10 (Responded (Some "A title.")) "a-1" 11;
   mkAsk "Who wrote it?" "q-2" 20 (Rejected (ServiceFailure "503")) "a-2" 21;
   mkAsk "How long is it?" "q-3" 30 (Responded (Some "500 words.")) "a-3" 31].

(** ** The pipeline *)

(** The phase in which a task of the pipeline is pending; a chat request
    belongs to no phase. *)
Definition task_phase (t : Task) : option AppState :=
  match t with
  | ReaderTask _ _ => Some UPLOADING
  | AnalysisTask _ _ | PaceExtract _ _ _ | PaceGenerate _ _ _ => Some PROCESSING
  | ChatTask => None
  end.

(** No task of the pipeline is pending. *)
Definition quiet (m : gmap nat Task) : Prop :=
  forall tid t, m !! tid = Some t -> task_phase t = None.

(** At most one task of the pipeline is pending, and it is the one of the
    current phase. *)
Definition one_run (m : gmap nat Task) (s : AppState) : Prop :=
  quiet m
  \/ exists tid t, m !! tid = Some t /\ task_phase t = Some s /\ quiet (delete tid m).

(** The phase changes of the component. *)
Definition allowed (s s' : AppState) : Prop :=
  s' = s
  \/ (s = IDLE /\ s' = UPLOADING)
  \/ (s = UPLOADING /\ s' = PROCESSING)
  \/ (s = PROCESSING /\ s' = COMPLETE)
  \/ (s = COMPLETE /\ s' = IDLE).

(** What is still to come after a phase of a run. *)
Definition rest_of (s : AppState) : list AppState :=
  match s with
  | IDLE => [UPLOADING; PROCESSING; COMPLETE]
  | UPLOADING => [PROCESSING; COMPLETE]
  | PROCESSING => [COMPLETE]
  | _ => []
  end.

(** The worlds of the sample run. *)
Definition sample_trace : list World :=
  default [] (trace (boot ∅ (Some "key")) (sample_run sample_payload)).


(** The list of recent files in the side bar (lines 260-265):
    [recentFiles.map(file => ...)] with, for each entry, the key
    [file.id] and the child [sidebarOpen && file.fileName].  What React
    does with the keys and the children is not modelled. *)
Fixpoint recent_entry_list (open : bool) (l : list JSValue)
  : result (list (JSValue * JSValue)) :=
  match l with
  | [] => Ok []
  | file :: r =>
      key ← get_prop file "id";
      child ← (if open then get_prop file "fileName" else Ok (JBool false));
      rest ← recent_entry_list open r;
      Ok ((key, child) :: rest)
  end.

Definition recent_entries (open : bool) (recentFiles : JSValue)
  : result (list (JSValue * JSValue)) :=
  match recentFiles with
  | JArr l => recent_entry_list open l
  | JUndefined => Throw (TypeError "Cannot read properties of undefined (reading 'map')")
  | JNull => Throw (TypeError "Cannot read properties of null (reading 'map')")
  | _ => Throw (TypeError "recentFiles.map is not a function")
  end.

(** What the sample run leaves in local storage, and the component
    started again on it. *)
Definition stored_history : string :=
  default "" (w ← sample_world; localStorage w !! history_key).

Definition restarted_world : World :=
  boot {[history_key := stored_history]} (Some "key").

(** The ledger a pending task of the pipeline carries in its closure. *)
Definition task_recent (t : Task) : option JSValue :=
  match t with
  | ReaderTask _ r | AnalysisTask _ r | PaceExtract _ _ r | PaceGenerate _ _ r => Some r
  | ChatTask => None
  end.

(** A ledger as [addToHistory] leaves it: a list of at most 10 entries. *)
Definition good_ledger (v : JSValue) : Prop :=
  exists l, v = JArr l /\ (length l <= 10)%nat /\ Forall (fun i => readable i = true) l.

(** The ledger and every ledger held by a pending task are good, and local
    storage holds the serialised ledger (or nothing yet, the ledger being
    empty). *)
Definition ledger_inv (w : World) : Prop :=
  good_ledger (recentFiles (app w))
  /\ (forall tid t r, tasks w !! tid = Some t -> task_recent t = Some r -> good_ledger r)
  /\ (localStorage w !! history_key = JSON_stringify (recentFiles (app w))
      \/ (localStorage w !! history_key = None /\ recentFiles (app w) = JArr [])).

(** Every pending task of the pipeline holds the current ledger. *)
Definition closures_current (w : World) : Prop :=
  forall tid t r, tasks w !! tid = Some t -> task_recent t = Some r ->
                  r = recentFiles (app w).

(** ** The phases an execution can reach *)

(** The values of [appState] that some handler assigns. *)
Definition assigned (s : AppState) : Prop :=
  s = IDLE \/ s = UPLOADING \/ s = PROCESSING \/ s = COMPLETE.

(** A run that has lost its task: the phase of a run, and no task of the
    pipeline pending. *)
Definition stranded (w : World) : Prop :=
  (appState (app w) = UPLOADING \/ appState (app w) = PROCESSING) /\ quiet (tasks w).

(** No key for the service: [process.env.API_KEY] is unset or empty. *)
Definition no_key (key : option string) : Prop := key = None \/ key = Some "".

(** The tasks of the pipeline that run after the analysis began. *)
Definition past_reader (t : Task) : bool :=
  match t with
  | ReaderTask _ _ => false
  | _ => true
  end.

Definition comma_free (s : string) : bool :=
  forallb (fun c => negb (Ascii.eqb c ",")) (list_ascii_of_string s).

(** ** The list of steps on the processing view *)

(** The four steps with given statuses. *)
Definition shown (s1 s2 s3 s4 : StepStatus) : list ProcessingStep :=
  [mkStep "upload" "Secure Encryption" s1;
   mkStep "analyze" "AI Deep Analysis" s2;
   mkStep "extract" "Extracting Entities" s3;
   mkStep "generate" "Generating Document" s4].

(** Completed steps, then at most one active step, then pending steps. *)
Definition stages : list (list ProcessingStep) :=
  [shown pending pending pending pending;
   shown active pending pending pending;
   shown completed active pending pending;
   shown completed completed active pending;
   shown completed completed completed active;
   shown completed completed completed completed].

Ltac stage_membership :=
  unfold stages; repeat first [apply list_elem_of_here | apply list_elem_of_further].

(** The stage that goes with a pending task of the pipeline. *)
Definition stage_of (t : Task) : option (list ProcessingStep) :=
  match t with
  | ReaderTask _ _ => Some (shown active pending pending pending)
  | AnalysisTask _ _ => Some (shown completed active pending pending)
  | PaceExtract _ _ _ => Some (shown completed completed active pending)
  | PaceGenerate _ _ _ => Some (shown completed completed completed active)
  | ChatTask => None
  end.

(** What [Steps] (lines 58-82) renders for each step: the badge (a check
    mark for a completed step, the number of the step otherwise), the
    label, and whether the moving bar of an active step is there. *)
Inductive Badge := CheckMark | Number (n : nat).

Definition Steps (steps : list ProcessingStep) : list (Badge * string * bool) :=
  imap (fun idx st =>
          (match step_status st with completed => CheckMark | _ => Number (idx + 1) end,
           step_label st,
           match step_status st with active => true | _ => false end))
       steps.

Definition steps_inv (w : World) : Prop :=
  steps (app w) ∈ stages
  /\ (appState (app w) = COMPLETE ->
      steps (app w) = shown completed completed completed completed)
  /\ forall tid t st, tasks w !! tid = Some t -> stage_of t = Some st -> steps (app w) = st.

(** ** Sample executions *)

Definition sample_fileData : FileData :=
  mkFileData "id-1" "report.pdf" 1000 "application/pdf" None (Some "QUJD") 1700000000000.

(** The sample run up to the request of the analysis. *)
Definition analysing_world : World :=
  or_boot (run (boot ∅ (Some "key")) (take 2 (sample_run sample_payload))).

(** The analysis answered with a text that is not JSON; the user then
    folds the side bar. *)
Definition failed_world : World :=
  or_boot (run analysing_world [Settle 1 (Responded (Some "not json")) "" 0; ToggleSidebar]).

(** The request of the analysis was rejected. *)
Definition rejected_world : World :=
  or_boot (run analysing_world [Settle 1 (Rejected (Error "503")) "" 0]).

(** A build without a key, the sample file selected. *)
Definition keyless_world : World :=
  or_boot (run (boot ∅ (Some "")) [SelectFile sample_file]).

(** ** The chat *)

(** Nothing but white space. *)
Definition blank (s : string) : bool := forallb is_js_space (list_ascii_of_string s).

(** The text of [contextPrompt] before and after the document. *)
Definition context_head : string :=
  lines [""; "    You are a helpful AI assistant analyzing a specific document.";
         "    Here is the content of the document:"; "    ---"; "    "].

Definition context_tail : string :=
  LF +:+ lines ["    ---"; "    ";
                "    Answer the user's questions based ONLY on the document above.";
                "    Keep answers concise and relevant."; "  "].

(** What a turn of the transcript always satisfies. *)
Definition proper_turn (m : ChatMessage) : Prop :=
  msg_text m <> "" /\ (msg_role m = user -> blank (msg_text m) = false).

(** The sample run, then a question whose response has an empty text. *)
Definition chat_run : list Event :=
  sample_run sample_payload
  ++ [ClickTab chat; TypeChatInput "What is it?"; PressEnter "id-2" 1700000001000;
      Settle 4 (Responded (Some "")) "id-3" 1700000002000].

Definition fallback_world : World := or_boot (run (boot ∅ (Some "key")) chat_run).

(** ** The ledger *)

(** The entry carries a string as its [id]. *)
Definition has_id (i : JSValue) : Prop := exists id, item_id i = JStr id.

(** A ledger whose entries have pairwise distinct identities. *)
Definition distinct_ids (v : JSValue) : Prop :=
  exists l, v = JArr l /\ NoDup (map item_id l) /\ Forall has_id l.

(** Two runs over the sample file whose identities collide. *)
Definition twice_run : list Event :=
  sample_run sample_payload
  ++ [ClickClear; SelectFile sample_file;
      ReaderLoad 4 "data:application/pdf;base64,QUJD" "id-1" 1700000005000;
      Settle 5 (Responded (Some sample_payload)) "" 0;
      TimerFires 6 0;
      TimerFires 7 1700000005900].

Definition twice_world : World := or_boot (run (boot ∅ (Some "key")) twice_run).

(** ** The export *)

Definition free_of (x : ascii) (s : string) : bool :=
  forallb (fun c => negb (Ascii.eqb c x)) (list_ascii_of_string s).

(** [s.includes(pat)]: [pat] occurs somewhere in [s]. *)
Fixpoint contains (pat s : string) : bool :=
  String.prefix pat s
  || match s with
     | EmptyString => false
     | String _ r => contains pat r
     end.

(** Within one line. *)
Definition one_line (s : string) : bool :=
  forallb (fun c => negb (is_line_terminator c)) (list_ascii_of_string s).

(** The sample run completed with a result that lacks the file name, and
    with one that lacks the Markdown; everything else is there. *)
Definition nameless_payload : string :=
  (js "{'markdownContent':'# Title','summary':'S','keywords':['k'],'keyQuotes':['q'],'actionItems':[{'task':'t','priority':'High'}],'entities':[{'name':'n','type':'Person','count':2}],'stats':{'pageCount':1,'wordCount':500,'paragraphCount':3,'imageCount':0,'sentimentScore':70,'complexityScore':40,'readingTimeMin':2,'language':'en','category':'report','tone':'neutral'}}").

Definition nameless_world : World :=
  or_boot (run (boot ∅ (Some "key")) (sample_run nameless_payload)).

Definition textless_payload : string :=
  (js "{'summary':'S','suggestedFilename':'report.docx','keywords':['k'],'keyQuotes':['q'],'actionItems':[{'task':'t','priority':'High'}],'entities':[{'name':'n','type':'Person','count':2}],'stats':{'pageCount':1,'wordCount':500,'paragraphCount':3,'imageCount':0,'sentimentScore':70,'complexityScore':40,'readingTimeMin':2,'language':'en','category':'report','tone':'neutral'}}").

Definition textless_world : World :=
  or_boot (run (boot ∅ (Some "key")) (sample_run textless_payload)).

(** The same with the chat tab opened and a question typed. *)
Definition textless_chat_world : World :=
  or_boot (run textless_world [ClickTab chat; TypeChatInput "Summarize this"]).

(** ** components/AnalysisCharts.tsx: the data of the entity chart

    The props are taken at their declared types ([Entity[]] of types.ts),
    with integers for the counts, which is what the response schema asks
    of the service ([Type.INTEGER]); on integers the subtraction of the
    comparator is exact.  The data of the two other charts are left out:
    [radarData] divides in floating point. *)

Record Entity := mkEntity {
  ent_name : string;
  ent_type : string;
  ent_count : Z
}.

(** The comparator [(a, b) => b.count - a.count]. *)
Definition by_count_desc (a b : Entity) : Z := ent_count b - ent_count a.

(** [entities.sort(cmp)]: [Array.prototype.sort] is stable, so its result
    is the one arrangement in which no element is followed by one that the
    comparator puts strictly before it, and elements that compare equal
    keep their order.  Insertion from the right computes it: an element
    goes behind those the comparator puts strictly before it. *)
Fixpoint insert_sorted (cmp : Entity -> Entity -> Z) (e : Entity) (l : list Entity)
  : list Entity :=
  match l with
  | [] => [e]
  | x :: r => if (cmp x e <? 0)%Z then x :: insert_sorted cmp e r else e :: x :: r
  end.

Definition sort (cmp : Entity -> Entity -> Z) (l : list Entity) : list Entity :=
  foldr (insert_sorted cmp) [] l.

(** What the bar chart gets for one entity: the name cut to ten characters
    and three dots when it is longer than ten. *)
Definition bar (e : Entity) : Entity :=
  mkEntity (if (10 <? String.length (ent_name e))%nat
            then String.substring 0 10 (ent_name e) +:+ "..."
            else ent_name e)
           (ent_type e) (ent_count e).

(** [entityData] (lines 33-41), together with what the call leaves in the
    array of the props: [sort] sorts in place, and the array belongs to
    the result held by the component. *)
Definition entityData (entities : list Entity) : list Entity * list Entity :=
  let sorted := sort by_count_desc entities in
  (map bar (take 5 sorted), sorted).

Definition sample_entities : list Entity :=
  [mkEntity "Ada" "Person" 2; mkEntity "International Business Machines" "Organization" 7;
   mkEntity "Paris" "Location" 2; mkEntity "1999" "Date" 1; mkEntity "Bob" "Person" 7;
   mkEntity "Rome" "Location" 3; mkEntity "Entropy" "Concept" 2].

(** Counts never go up along the list. *)
Fixpoint descending (l : list Entity) : Prop :=
  match l with
  | [] => True
  | x :: r => Forall (fun y => (ent_count y <= ent_count x)%Z) r /\ descending r
  end.

(** ** App.tsx, second revision (lines 617-1286)

    The second revision of the component drops the list of steps and the
    chat and preview tabs, and shows a percentage driven by an interval
    timer.  Its helpers ([downloadContent], [addToHistory]) and the
    service are those of the first revision. *)

Module Rev2.

Inductive Tab := dashboard | chat | preview | settings | docs.

(** The [useState] cells (lines 789-806). *)
Record AppModel := mkApp {
  activeTab : Tab;
  appState : AppState;
  fileData : option FileData;
  result_ : JSValue;
  error : option string;
  progress : Z;
  chatHistory : list ChatMessage;
  chatInput : string;
  isChatLoading : bool;
  mobileMenuOpen : bool;
  recentFiles : JSValue
}.

Definition setActiveTab (v : Tab) (a : AppModel) : AppModel :=
  mkApp v (appState a) (fileData a) (result_ a) (error a) (progress a) (chatHistory a)
        (chatInput a) (isChatLoading a) (mobileMenuOpen a) (recentFiles a).
Definition setAppState (v : AppState) (a : AppModel) : AppModel :=
  mkApp (activeTab a) v (fileData a) (result_ a) (error a) (progress a) (chatHistory a)
        (chatInput a) (isChatLoading a) (mobileMenuOpen a) (recentFiles a).
Definition setFileData (v : option FileData) (a : AppModel) : AppModel :=
  mkApp (activeTab a) (appState a) v (result_ a) (error a) (progress a) (chatHistory a)
        (chatInput a) (isChatLoading a) (mobileMenuOpen a) (recentFiles a).
Definition setResult (v : JSValue) (a : AppModel) : AppModel :=
  mkApp (activeTab a) (appState a) (fileData a) v (error a) (progress a) (chatHistory a)
        (chatInput a) (isChatLoading a) (mobileMenuOpen a) (recentFiles a).
Definition setError (v : option string) (a : AppModel) : AppModel :=
  mkApp (activeTab a) (appState a) (fileData a) (result_ a) v (progress a) (chatHistory a)
        (chatInput a) (isChatLoading a) (mobileMenuOpen a) (recentFiles a).
Definition setProgress (f : Z -> Z) (a : AppModel) : AppModel :=
  mkApp (activeTab a) (appState a) (fileData a) (result_ a) (error a) (f (progress a))
        (chatHistory a) (chatInput a) (isChatLoading a) (mobileMenuOpen a) (recentFiles a).
Definition setChatHistory (v : list ChatMessage) (a : AppModel) : AppModel :=
  mkApp (activeTab a) (appState a) (fileData a) (result_ a) (error a) (progress a) v
        (chatInput a) (isChatLoading a) (mobileMenuOpen a) (recentFiles a).
Definition setMobileMenuOpen (v : bool) (a : AppModel) : AppModel :=
  mkApp (activeTab a) (appState a) (fileData a) (result_ a) (error a) (progress a)
        (chatHistory a) (chatInput a) (isChatLoading a) v (recentFiles a).
Definition setRecentFiles (v : JSValue) (a : AppModel) : AppModel :=
  mkApp (activeTab a) (appState a) (fileData a) (result_ a) (error a) (progress a)
        (chatHistory a) (chatInput a) (isChatLoading a) (mobileMenuOpen a) v.

Definition initial_app : AppModel :=
  mkApp dashboard IDLE None JNull None 0 [] "" false false (JArr []).

(** The update of the interval callback (lines 843-849). *)
Definition tick (prev : Z) : Z :=
  if (prev >=? 90)%Z then 90%Z
  else
    let increment := if (prev <? 50)%Z then 5%Z else 2%Z in
    (prev + increment)%Z.

(** The caption of [ProgressBar] (lines 688-691). *)
Definition caption (progress : Z) : string :=
  if (progress <? 30)%Z then "Encrypting & Uploading..."
  else if (progress <? 60)%Z then "Analyzing Content Structure..."
  else if (progress <? 90)%Z then "Extracting Entities & Action Items..."
  else "Finalizing Document...".

(** What is pending: the interval of the progress bar, which stays pending
    until it is cleared; the reader and the analysis, which know the
    interval of their run; the timer that ends the run. *)
Inductive Task :=
| Interval
| ReaderTask (file : File) (recent : JSValue) (progressInterval : nat)
| AnalysisTask (newFile : FileData) (recent : JSValue) (progressInterval : nat)
| Finalize (newFile : FileData) (analysis recent : JSValue).

Record World := mkWorld {
  app : AppModel;
  localStorage : gmap string string;
  API_KEY : option string;
  tasks : gmap nat Task;
  next_task : nat;
  requests : list Request;
  downloads : list Download;
  console_errors : list JSError;
  uncaught : list JSError;
  unmounted : bool
}.

Definition with_app (f : AppModel -> AppModel) (w : World) : World :=
  mkWorld (f (app w)) (localStorage w) (API_KEY w) (tasks w) (next_task w) (requests w)
          (downloads w) (console_errors w) (uncaught w) (unmounted w).

Definition with_storage (f : gmap string string -> gmap string string) (w : World) : World :=
  mkWorld (app w) (f (localStorage w)) (API_KEY w) (tasks w) (next_task w) (requests w)
          (downloads w) (console_errors w) (uncaught w) (unmounted w).

Definition spawn (t : Task) (w : World) : World :=
  mkWorld (app w) (localStorage w) (API_KEY w) (<[next_task w:=t]> (tasks w))
          (S (next_task w)) (requests w) (downloads w) (console_errors w) (uncaught w)
          (unmounted w).

(** A task that ran, and [clearInterval]. *)
Definition finish (tid : nat) (w : World) : World :=
  mkWorld (app w) (localStorage w) (API_KEY w) (delete tid (tasks w)) (next_task w)
          (requests w) (downloads w) (console_errors w) (uncaught w) (unmounted w).

Definition clearInterval (tid : nat) (w : World) : World := finish tid w.

Definition send (r : Request) (w : World) : World :=
  mkWorld (app w) (localStorage w) (API_KEY w) (tasks w) (next_task w) (requests w ++ [r])
          (downloads w) (console_errors w) (uncaught w) (unmounted w).

Definition save (d : Download) (w : World) : World :=
  mkWorld (app w) (localStorage w) (API_KEY w) (tasks w) (next_task w) (requests w)
          (downloads w ++ [d]) (console_errors w) (uncaught w) (unmounted w).

Definition console_error (e : JSError) (w : World) : World :=
  mkWorld (app w) (localStorage w) (API_KEY w) (tasks w) (next_task w) (requests w)
          (downloads w) (console_errors w ++ [e]) (uncaught w) (unmounted w).

Definition escape (e : JSError) (w : World) : World :=
  mkWorld (app w) (localStorage w) (API_KEY w) (tasks w) (next_task w) (requests w)
          (downloads w) (console_errors w) (uncaught w ++ [e]) (unmounted w).

Definition crash (e : JSError) (w : World) : World :=
  mkWorld (app w) (localStorage w) (API_KEY w) (tasks w) (next_task w) (requests w)
          (downloads w) (console_errors w) (uncaught w ++ [e]) true.

(** The effect of lines 808-811. *)
Definition load_history (w : World) : World :=
  match localStorage w !! history_key with
  | None => w
  | Some saved =>
      if String.eqb saved "" then w
      else
        match JSON_parse saved with
        | Some v => with_app (setRecentFiles v) w
        | None => crash (SyntaxError "JSON.parse") w
        end
  end.

Definition boot (storage : gmap string string) (key : option string) : World :=
  load_history (mkWorld initial_app storage key ∅ 0 [] [] [] [] false).

(** [addToHistory(file, analysis)] (lines 813-824). *)
Definition addToHistory (recent : JSValue) (file : FileData) (analysis : JSValue)
    (now : Z) (w : World) : result World :=
  summary ← get_prop analysis "summary";
  stats ← get_prop analysis "stats";
  kept ← filter_recent (fd_id file) recent;
  let updated := JArr (take 10 (newItem file now summary stats :: kept)) in
  Ok (with_storage (insert history_key (default "undefined" (JSON_stringify updated)))
        (with_app (setRecentFiles updated) w)).

(** [clearHistory] (lines 826-829). *)
Definition clearHistory (w : World) : World :=
  with_storage (delete history_key) (with_app (setRecentFiles (JArr [])) w).

(** [processFile(file)] up to the registration of [reader.onload] (lines
    831-855). *)
Definition processFile (file : File) (w : World) : World :=
  if (file_size file >? size_limit)%Z then
    with_app (setError (Some "File size exceeds 20MB limit.")) w
  else
    let recent := recentFiles (app w) in
    let w := with_app (setAppState UPLOADING) w in
    let w := with_app (setError None) w in
    let w := with_app (setResult JNull) w in
    let w := with_app (setChatHistory []) w in
    let w := with_app (setProgress (fun _ => 0%Z)) w in
    let progressInterval := next_task w in
    let w := spawn Interval w in
    spawn (ReaderTask file recent progressInterval) w.

(** The [reader.onload] callback up to [await analyzeAndConvertPDF] (lines
    855-870). *)
Definition reader_onload (file : File) (recent : JSValue) (progressInterval : nat)
    (dataURL uuid : string) (now : Z) (w : World) : World :=
  let base64 := split_comma [] (list_ascii_of_string dataURL) !! 1%nat in
  let newFile :=
    mkFileData uuid (file_name file) (file_size file) (file_type file) None base64 now in
  let w := with_app (setFileData (Some newFile)) w in
  let w := with_app (setAppState PROCESSING) w in
  match analyzeAndConvertPDF_request (API_KEY w) base64 (file_type file) with
  | Ok req => spawn (AnalysisTask newFile recent progressInterval) (send req w)
  | Throw e => escape e w
  end.

(** The callback from the [await] to [setTimeout] (lines 870-876). *)
Definition analysis_settled (newFile : FileData) (recent : JSValue) (progressInterval : nat)
    (o : Outcome) (w : World) : World :=
  match analyzeAndConvertPDF_response o with
  | Throw e => escape e (console_error e w)
  | Ok analysis =>
      let w := clearInterval progressInterval w in
      let w := with_app (setProgress (fun _ => 100%Z)) w in
      spawn (Finalize newFile analysis recent) w
  end.

(** The callback of [setTimeout] (lines 877-883). *)
Definition finalize (newFile : FileData) (analysis recent : JSValue) (now : Z) (w : World)
  : World :=
  let w := with_app (setResult analysis) w in
  let w := with_app (setAppState COMPLETE) w in
  match addToHistory recent newFile analysis now w with
  | Ok w' => with_app (setActiveTab dashboard) w'
  | Throw e => escape e w
  end.

(** [handleTabChange(tabId)] (lines 914-928): every branch sets the tab. *)
Definition handleTabChange (tabId : Tab) (w : World) : World :=
  let restricted :=
    match tabId with
    | chat | preview | dashboard => true
    | _ => false
    end in
  let w :=
    if restricted && negb (bool_decide (appState (app w) = COMPLETE)) then
      match tabId with
      | dashboard => with_app (setActiveTab tabId) w
      | _ => with_app (setActiveTab tabId) w
      end
    else with_app (setActiveTab tabId) w in
  with_app (setMobileMenuOpen false) w.

#[global] Instance Tab2_eq_dec : EqDecision Tab.
Proof. solve_decision. Defined.

Definition navItems : list Tab := [dashboard; docs].

(** The Clear button of the header (line 1016). *)
Definition onReset (w : World) : World :=
  let w := with_app (setResult JNull) w in
  let w := with_app (setAppState IDLE) w in
  let w := with_app (setProgress (fun _ => 0%Z)) w in
  with_app (setActiveTab dashboard) w.

(** The export buttons (lines 1023 and 1218). *)
Definition onExport (type : ExportType) (w : World) : World :=
  match (content ← get_prop (result_ (app w)) "markdownContent";
         filename ← get_prop (result_ (app w)) "suggestedFilename";
         downloadContent content filename type) with
  | Ok d => save d w
  | Throw e => escape e w
  end.

Inductive Event :=
| SelectFile (file : File)
| Tick (tid : nat)
| ReaderLoad (tid : nat) (dataURL uuid : string) (now : Z)
| ReaderFail (tid : nat)
| Settle (tid : nat) (o : Outcome)
| TimerFires (tid : nat) (now : Z)
| ClickNav (item : Tab)
| ClickReset
| ClickExport
| ClickExportAs (type : ExportType)
| ClickUnlock
| ClickClearHistory
| DismissError
| OpenMenu
| CloseMenu.

Definition is_state (s : AppState) (w : World) : bool :=
  bool_decide (appState (app w) = s).

Definition on_tab (t : Tab) (w : World) : bool := bool_decide (activeTab (app w) = t).

(** The header buttons are rendered when
    [appState === COMPLETE && activeTab !== 'docs' && activeTab !== 'settings']. *)
Definition header_buttons (w : World) : bool :=
  is_state COMPLETE w && negb (on_tab docs w) && negb (on_tab settings w).

Definition step (w : World) (ev : Event) : option World :=
  if unmounted w then None else
  match ev with
  | SelectFile file =>
      (* line 1039 *)
      if on_tab dashboard w && is_state IDLE w then Some (processFile file w) else None
  | Tick tid =>
      match tasks w !! tid with
      | Some Interval => Some (with_app (setProgress tick) w)
      | _ => None
      end
  | ReaderLoad tid dataURL uuid now =>
      match tasks w !! tid with
      | Some (ReaderTask file recent iv) =>
          Some (reader_onload file recent iv dataURL uuid now (finish tid w))
      | _ => None
      end
  | ReaderFail tid =>
      match tasks w !! tid with
      | Some (ReaderTask _ _ _) => Some (finish tid w)
      | _ => None
      end
  | Settle tid o =>
      match tasks w !! tid with
      | Some (AnalysisTask newFile recent iv) =>
          Some (analysis_settled newFile recent iv o (finish tid w))
      | _ => None
      end
  | TimerFires tid now =>
      match tasks w !! tid with
      | Some (Finalize newFile analysis recent) =>
          Some (finalize newFile analysis recent now (finish tid w))
      | _ => None
      end
  | ClickNav item =>
      (* lines 965-968 *)
      if bool_decide (item ∈ navItems) then Some (handleTabChange item w) else None
  | ClickReset =>
      if header_buttons w then Some (onReset w) else None
  | ClickExport =>
      if header_buttons w
      then Some (if to_boolean (result_ (app w)) then onExport doc w else w)
      else None
  | ClickExportAs type =>
      (* lines 1203, 1214 and 1218 *)
      if on_tab settings w && to_boolean (result_ (app w))
      then Some (onExport type w) else None
  | ClickUnlock =>
      (* lines 1203, 1214 and 1228 *)
      if on_tab settings w && negb (to_boolean (result_ (app w)))
      then Some (with_app (setActiveTab dashboard) w) else None
  | ClickClearHistory =>
      (* lines 1203 and 1245 *)
      if on_tab settings w then Some (clearHistory w) else None
  | DismissError =>
      match error (app w) with
      | Some _ => Some (with_app (setError None) w)
      | None => None
      end
  | OpenMenu => Some (with_app (setMobileMenuOpen true) w)
  | CloseMenu => Some (with_app (setMobileMenuOpen false) w)
  end.

Fixpoint run (w : World) (evs : list Event) : option World :=
  match evs with
  | [] => Some w
  | ev :: r => w' ← step w ev; run w' r
  end.

(** A percentage that the interval reaches from 0. *)
Definition ticked (p : Z) : Prop := exists n : nat, p = Nat.iter n tick 0%Z.

(** The situations of an execution: the phase, what is pending, the
    percentage and the result.  Nothing is pending before and after a run;
    during a run the interval is pending beside the reader or the
    analysis, or alone when its run has failed; after a successful
    analysis only the timer that ends the run is pending. *)
Inductive Situation : AppState -> gmap nat Task -> Z -> JSValue -> Prop :=
| sit_idle : Situation IDLE ∅ 0 JNull
| sit_reading iv rt file recent p :
    iv <> rt -> ticked p ->
    Situation UPLOADING (<[rt:=ReaderTask file recent iv]> {[iv := Interval]}) p JNull
| sit_unread iv p :
    ticked p -> Situation UPLOADING {[iv := Interval]} p JNull
| sit_analysing iv at_ newFile recent p :
    iv <> at_ -> ticked p ->
    Situation PROCESSING (<[at_:=AnalysisTask newFile recent iv]> {[iv := Interval]}) p JNull
| sit_failed iv p :
    ticked p -> Situation PROCESSING {[iv := Interval]} p JNull
| sit_finalizing ft newFile analysis recent :
    Situation PROCESSING {[ft := Finalize newFile analysis recent]} 100 JNull
| sit_complete r : Situation COMPLETE ∅ 100 r.

Definition inv (w : World) : Prop :=
  Situation (appState (app w)) (tasks w) (progress (app w)) (result_ (app w))
  /\ (activeTab (app w) = dashboard \/ activeTab (app w) = docs)
  /\ chatHistory (app w) = []
  /\ (forall tid t, tasks w !! tid = Some t -> (tid < next_task w)%nat).

Definition or_boot (o : option World) : World := default (boot ∅ None) o.

(** A sample run with a few ticks, and the same run with an analysis that
    fails. *)
Definition sample_run (payload : string) : list Event :=
  [SelectFile sample_file; Tick 0; Tick 0;
   ReaderLoad 1 "data:application/pdf;base64,QUJD" "id-1" 1700000000000;
   Tick 0; ClickNav docs; Tick 0;
   Settle 2 (Responded (Some payload));
   TimerFires 3 1700000000900].

Definition sample_world : World :=
  or_boot (run (boot ∅ (Some "key")) (sample_run sample_payload)).

Definition failed_run : list Event :=
  [SelectFile sample_file; Tick 0;
   ReaderLoad 1 "data:application/pdf;base64,QUJD" "id-1" 1700000000000;
   Settle 2 (Rejected (Error "503"))].

Definition failed_world : World := or_boot (run (boot ∅ (Some "key")) failed_run).

Definition analysing_world : World :=
  or_boot (run (boot ∅ (Some "key")) (take 3 failed_run)).

Definition sample_fileData : FileData :=
  mkFileData "id-1" "report.pdf" 1000 "application/pdf" None (Some "QUJD") 1700000000000.

Definition exported_world : World :=
  or_boot (run (boot ∅ (Some "key")) (sample_run sample_payload ++ [ClickExport])).

End Rev2.

(** Which key holds the interval. *)
Ltac interval_id H :=
  first [apply lookup_singleton_Some in H as [<- _]
        |apply lookup_insert_Some in H as [[_ H] | [_ H]];
         [discriminate H|apply lookup_singleton_Some in H as [<- _]]].
(** * Properties *)

(** ** The model on concrete inputs *)

Example sample_run_completes :
  (w ← sample_world;
   Some (appState (app w), localStorage w !! history_key, length (requests w), uncaught w))
  = Some (COMPLETE,
          Some (js "[{'id':'id-1','fileName':'report.pdf','date':1700000000900,'summary':'S','stats':{'pageCount':1,'wordCount':500,'paragraphCount':3,'imageCount':0,'sentimentScore':70,'complexityScore':40,'readingTimeMin':2,'language':'en','category':'report','tone':'neutral'}}]"),
          1%nat, []).
Proof. vm_compute. reflexivity. Qed.

Example JSON_parse_examples :
  JSON_parse (js "[1, 2.50, -1e3, true, null, 'a\nb', {'k': []}]")
  = Some (JArr [JNum (mkNum false ["1"%char] 1); JNum (mkNum false ["2"; "5"]%char 1);
                JNum (mkNum true ["1"%char] 4); JBool true; JNull;
                JStr ("a" +:+ LF +:+ "b"); JObj [("k", JArr [])]])
  /\ JSON_parse "[1,]" = None /\ JSON_parse (js "{'a' 1}") = None
  /\ JSON_parse "01" = None /\ JSON_parse "" = None /\ JSON_parse "# Title" = None.
Proof. vm_compute. repeat split; reflexivity. Qed.

Example JSON_stringify_parse_example :
  (v ← JSON_parse (js "{'a': [1.50, 100, 1e21, 0.000001, 'x\'y'], 'n': null, 'a2': {}}");
   JSON_stringify v)
  = Some (js "{'a':[1.5,100,1e+21,0.000001,'x\'y'],'n':null,'a2':{}}")
  /\ (v ← JSON_parse (js "{'b':1,'a':2,'b':3}"); JSON_stringify v)
     = Some (js "{'b':3,'a':2}").
Proof. vm_compute. split; reflexivity. Qed.

Example md_to_html_example :
  md_to_html (lines ["# Head"; "## Sub"; "some **bold** text"])
  = "<h1>Head</h1><br><h2>Sub</h2><br>some <b>bold</b> text".
Proof. vm_compute. reflexivity. Qed.

(** ** Steps and handlers *)

Lemma boot_unfold (storage : gmap string string) (key : option string) :
  boot storage key
  = match storage !! history_key with
    | None => mkWorld initial_app storage key ∅ 0 [] [] [] [] false
    | Some saved =>
        if String.eqb saved "" then mkWorld initial_app storage key ∅ 0 [] [] [] [] false
        else
          match JSON_parse saved with
          | Some v =>
              with_app (setRecentFiles v) (mkWorld initial_app storage key ∅ 0 [] [] [] [] false)
          | None =>
              crash (SyntaxError "JSON.parse")
                    (mkWorld initial_app storage key ∅ 0 [] [] [] [] false)
          end
    end.
Proof. reflexivity. Qed.





Lemma step_type (w : World) (text : string) :
  unmounted w = false -> chat_panel w = true ->
  step w (TypeChatInput text) = Some (with_app (setChatInput text) w).
Proof. intros Hm Hp. unfold step. rewrite Hm, Hp. reflexivity. Qed.

Lemma step_enter (w : World) (uuid : string) (now : Z) :
  unmounted w = false -> chat_panel w = true ->
  step w (PressEnter uuid now) = Some (handleChat uuid now w).
Proof. intros Hm Hp. unfold step. rewrite Hm, Hp. reflexivity. Qed.

Lemma step_settle_chat (w : World) (tid : nat) (o : Outcome) (uuid : string) (now : Z) :
  unmounted w = false -> tasks w !! tid = Some ChatTask ->
  step w (Settle tid o uuid now) = Some (chat_settled o uuid now (finish tid w)).
Proof. intros Hm Ht. unfold step. rewrite Hm, Ht. reflexivity. Qed.

Lemma generate_paced_cells (newFile : FileData) (analysis recent : JSValue) (now : Z)
    (w : World) :
  result_ (app (generate_paced newFile analysis recent now w)) = analysis
  /\ appState (app (generate_paced newFile analysis recent now w)) = COMPLETE
  /\ chatHistory (app (generate_paced newFile analysis recent now w)) = chatHistory (app w).
Proof.
  unfold generate_paced.
  destruct (addToHistory recent newFile analysis now _) as [w'|e] eqn:Hadd;
    [|repeat split; reflexivity].
  unfold addToHistory in Hadd. unfold_bind.
  destruct (get_prop analysis "summary"); [|discriminate].
  destruct (get_prop analysis "stats"); [|discriminate].
  destruct (filter_recent _ recent); [|discriminate].
  injection Hadd as <-. repeat split; reflexivity.
Qed.

Lemma generate_paced_tasks (newFile : FileData) (analysis recent : JSValue) (now : Z)
    (w : World) :
  tasks (generate_paced newFile analysis recent now w) = tasks w.
Proof.
  unfold generate_paced.
  destruct (addToHistory recent newFile analysis now _) as [w'|e] eqn:Hadd; [|reflexivity].
  unfold addToHistory in Hadd. unfold_bind.
  destruct (get_prop analysis "summary"); [|discriminate].
  destruct (get_prop analysis "stats"); [|discriminate].
  destruct (filter_recent _ recent); [|discriminate].
  injection Hadd as <-. reflexivity.
Qed.

Lemma handleChat_frame (uuid : string) (now : Z) (w : World) :
  appState (app (handleChat uuid now w)) = appState (app w)
  /\ (tasks (handleChat uuid now w) = tasks w
      \/ tasks (handleChat uuid now w) = <[next_task w:=ChatTask]> (tasks w)).
Proof.
  unfold handleChat. destruct (_ || _); [auto|].
  destruct (mbind _ _); simpl; auto.
Qed.

Lemma onExport_frame (type : ExportType) (w : World) :
  appState (app (onExport type w)) = appState (app w)
  /\ tasks (onExport type w) = tasks w.
Proof. unfold onExport. destruct (mbind _ _); simpl; auto. Qed.

(** After the start, the ledger and the stored text change only when a
    run completes: nothing reads the stored text again. *)
Lemma step_ledger (w w' : World) (ev : Event) :
  step w ev = Some w' ->
  (exists tid now newFile analysis recent,
      ev = TimerFires tid now
      /\ tasks w !! tid = Some (PaceGenerate newFile analysis recent))
  \/ (recentFiles (app w') = recentFiles (app w) /\ localStorage w' = localStorage w).
Proof.
  intros Hstep. unfold step in Hstep.
  destruct (unmounted w); [discriminate|].
  destruct ev as [file|tid dataURL uuid now|tid|tid o uuid now|tid now|t| | |type|q|text
                 |uuid now|uuid now| |].
  - destruct (is_state IDLE w); [|discriminate]. injection Hstep as <-. right.
    unfold processFile. destruct (_ >? _)%Z; split; reflexivity.
  - destruct (tasks w !! tid) as [[file recent| | | |]|]; try discriminate.
    injection Hstep as <-. right. unfold reader_onload.
    destruct (analyzeAndConvertPDF_request _ _ _); split; reflexivity.
  - destruct (tasks w !! tid) as [[file recent| | | |]|]; try discriminate.
    injection Hstep as <-. right. split; reflexivity.
  - destruct (tasks w !! tid) as [[|newFile recent| | |]|]; try discriminate;
      injection Hstep as <-; right.
    + unfold analysis_settled. destruct (analyzeAndConvertPDF_response o); split; reflexivity.
    + unfold chat_settled. destruct (chatWithDocument_response o); split; reflexivity.
  - destruct (tasks w !! tid) as [[| |newFile analysis recent|newFile analysis recent|]|]
      eqn:Ht; try discriminate; injection Hstep as <-.
    + right. split; reflexivity.
    + left. exists tid, now, newFile, analysis, recent. split; [reflexivity|exact Ht].
  - destruct (is_state COMPLETE w); [|discriminate]. injection Hstep as <-.
    right. split; reflexivity.
  - destruct (is_state COMPLETE w); [|discriminate]. injection Hstep as <-.
    right. split; reflexivity.
  - destruct (is_state COMPLETE w); [|discriminate]. injection Hstep as <-. right.
    destruct (to_boolean _); [|split; reflexivity].
    unfold onExport. destruct (mbind _ _); split; reflexivity.
  - destruct (_ && _); [|discriminate]. injection Hstep as <-. right.
    unfold onExport. destruct (mbind _ _); split; reflexivity.
  - destruct (_ && _); [|discriminate]. injection Hstep as <-. right. split; reflexivity.
  - destruct (chat_panel w); [|discriminate]. injection Hstep as <-.
    right. split; reflexivity.
  - destruct (chat_panel w); [|discriminate]. injection Hstep as <-. right.
    unfold handleChat. destruct (_ || _); [split; reflexivity|].
    destruct (mbind _ _); split; reflexivity.
  - destruct (_ && _); [|discriminate]. injection Hstep as <-. right.
    unfold handleChat. destruct (_ || _); [split; reflexivity|].
    destruct (mbind _ _); split; reflexivity.
  - destruct (error (app w)); [|discriminate]. injection Hstep as <-.
    right. split; reflexivity.
  - injection Hstep as <-. right. split; reflexivity.
Qed.

(** ** The pipeline: one run at a time *)

Lemma quiet_delete (m : gmap nat Task) (k : nat) : quiet m -> quiet (delete k m).
Proof.
  intros H tid t Ht. apply lookup_delete_Some in Ht as [_ Ht]. exact (H tid t Ht).
Qed.

Lemma quiet_one_run (m : gmap nat Task) (s : AppState) : quiet m -> one_run m s.
Proof. intros H. left. exact H. Qed.

Lemma one_run_spawn (m : gmap nat Task) (k : nat) (t : Task) (s : AppState) :
  quiet m -> task_phase t = Some s -> one_run (<[k:=t]> m) s.
Proof.
  intros Hq Ht. right. exists k, t. split; [apply lookup_insert_eq|]. split; [exact Ht|].
  rewrite delete_insert_eq. apply quiet_delete, Hq.
Qed.

Lemma one_run_chat (m : gmap nat Task) (k : nat) (s : AppState) :
  one_run m s -> one_run (<[k:=ChatTask]> m) s.
Proof.
  intros [Hq | (tid & t & Ht & Hp & Hq)].
  - left. intros tid t Ht. apply lookup_insert_Some in Ht as [[_ <-] | [_ Ht]];
      [reflexivity|exact (Hq tid t Ht)].
  - destruct (decide (k = tid)) as [->|Hne].
    + left. intros tid' t' Ht'. apply lookup_insert_Some in Ht' as [[_ <-] | [Hne Ht']];
        [reflexivity|].
      apply (Hq tid' t'). rewrite lookup_delete_ne; [exact Ht'|exact Hne].
    + right. exists tid, t. split; [rewrite lookup_insert_ne; [exact Ht|exact Hne]|].
      split; [exact Hp|].
      intros tid' t' Ht'. apply lookup_delete_Some in Ht' as [Hne' Ht'].
      apply lookup_insert_Some in Ht' as [[_ <-] | [_ Ht']]; [reflexivity|].
      apply (Hq tid' t'). rewrite lookup_delete_ne; [exact Ht'|exact Hne'].
Qed.

Lemma one_run_delete (m : gmap nat Task) (k : nat) (s : AppState) :
  one_run m s -> one_run (delete k m) s.
Proof.
  intros [Hq | (tid & t & Ht & Hp & Hq)].
  - left. apply quiet_delete, Hq.
  - destruct (decide (k = tid)) as [->|Hne].
    + left. exact Hq.
    + right. exists tid, t. split; [rewrite lookup_delete_ne; [exact Ht|exact Hne]|].
      split; [exact Hp|]. rewrite delete_delete. apply quiet_delete, Hq.
Qed.

Lemma one_run_pending (m : gmap nat Task) (s s' : AppState) (tid : nat) (t : Task) :
  one_run m s -> m !! tid = Some t -> task_phase t = Some s' ->
  s = s' /\ quiet (delete tid m).
Proof.
  intros [Hq | (tid0 & t0 & Ht0 & Hp0 & Hq)] Ht Hp.
  - rewrite (Hq tid t Ht) in Hp. discriminate.
  - destruct (decide (tid0 = tid)) as [->|Hne].
    + rewrite Ht in Ht0. injection Ht0 as <-. split; [congruence|exact Hq].
    + assert (Hc : task_phase t = None).
      { apply (Hq tid t). rewrite lookup_delete_ne; [exact Ht|exact Hne]. }
      congruence.
Qed.

Lemma one_run_no_pipeline (m : gmap nat Task) (s : AppState) :
  one_run m s -> s <> UPLOADING -> s <> PROCESSING -> quiet m.
Proof.
  intros [Hq | (tid & t & _ & Hp & _)] H1 H2; [exact Hq|].
  destruct t; simpl in Hp; congruence.
Qed.

(** Every step keeps at most one task of the pipeline pending, in its
    phase, and changes the phase along the cycle only. *)
Lemma step_phase (w w' : World) (ev : Event) :
  one_run (tasks w) (appState (app w)) ->
  step w ev = Some w' ->
  one_run (tasks w') (appState (app w')) /\ allowed (appState (app w)) (appState (app w')).
Proof.
  intros Hinv Hstep. unfold step in Hstep.
  destruct (unmounted w); [discriminate|].
  destruct ev as [file|tid dataURL uuid now|tid|tid o uuid now|tid now|t| | |type|q|text
                 |uuid now|uuid now| |].
  - (* SelectFile *)
    unfold is_state in Hstep. case_bool_decide as Hs; [|discriminate].
    injection Hstep as <-.
    assert (Hq : quiet (tasks w)).
    { apply (one_run_no_pipeline _ _ Hinv); rewrite Hs; discriminate. }
    unfold processFile. destruct (file_size file >? size_limit)%Z.
    + split; [exact Hinv|left; reflexivity].
    + simpl. split; [apply one_run_spawn; [exact Hq|reflexivity]|].
      right. left. split; [exact Hs|reflexivity].
  - (* ReaderLoad *)
    destruct (tasks w !! tid) as [[file recent| | | |]|] eqn:Ht; try discriminate.
    injection Hstep as <-.
    destruct (one_run_pending _ _ _ _ _ Hinv Ht eq_refl) as [Hs Hq].
    unfold reader_onload.
    destruct (analyzeAndConvertPDF_request _ _ _); simpl.
    + split; [apply one_run_spawn; [exact Hq|reflexivity]|].
      right. right. left. split; [exact Hs|reflexivity].
    + split; [left; exact Hq|]. right. right. left. split; [exact Hs|reflexivity].
  - (* ReaderFail *)
    destruct (tasks w !! tid) as [[file recent| | | |]|] eqn:Ht; try discriminate.
    injection Hstep as <-. simpl.
    split; [apply one_run_delete, Hinv|left; reflexivity].
  - (* Settle *)
    destruct (tasks w !! tid) as [[|newFile recent| | |]|] eqn:Ht; try discriminate;
      injection Hstep as <-.
    + destruct (one_run_pending _ _ _ _ _ Hinv Ht eq_refl) as [Hs Hq].
      unfold analysis_settled. destruct (analyzeAndConvertPDF_response o); simpl.
      * split; [rewrite Hs; apply one_run_spawn; [exact Hq|reflexivity]|left; reflexivity].
      * split; [left; exact Hq|left; reflexivity].
    + unfold chat_settled. destruct (chatWithDocument_response o); simpl;
        (split; [apply one_run_delete, Hinv|left; reflexivity]).
  - (* TimerFires *)
    destruct (tasks w !! tid) as [[| |newFile analysis recent|newFile analysis recent|]|]
      eqn:Ht; try discriminate; injection Hstep as <-;
      destruct (one_run_pending _ _ _ _ _ Hinv Ht eq_refl) as [Hs Hq].
    + simpl. split; [rewrite Hs; apply one_run_spawn; [exact Hq|reflexivity]|].
      left; reflexivity.
    + rewrite generate_paced_tasks.
      destruct (generate_paced_cells newFile analysis recent now (finish tid w))
        as (_ & Hc & _).
      rewrite Hc. split; [left; exact Hq|].
      right. right. right. left. split; [exact Hs|reflexivity].
  - (* ClickTab *)
    destruct (is_state COMPLETE w); [|discriminate]. injection Hstep as <-.
    split; [exact Hinv|left; reflexivity].
  - (* ClickClear *)
    unfold is_state in Hstep. case_bool_decide as Hs; [|discriminate].
    injection Hstep as <-. simpl.
    split; [left; apply (one_run_no_pipeline _ _ Hinv); rewrite Hs; discriminate|].
    right. right. right. right. split; [exact Hs|reflexivity].
  - (* ClickDownloadDocx *)
    destruct (is_state COMPLETE w); [|discriminate]. injection Hstep as <-.
    destruct (to_boolean _); [|split; [exact Hinv|left; reflexivity]].
    destruct (onExport_frame doc w) as [-> ->]. split; [exact Hinv|left; reflexivity].
  - (* ClickExport *)
    destruct (_ && _); [|discriminate]. injection Hstep as <-.
    destruct (onExport_frame type w) as [-> ->]. split; [exact Hinv|left; reflexivity].
  - (* ClickSuggestion *)
    destruct (_ && _); [|discriminate]. injection Hstep as <-.
    split; [exact Hinv|left; reflexivity].
  - (* TypeChatInput *)
    destruct (chat_panel w); [|discriminate]. injection Hstep as <-.
    split; [exact Hinv|left; reflexivity].
  - (* PressEnter *)
    destruct (chat_panel w); [|discriminate]. injection Hstep as <-.
    destruct (handleChat_frame uuid now w) as [-> [-> | ->]];
      (split; [|left; reflexivity]); [exact Hinv|apply one_run_chat, Hinv].
  - (* ClickSend *)
    destruct (_ && _); [|discriminate]. injection Hstep as <-.
    destruct (handleChat_frame uuid now w) as [-> [-> | ->]];
      (split; [|left; reflexivity]); [exact Hinv|apply one_run_chat, Hinv].
  - (* DismissError *)
    destruct (error (app w)); [|discriminate]. injection Hstep as <-.
    split; [exact Hinv|left; reflexivity].
  - (* ToggleSidebar *)
    injection Hstep as <-. split; [exact Hinv|left; reflexivity].
Qed.

Lemma boot_quiet (storage : gmap string string) (key : option string) :
  one_run (tasks (boot storage key)) (appState (app (boot storage key))).
Proof.
  left. rewrite boot_unfold.
  destruct (storage !! history_key) as [saved|];
    [destruct (String.eqb saved ""); [|destruct (JSON_parse saved)]|];
    intros tid t Ht; simpl in Ht; rewrite lookup_empty in Ht; discriminate.
Qed.

Lemma run_one_run (evs : list Event) (w w' : World) :
  one_run (tasks w) (appState (app w)) ->
  run w evs = Some w' ->
  one_run (tasks w') (appState (app w')).
Proof.
  revert w. induction evs as [|ev evs IH]; intros w Hinv Hrun.
  - injection Hrun as <-. exact Hinv.
  - simpl in Hrun. destruct (step w ev) as [w1|] eqn:Hstep; [|discriminate].
    apply (IH w1); [|exact Hrun]. apply (step_phase w w1 ev Hinv Hstep).
Qed.

(** ** C1: the phases of a run *)

Lemma changes_cons (s x : AppState) (l : list AppState) :
  changes s (x :: l) = if bool_decide (x = s) then changes s l else x :: changes x l.
Proof. reflexivity. Qed.

(** From a phase of a run up to the first time the run is complete, the
    phases that follow are the remaining ones, each once. *)
Lemma run_rest (evs : list Event) (w : World) (ws : list World) (wl : World) :
  one_run (tasks w) (appState (app w)) ->
  appState (app w) = IDLE \/ appState (app w) = UPLOADING \/ appState (app w) = PROCESSING ->
  trace w evs = Some (ws ++ [wl]) ->
  Forall (fun x => appState (app x) <> COMPLETE) ws ->
  appState (app wl) = COMPLETE ->
  changes (appState (app w)) (map (fun x => appState (app x)) (ws ++ [wl]))
  = rest_of (appState (app w)).
Proof.
  revert w ws. induction evs as [|ev evs IH]; intros w ws Hinv Hs Htr Hws Hwl.
  - simpl in Htr. injection Htr as Htr. destruct ws; discriminate.
  - simpl in Htr. destruct (step w ev) as [w1|] eqn:Hstep; [|discriminate].
    cbn [mbind option_bind] in Htr.
    destruct (trace w1 evs) as [ws1|] eqn:Htr1; [|discriminate].
    injection Htr as Htr.
    destruct (step_phase w w1 ev Hinv Hstep) as [Hinv1 Hall].
    destruct ws as [|w1' ws'].
    + (* the run is complete with this step *)
      simpl in Htr. injection Htr as -> ->.
      simpl. rewrite Hwl.
      destruct Hall as [Heq | [[H1 H2] | [[H1 H2] | [[H1 H2] | [H1 H2]]]]];
        rewrite Hwl in *; try congruence.
      * destruct Hs as [Hs | [Hs | Hs]]; congruence.
      * rewrite H1. reflexivity.
    + simpl in Htr. injection Htr as -> ->.
      inversion Hws as [|x l Hx Hl]; subst.
      change ((w1' :: ws') ++ [wl]) with (w1' :: (ws' ++ [wl])).
      rewrite map_cons, changes_cons.
      destruct Hall as [Heq | [[H1 H2] | [[H1 H2] | [[H1 H2] | [H1 H2]]]]].
      * rewrite bool_decide_eq_true_2 by exact Heq.
        rewrite <- Heq. apply (IH w1' ws'); try assumption. rewrite Heq. exact Hs.
      * rewrite bool_decide_eq_false_2 by congruence.
        rewrite (IH w1' ws') by (try assumption; right; left; exact H2).
        rewrite H1, H2. reflexivity.
      * rewrite bool_decide_eq_false_2 by congruence.
        rewrite (IH w1' ws') by (try assumption; right; right; exact H2).
        rewrite H1, H2. reflexivity.
      * congruence.
      * destruct Hs as [Hs | [Hs | Hs]]; congruence.
Qed.

(** The phase Idle is left only by [processFile] on a file within the
    size limit. *)
Lemma step_leaves_idle (w w' : World) (ev : Event) :
  one_run (tasks w) (appState (app w)) ->
  appState (app w) = IDLE ->
  step w ev = Some w' ->
  appState (app w') = IDLE
  \/ exists file,
       ev = SelectFile file /\ (file_size file <= 20 * 1024 * 1024)%Z
       /\ w' = processFile file w.
Proof.
  intros Hinv Hidle Hstep. pose proof Hstep as Hstep0. unfold step in Hstep.
  destruct (unmounted w); [discriminate|].
  destruct ev as [file|tid dataURL uuid now|tid|tid o uuid now|tid now|t| | |type|q|text
                 |uuid now|uuid now| |].
  - destruct (is_state IDLE w); [|discriminate]. injection Hstep as <-.
    destruct (file_size file >? size_limit)%Z eqn:Hsize.
    + left. unfold processFile. rewrite Hsize. exact Hidle.
    + right. exists file. split; [reflexivity|]. split; [|reflexivity].
      rewrite Z.gtb_ltb in Hsize. apply Z.ltb_ge in Hsize. exact Hsize.
  - destruct (tasks w !! tid) as [[file recent| | | |]|] eqn:Ht; try discriminate.
    destruct (one_run_pending _ _ _ _ _ Hinv Ht eq_refl) as [Hs _]. congruence.
  - destruct (tasks w !! tid) as [[file recent| | | |]|] eqn:Ht; try discriminate.
    injection Hstep as <-. left. exact Hidle.
  - destruct (tasks w !! tid) as [[|newFile recent| | |]|] eqn:Ht; try discriminate.
    + destruct (one_run_pending _ _ _ _ _ Hinv Ht eq_refl) as [Hs _]. congruence.
    + injection Hstep as <-. left. unfold chat_settled.
      destruct (chatWithDocument_response o); exact Hidle.
  - destruct (tasks w !! tid) as [[| |newFile analysis recent|newFile analysis recent|]|]
      eqn:Ht; try discriminate;
      destruct (one_run_pending _ _ _ _ _ Hinv Ht eq_refl) as [Hs _]; congruence.
  - unfold is_state in Hstep. case_bool_decide; [congruence|discriminate].
  - unfold is_state in Hstep. case_bool_decide; [congruence|discriminate].
  - unfold is_state in Hstep. case_bool_decide; [congruence|discriminate].
  - unfold is_state in Hstep. case_bool_decide; [congruence|discriminate].
  - unfold chat_panel, is_state in Hstep. case_bool_decide; [congruence|discriminate].
  - unfold chat_panel, is_state in Hstep. case_bool_decide; [congruence|discriminate].
  - unfold chat_panel, is_state in Hstep. case_bool_decide; [congruence|discriminate].
  - unfold chat_panel, is_state in Hstep. case_bool_decide; [congruence|discriminate].
  - destruct (error (app w)); [|discriminate]. injection Hstep as <-. left. exact Hidle.
  - injection Hstep as <-. left. exact Hidle.
Qed.

(** A run that leaves the phase Idle was started by [processFile]. *)
Lemma run_started_by_processFile (evs : list Event) (w : World) (ws : list World) :
  one_run (tasks w) (appState (app w)) ->
  appState (app w) = IDLE ->
  trace w evs = Some ws ->
  Exists (fun x => appState (app x) <> IDLE) ws ->
  exists file, In (SelectFile file) evs /\ (file_size file <= 20 * 1024 * 1024)%Z.
Proof.
  revert w ws. induction evs as [|ev evs IH]; intros w ws Hinv Hidle Htr Hex.
  - simpl in Htr. injection Htr as <-. inversion Hex.
  - simpl in Htr. destruct (step w ev) as [w1|] eqn:Hstep; [|discriminate].
    cbn [mbind option_bind] in Htr.
    destruct (trace w1 evs) as [ws1|] eqn:Htr1; [|discriminate].
    injection Htr as <-.
    destruct (step_leaves_idle w w1 ev Hinv Hidle Hstep) as [Hidle1 | (file & -> & Hsize & _)].
    + inversion Hex as [x l Hx | x l Hl]; subst; [congruence|].
      destruct (step_phase w w1 ev Hinv Hstep) as [Hinv1 _].
      destruct (IH w1 ws1 Hinv1 Hidle1 Htr1 Hl) as (file & Hin & Hsize).
      exists file. split; [right; exact Hin|exact Hsize].
    + exists file. split; [left; reflexivity|exact Hsize].
Qed.

(** C1.  In every execution of the component, a run that leaves the phase
    Idle and reaches the phase Completed for the first time was started
    by [processFile] on a file within the size limit and visits exactly
    Idle, Ingesting, Analyzing and Completed, in that order, each once:
    the cell [appState] takes the values [IDLE], [UPLOADING], [PROCESSING]
    and [COMPLETE]. *)
Theorem C1_successful_run_phases (storage : gmap string string) (key : option string)
    (before evs : list Event) (w : World) (ws : list World) (wl : World) :
  run (boot storage key) before = Some w ->
  appState (app w) = IDLE ->
  trace w evs = Some (ws ++ [wl]) ->
  Forall (fun x => appState (app x) <> COMPLETE) ws ->
  appState (app wl) = COMPLETE ->
  visited w (ws ++ [wl]) = [IDLE; UPLOADING; PROCESSING; COMPLETE]
  /\ map phase_of (visited w (ws ++ [wl])) = [Idle; Ingesting; Analyzing; Completed]
  /\ exists file, In (SelectFile file) evs /\ (file_size file <= 20 * 1024 * 1024)%Z.
Proof.
  intros Hreach Hidle Htr Hws Hwl.
  assert (Hinv : one_run (tasks w) (appState (app w))).
  { apply (run_one_run before (boot storage key)); [apply boot_quiet|exact Hreach]. }
  assert (Hv : visited w (ws ++ [wl]) = [IDLE; UPLOADING; PROCESSING; COMPLETE]).
  { unfold visited. rewrite (run_rest evs w ws wl Hinv (or_introl Hidle) Htr Hws Hwl).
    rewrite Hidle. reflexivity. }
  split; [exact Hv|]. split; [rewrite Hv; reflexivity|].
  apply (run_started_by_processFile evs w (ws ++ [wl]) Hinv Hidle Htr).
  apply Exists_app. right. left. congruence.
Qed.

Lemma C1_witness :
  run (boot ∅ (Some "key")) [] = Some (boot ∅ (Some "key"))
  /\ appState (app (boot ∅ (Some "key"))) = IDLE
  /\ trace (boot ∅ (Some "key")) (sample_run sample_payload)
     = Some (take 4 sample_trace ++ [or_boot (last sample_trace)])
  /\ Forall (fun x => appState (app x) <> COMPLETE) (take 4 sample_trace)
  /\ appState (app (or_boot (last sample_trace))) = COMPLETE
  /\ map phase_of (visited (boot ∅ (Some "key"))
                     (take 4 sample_trace ++ [or_boot (last sample_trace)]))
     = [Idle; Ingesting; Analyzing; Completed].
Proof.
  assert (Hrun : run (boot ∅ (Some "key")) [] = Some (boot ∅ (Some "key")))
    by reflexivity.
  assert (Hidle : appState (app (boot ∅ (Some "key"))) = IDLE) by reflexivity.
  assert (Htr : trace (boot ∅ (Some "key")) (sample_run sample_payload)
                = Some (take 4 sample_trace ++ [or_boot (last sample_trace)]))
    by (vm_compute; reflexivity).
  assert (Hws : Forall (fun x => appState (app x) <> COMPLETE) (take 4 sample_trace)).
  { vm_compute. repeat constructor; discriminate. }
  assert (Hwl : appState (app (or_boot (last sample_trace))) = COMPLETE)
    by (vm_compute; reflexivity).
  destruct (C1_successful_run_phases ∅ (Some "key") [] (sample_run sample_payload)
              _ _ _ Hrun Hidle Htr Hws Hwl) as (_ & Hphases & _).
  repeat (split; [assumption|]). exact Hphases.
Defined.

(** ** [JSON.parse] and the alphabet of the model *)

(** Where the lexer of the model takes a character, the lexer that takes
    every escape takes it with the same result. *)
Lemma lex_step_any_agrees (st : lstate) (c : ascii) (x : lstate * list token) :
  lex_step st c = Some x -> lex_step_any st c = Some x.
Proof.
  destruct st as [|acc|acc|acc hex|acc|acc]; try (intros H; exact H).
  unfold lex_step, lex_step_any.
  destruct (hex_val c) as [d|]; [|intros H; exact H].
  destruct (length (hex ++ [c]) <? 4)%nat; [intros H; exact H|].
  destruct (hex_code (hex ++ [c])) as [n|]; [|intros H; exact H].
  destruct (n <? 256)%nat; [intros H; exact H|discriminate].
Qed.

Lemma lex_any_agrees (l : list ascii) (st : lstate) (ts : list token) :
  lex st l = Some ts -> lex_any st l = Some ts.
Proof.
  revert st ts. induction l as [|c l IH]; intros st ts H; [exact H|].
  simpl in H. simpl.
  destruct (lex_step st c) as [[st' ts']|] eqn:Hs; [|discriminate H].
  rewrite (lex_step_any_agrees st c _ Hs).
  unfold_bind. unfold_bind.
  destruct (lex st' l) as [rest|] eqn:Hl; [|discriminate H].
  rewrite (IH st' rest Hl). exact H.
Qed.

(** A text that has a value in the model is JSON, and a text that is not
    JSON has none. *)
Lemma JSON_parse_valid (text : string) (v : JSValue) :
  JSON_parse text = Some v -> JSON_valid text = true.
Proof.
  unfold JSON_parse, JSON_valid. intros H.
  destruct (lex LTop (list_ascii_of_string text)) as [ts|] eqn:Hl; [|discriminate H].
  rewrite (lex_any_agrees _ _ _ Hl).
  unfold_bind. unfold_bind. rewrite H. reflexivity.
Qed.

Lemma JSON_invalid_parse (text : string) :
  JSON_valid text = false -> JSON_parse text = None.
Proof.
  intros H. destruct (JSON_parse text) as [v|] eqn:Hp; [|reflexivity].
  rewrite (JSON_parse_valid text v Hp) in H. discriminate H.
Qed.

(** The lexers part on an escape of a code unit above 255 only: the text
    is JSON and has no value in the model. *)
Example JSON_valid_wide :
  JSON_valid (js "'\u0141'") = true /\ JSON_parse (js "'\u0141'") = None
  /\ JSON_parse (js "'\u0041'") = Some (JStr "A")
  /\ JSON_valid (js "'\u00g1'") = false.
Proof. vm_compute. repeat split; reflexivity. Qed.

(** The keys of a parsed object are in the order of enumeration: array
    indices first, in ascending order, then the other keys in the order
    of the text. *)
Example JSON_parse_key_order :
  (v ← JSON_parse (js "{'b':1,'2':2,'a':3,'1':4,'01':5}");
   match v with JObj m => Some (map fst m) | _ => None end)
  = Some ["1"; "2"; "b"; "a"; "01"].
Proof. vm_compute. reflexivity. Qed.

(** ** C2: what happens to the payload *)





(** ** C3: the size limit *)

(** C3.  For every file whose size exceeds 20 * 1024 * 1024 bytes,
    [processFile] only sets the error message "File size exceeds 20MB
    limit.": no request goes out, no task is started, the phase and every
    other cell keep their values; where a file can be submitted the phase
    is Idle, and it is still Idle afterwards. *)
Theorem C3_oversize_file_rejected (w : World) (file : File) :
  (file_size file > 20 * 1024 * 1024)%Z ->
  processFile file w = with_app (setError (Some "File size exceeds 20MB limit.")) w
  /\ error (app (processFile file w)) = Some "File size exceeds 20MB limit."
  /\ requests (processFile file w) = requests w
  /\ tasks (processFile file w) = tasks w
  /\ appState (app (processFile file w)) = appState (app w)
  /\ result_ (app (processFile file w)) = result_ (app w)
  /\ (forall w', step w (SelectFile file) = Some w' ->
        phase_of (appState (app w)) = Idle /\ phase_of (appState (app w')) = Idle
        /\ requests w' = requests w).
Proof.
  intros Hsize.
  assert (Hgt : (file_size file >? size_limit)%Z = true).
  { unfold size_limit. apply Z.gtb_lt. lia. }
  assert (Heq : processFile file w
                = with_app (setError (Some "File size exceeds 20MB limit.")) w).
  { unfold processFile. rewrite Hgt. reflexivity. }
  rewrite Heq. repeat split; try reflexivity.
  - unfold step in H. destruct (unmounted w); [discriminate|].
    unfold is_state in H. case_bool_decide as Hs; [|discriminate].
    rewrite Hs. reflexivity.
  - unfold step in H. destruct (unmounted w); [discriminate|].
    unfold is_state in H. case_bool_decide as Hs; [|discriminate].
    injection H as <-. rewrite Heq. simpl. rewrite Hs. reflexivity.
  - unfold step in H. destruct (unmounted w); [discriminate|].
    unfold is_state in H. case_bool_decide as Hs; [|discriminate].
    injection H as <-. rewrite Heq. reflexivity.
Qed.

Lemma C3_witness :
  let file := mkFile "big.pdf" (25 * 1024 * 1024) "application/pdf" in
  let w := boot ∅ (Some "key") in
  (file_size file > 20 * 1024 * 1024)%Z
  /\ step w (SelectFile file) = Some (processFile file w)
  /\ error (app (processFile file w)) = Some "File size exceeds 20MB limit."
  /\ requests (processFile file w) = []
  /\ appState (app (processFile file w)) = IDLE.
Proof.
  intros file w.
  destruct (C3_oversize_file_rejected w file ltac:(simpl; lia))
    as (_ & He & Hr & _ & Hs & _).
  split; [simpl; lia|].
  split; [reflexivity|].
  split; [exact He|].
  split; [exact Hr|exact Hs].
Defined.

(** ** C4: what the export buttons hand out *)

(** C4, as stated, fails for the format json: for the result of the sample
    run the exported text is the markdown content, which [JSON.parse]
    rejects, so it does not decode back to the result. *)
Lemma C4_counterexample :
  JSON_parse sample_payload = Some (result_ (app chat_world))
  /\ downloads (onExport json chat_world)
     = [mkDownload "# Title" "application/json" "report.json"]
  /\ JSON_parse "# Title" = None
  /\ (forall d, downloads (onExport json chat_world) = [d] ->
        JSON_parse (blob_text d) <> Some (result_ (app chat_world))).
Proof.
  assert (Hd : downloads (onExport json chat_world)
               = [mkDownload "# Title" "application/json" "report.json"])
    by (vm_compute; reflexivity).
  split; [vm_compute; reflexivity|]. split; [exact Hd|].
  split; [vm_compute; reflexivity|].
  intros d H. rewrite Hd in H. injection H as <-. vm_compute. discriminate.
Qed.

(** C4, amended.  For every result whose [markdownContent] and
    [suggestedFilename] are strings, exporting with format markdown hands
    out a byte stream equal to [markdownContent] verbatim, and so does
    exporting with format json or plain text: the json export is the same
    markdown text, labelled [application/json] and named with the
    extension [json]; it is not an encoding of the result. *)
Theorem C4_export_is_markdown_text (w : World) (content filename : string)
    (type : ExportType) :
  get_prop (result_ (app w)) "markdownContent" = Ok (JStr content) ->
  get_prop (result_ (app w)) "suggestedFilename" = Ok (JStr filename) ->
  type <> doc ->
  exists d,
    onExport type w = save d w
    /\ downloads (onExport type w) = downloads w ++ [d]
    /\ blob_text d = content
    /\ blob_bytes d = utf8 content
    /\ blob_type d = match type with json => "application/json" | _ => "text/plain" end
    /\ download_name d = replace_first ".docx" "" filename +:+ "." +:+ ext_of type.
Proof.
  intros Hc Hf Ht. unfold onExport. rewrite Hc, Hf.
  destruct type; [congruence| | |];
    (eexists; split; [reflexivity|]; repeat split; reflexivity).
Qed.

Lemma C4_witness :
  get_prop (result_ (app chat_world)) "markdownContent" = Ok (JStr "# Title")
  /\ get_prop (result_ (app chat_world)) "suggestedFilename" = Ok (JStr "report.docx")
  /\ md <> doc
  /\ exists d,
       downloads (onExport md chat_world) = downloads chat_world ++ [d]
       /\ blob_text d = "# Title"
       /\ blob_bytes d = [35; 32; 84; 105; 116; 108; 101]%N.
Proof.
  assert (Hc : get_prop (result_ (app chat_world)) "markdownContent" = Ok (JStr "# Title"))
    by (vm_compute; reflexivity).
  assert (Hf : get_prop (result_ (app chat_world)) "suggestedFilename"
               = Ok (JStr "report.docx")) by (vm_compute; reflexivity).
  assert (Ht : md <> doc) by discriminate.
  destruct (C4_export_is_markdown_text chat_world "# Title" "report.docx" md Hc Hf Ht)
    as (d & _ & Hd & Htext & Hbytes & _).
  split; [exact Hc|]. split; [exact Hf|]. split; [exact Ht|].
  exists d. split; [exact Hd|]. split; [exact Htext|]. rewrite Hbytes. vm_compute. reflexivity.
Defined.

(** ** C5: the ledger *)

Lemma get_prop_readable (v : JSValue) (k : string) :
  readable v = true ->
  exists x, get_prop v k = Ok x /\ (forall m, v = JObj m -> x = obj_get m k).
Proof.
  destruct v; intros H; try discriminate; simpl; eexists; split; try reflexivity;
    intros m' Hm; try discriminate.
  injection Hm as ->. reflexivity.
Qed.

Lemma get_prop_id (i : JSValue) : readable i = true -> get_prop i "id" = Ok (item_id i).
Proof. destruct i; intros H; try discriminate; reflexivity. Qed.

Lemma filter_other_ids_spec (id : string) (l : list JSValue) :
  Forall (fun i => readable i = true) l ->
  filter_other_ids id l = Ok (List.filter (other_id id) l).
Proof.
  induction 1 as [|i l Hi Hl IH]; [reflexivity|].
  simpl. rewrite (get_prop_id i Hi). unfold_bind. rewrite IH.
  unfold other_id. destruct (strict_ne_string (item_id i) id); reflexivity.
Qed.

Lemma filter_other_ids_readable (id : string) (l : list JSValue) :
  Forall (fun i => readable i = true) l ->
  Forall (fun i => readable i = true) (List.filter (other_id id) l).
Proof.
  induction 1 as [|i l Hi Hl IH]; [constructor|].
  simpl. destruct (other_id id i); [constructor|]; assumption.
Qed.

Lemma filter_same_id_none (id : string) (l : list JSValue) :
  List.filter (fun i => negb (other_id id i)) (List.filter (other_id id) l) = [].
Proof.
  induction l as [|i l IH]; [reflexivity|].
  simpl. destruct (other_id id i) eqn:Hi; [|exact IH].
  simpl. rewrite Hi. exact IH.
Qed.

Lemma filter_take_nil {A} (p : A -> bool) (n : nat) (l : list A) :
  List.filter p l = [] -> List.filter p (take n l) = [].
Proof.
  revert n. induction l as [|x l IH]; intros [|n] H; try reflexivity.
  simpl in *. destruct (p x); [discriminate|]. apply IH, H.
Qed.

(** One record operation on a ledger that is a list of entries. *)
Lemma addToHistory_spec (w : World) (file : FileData) (analysis : JSValue) (now : Z)
    (items : list JSValue) :
  Forall (fun i => readable i = true) items ->
  readable analysis = true ->
  exists summary stats,
    get_prop analysis "summary" = Ok summary
    /\ get_prop analysis "stats" = Ok stats
    /\ addToHistory (JArr items) file analysis now w
       = Ok (setItem history_key
               (default "undefined"
                  (JSON_stringify
                     (JArr (take 10 (newItem file now summary stats
                                       :: List.filter (other_id (fd_id file)) items)))))
               (with_app
                  (setRecentFiles
                     (JArr (take 10 (newItem file now summary stats
                                       :: List.filter (other_id (fd_id file)) items))))
                  w)).
Proof.
  intros Hitems Han.
  destruct (get_prop_readable analysis "summary" Han) as (summary & Hs & _).
  destruct (get_prop_readable analysis "stats" Han) as (stats & Ht & _).
  exists summary, stats. split; [exact Hs|]. split; [exact Ht|].
  unfold addToHistory. rewrite Hs, Ht. unfold_bind. unfold filter_recent.
  rewrite (filter_other_ids_spec _ _ Hitems). reflexivity.
Qed.

(** Where the ledger of a task that is pending after a step comes from:
    the task was pending before, or it took the current ledger, or it took
    the ledger of a task that was pending before. *)
Lemma step_task_recent (w w' : World) (ev : Event) (tid : nat) (t : Task) (r : JSValue) :
  step w ev = Some w' ->
  tasks w' !! tid = Some t ->
  task_recent t = Some r ->
  r = recentFiles (app w)
  \/ exists tid0 t0, tasks w !! tid0 = Some t0 /\ task_recent t0 = Some r.
Proof.
  intros Hstep Ht Hr. unfold step in Hstep.
  destruct (unmounted w); [discriminate|].
  assert (Hold : forall k, tasks w !! k = Some t ->
                 exists tid0 t0, tasks w !! tid0 = Some t0 /\ task_recent t0 = Some r)
    by (intros k Hk; exists k, t; auto).
  destruct ev as [file|tid1 dataURL uuid now|tid1|tid1 o uuid now|tid1 now|tb| | |type|q
                 |text|uuid now|uuid now| |].
  - destruct (is_state IDLE w); [|discriminate]. injection Hstep as <-.
    unfold processFile in Ht. destruct (_ >? _)%Z; simpl in Ht; [right; eauto|].
    apply lookup_insert_Some in Ht as [[_ <-] | [_ Ht]]; [|right; eauto].
    left. simpl in Hr. congruence.
  - destruct (tasks w !! tid1) as [[file recent| | | |]|] eqn:H1; try discriminate.
    injection Hstep as <-. right. unfold reader_onload in Ht.
    destruct (analyzeAndConvertPDF_request _ _ _); simpl in Ht.
    + apply lookup_insert_Some in Ht as [[_ <-] | [_ Ht]].
      * exists tid1, (ReaderTask file recent). auto.
      * apply lookup_delete_Some in Ht as [_ Ht]. eauto.
    + apply lookup_delete_Some in Ht as [_ Ht]. eauto.
  - destruct (tasks w !! tid1) as [[file recent| | | |]|] eqn:H1; try discriminate.
    injection Hstep as <-. right. simpl in Ht.
    apply lookup_delete_Some in Ht as [_ Ht]. eauto.
  - destruct (tasks w !! tid1) as [[|newFile recent| | |]|] eqn:H1; try discriminate;
      injection Hstep as <-; right.
    + unfold analysis_settled in Ht. destruct (analyzeAndConvertPDF_response o); simpl in Ht.
      * apply lookup_insert_Some in Ht as [[_ <-] | [_ Ht]].
        -- exists tid1, (AnalysisTask newFile recent). auto.
        -- apply lookup_delete_Some in Ht as [_ Ht]. eauto.
      * apply lookup_delete_Some in Ht as [_ Ht]. eauto.
    + unfold chat_settled in Ht. destruct (chatWithDocument_response o); simpl in Ht;
        apply lookup_delete_Some in Ht as [_ Ht]; eauto.
  - destruct (tasks w !! tid1) as [[| |newFile analysis recent|newFile analysis recent|]|]
      eqn:H1; try discriminate; injection Hstep as <-; right.
    + simpl in Ht. apply lookup_insert_Some in Ht as [[_ <-] | [_ Ht]].
      * exists tid1, (PaceExtract newFile analysis recent). auto.
      * apply lookup_delete_Some in Ht as [_ Ht]. eauto.
    + rewrite generate_paced_tasks in Ht. simpl in Ht.
      apply lookup_delete_Some in Ht as [_ Ht]. eauto.
  - destruct (is_state COMPLETE w); [|discriminate]. injection Hstep as <-. right. eauto.
  - destruct (is_state COMPLETE w); [|discriminate]. injection Hstep as <-. right. eauto.
  - destruct (is_state COMPLETE w); [|discriminate]. injection Hstep as <-. right.
    destruct (to_boolean _); [|eauto].
    destruct (onExport_frame doc w) as [_ Heq]. rewrite Heq in Ht. eauto.
  - destruct (_ && _); [|discriminate]. injection Hstep as <-. right.
    destruct (onExport_frame type w) as [_ Heq]. rewrite Heq in Ht. eauto.
  - destruct (_ && _); [|discriminate]. injection Hstep as <-. right. eauto.
  - destruct (chat_panel w); [|discriminate]. injection Hstep as <-. right. eauto.
  - destruct (chat_panel w); [|discriminate]. injection Hstep as <-. right.
    destruct (handleChat_frame uuid now w) as [_ [Heq | Heq]]; rewrite Heq in Ht; [eauto|].
    apply lookup_insert_Some in Ht as [[_ <-] | [_ Ht]]; [discriminate|eauto].
  - destruct (_ && _); [|discriminate]. injection Hstep as <-. right.
    destruct (handleChat_frame uuid now w) as [_ [Heq | Heq]]; rewrite Heq in Ht; [eauto|].
    apply lookup_insert_Some in Ht as [[_ <-] | [_ Ht]]; [discriminate|eauto].
  - destruct (error (app w)); [|discriminate]. injection Hstep as <-. right. eauto.
  - injection Hstep as <-. right. eauto.
Qed.

(** What the completion of a run does to the ledger and to the stored
    text, for the ledger [recent] of its closure. *)
Lemma generate_paced_ledger (newFile : FileData) (analysis recent : JSValue) (now : Z)
    (w : World) :
  good_ledger recent ->
  (recentFiles (app (generate_paced newFile analysis recent now w)) = recentFiles (app w)
   /\ localStorage (generate_paced newFile analysis recent now w) = localStorage w)
  \/ (good_ledger (recentFiles (app (generate_paced newFile analysis recent now w)))
      /\ localStorage (generate_paced newFile analysis recent now w) !! history_key
         = JSON_stringify (recentFiles (app (generate_paced newFile analysis recent now w)))).
Proof.
  intros (items & -> & Hlen & Hitems). unfold generate_paced.
  destruct (readable analysis) eqn:Han.
  - right.
    destruct (addToHistory_spec
                (with_app (setAppState COMPLETE)
                   (with_app (setResult analysis)
                      (with_app (setSteps (mark "generate" completed)) w)))
                newFile analysis now items Hitems Han)
      as (summary & stats & _ & _ & Hadd).
    rewrite Hadd. split.
    + eexists. split; [reflexivity|]. split; [rewrite length_take; lia|].
      apply Forall_take. constructor; [reflexivity|].
      apply filter_other_ids_readable, Hitems.
    + simpl. rewrite lookup_insert_eq. reflexivity.
  - left. destruct analysis; try discriminate; split; reflexivity.
Qed.

Lemma step_ledger_inv (w w' : World) (ev : Event) :
  ledger_inv w -> step w ev = Some w' -> ledger_inv w'.
Proof.
  intros (Hgood & Htasks & Hsync) Hstep.
  assert (Htasks' : forall tid t r,
             tasks w' !! tid = Some t -> task_recent t = Some r -> good_ledger r).
  { intros tid t r Ht Hr.
    destruct (step_task_recent w w' ev tid t r Hstep Ht Hr) as [-> | (tid0 & t0 & H0 & Hr0)];
      [exact Hgood|exact (Htasks tid0 t0 r H0 Hr0)]. }
  destruct (step_ledger w w' ev Hstep)
    as [(tid & now & newFile & analysis & recent & -> & Ht) | [Hl Hs]].
  - assert (Hrecent : good_ledger recent) by (apply (Htasks tid _ recent Ht); reflexivity).
    unfold step in Hstep. destruct (unmounted w); [discriminate|].
    rewrite Ht in Hstep. injection Hstep as <-.
    destruct (generate_paced_ledger newFile analysis recent now (finish tid w) Hrecent)
      as [[Hl Hs] | [Hg Hs]].
    + split; [rewrite Hl; exact Hgood|]. split; [exact Htasks'|].
      rewrite Hl, Hs. exact Hsync.
    + split; [exact Hg|]. split; [exact Htasks'|]. left. exact Hs.
  - split; [rewrite Hl; exact Hgood|]. split; [exact Htasks'|].
    rewrite Hl, Hs. exact Hsync.
Qed.

Lemma run_ledger_inv (evs : list Event) (w w' : World) :
  ledger_inv w -> run w evs = Some w' -> ledger_inv w'.
Proof.
  revert w. induction evs as [|ev evs IH]; intros w Hinv Hrun.
  - injection Hrun as <-. exact Hinv.
  - simpl in Hrun. destruct (step w ev) as [w1|] eqn:Hstep; [|discriminate].
    apply (IH w1); [|exact Hrun]. apply (step_ledger_inv w w1 ev Hinv Hstep).
Qed.

Lemma boot_ledger_inv (storage : gmap string string) (key : option string) :
  storage !! history_key = None -> ledger_inv (boot storage key).
Proof.
  intros Hnone. rewrite boot_unfold, Hnone. split; [|split].
  - exists []. split; [reflexivity|]. split; [simpl; lia|constructor].
  - intros tid t r Ht. simpl in Ht. rewrite lookup_empty in Ht. discriminate.
  - right. split; [exact Hnone|reflexivity].
Qed.

Lemma step_closures_current (w w' : World) (ev : Event) :
  one_run (tasks w) (appState (app w)) ->
  closures_current w ->
  step w ev = Some w' ->
  closures_current w'.
Proof.
  intros Hone Hcur Hstep tid t r Ht Hr.
  destruct (step_ledger w w' ev Hstep)
    as [(tid1 & now & newFile & analysis & recent & -> & Ht1) | [Hl _]].
  - (* the run completes: no task of the pipeline is left *)
    exfalso.
    destruct (one_run_pending _ _ _ _ _ Hone Ht1 eq_refl) as [_ Hq].
    unfold step in Hstep. destruct (unmounted w); [discriminate|].
    rewrite Ht1 in Hstep. injection Hstep as <-.
    rewrite generate_paced_tasks in Ht. simpl in Ht.
    pose proof (Hq tid t Ht) as Hnone. destruct t; simpl in *; discriminate.
  - rewrite Hl.
    destruct (step_task_recent w w' ev tid t r Hstep Ht Hr) as [-> | (tid0 & t0 & H0 & Hr0)];
      [reflexivity|exact (Hcur tid0 t0 r H0 Hr0)].
Qed.

Lemma run_closures_current (evs : list Event) (w w' : World) :
  one_run (tasks w) (appState (app w)) ->
  closures_current w ->
  run w evs = Some w' ->
  closures_current w'.
Proof.
  revert w. induction evs as [|ev evs IH]; intros w Hone Hcur Hrun.
  - injection Hrun as <-. exact Hcur.
  - simpl in Hrun. destruct (step w ev) as [w1|] eqn:Hstep; [|discriminate].
    apply (IH w1); [| |exact Hrun].
    + apply (step_phase w w1 ev Hone Hstep).
    + apply (step_closures_current w w1 ev Hone Hcur Hstep).
Qed.

Lemma boot_closures_current (storage : gmap string string) (key : option string) :
  closures_current (boot storage key).
Proof.
  rewrite boot_unfold.
  destruct (storage !! history_key) as [saved|];
    [destruct (String.eqb saved ""); [|destruct (JSON_parse saved)]|];
    intros tid t r Ht; simpl in Ht; rewrite lookup_empty in Ht; discriminate.
Qed.

Lemma record_spec (w : World) (items : list JSValue) (file : FileData)
    (analysis : JSValue) (now : Z) :
  recentFiles (app w) = JArr items ->
  Forall (fun i => readable i = true) items ->
  readable analysis = true ->
  exists w' summary stats l,
    record (file, analysis, now) w = Ok w'
    /\ get_prop analysis "summary" = Ok summary
    /\ get_prop analysis "stats" = Ok stats
    /\ recentFiles (app w') = JArr l
    /\ l = take 10 (newItem file now summary stats
                      :: List.filter (other_id (fd_id file)) items)
    /\ (length l <= 10)%nat
    /\ head l = Some (newItem file now summary stats)
    /\ List.filter (fun i => negb (other_id (fd_id file) i)) l
       = [newItem file now summary stats]
    /\ localStorage w' !! history_key = JSON_stringify (recentFiles (app w')).
Proof.
  intros Hw Hitems Han.
  destruct (addToHistory_spec w file analysis now items Hitems Han)
    as (summary & stats & Hs & Ht & Hadd).
  eexists _, summary, stats, _. unfold record. rewrite Hw.
  split; [exact Hadd|]. split; [exact Hs|]. split; [exact Ht|].
  split; [reflexivity|]. split; [reflexivity|].
  split; [rewrite length_take; lia|].
  split; [reflexivity|].
  split.
  - change (take 10 (?x :: ?l)) with (x :: take 9 l).
    cbn [List.filter]. unfold other_id at 1. simpl.
    rewrite String.eqb_refl. simpl. f_equal.
    apply filter_take_nil, filter_same_id_none.
  - simpl. rewrite lookup_insert_eq. reflexivity.
Qed.

Lemma records_spec (ops : list (FileData * JSValue * Z)) (w : World)
    (items : list JSValue) :
  recentFiles (app w) = JArr items ->
  Forall (fun i => readable i = true) items ->
  (length items <= 10)%nat ->
  Forall (fun op => readable (snd (fst op)) = true) ops ->
  exists w' l,
    records ops w = Ok w'
    /\ recentFiles (app w') = JArr l
    /\ (length l <= 10)%nat
    /\ Forall (fun i => readable i = true) l
    /\ (ops <> [] ->
        localStorage w' !! history_key = JSON_stringify (recentFiles (app w'))).
Proof.
  revert w items.
  induction ops as [|[[file analysis] now] ops IH]; intros w items Hw Hitems Hlen Hops.
  - exists w, items. split; [reflexivity|]. split; [exact Hw|]. split; [exact Hlen|].
    split; [exact Hitems|]. congruence.
  - inversion Hops as [|op ops' Han Hops']; subst. simpl in Han.
    destruct (addToHistory_spec w file analysis now items Hitems Han)
      as (summary & stats & Hs & Ht & Hadd).
    simpl. rewrite Hw, Hadd. unfold_bind.
    set (l := take 10 (newItem file now summary stats
                         :: List.filter (other_id (fd_id file)) items)) in *.
    set (w1 := setItem _ _ _).
    assert (Hl : Forall (fun i => readable i = true) l).
    { apply Forall_take. constructor; [reflexivity|].
      apply filter_other_ids_readable, Hitems. }
    assert (Hlen1 : (length l <= 10)%nat) by (unfold l; rewrite length_take; lia).
    destruct (IH w1 l eq_refl Hl Hlen1 Hops') as (w' & l' & Hr & Hrf & Hlen' & Hread & Hsync).
    exists w', l'. split; [exact Hr|]. split; [exact Hrf|]. split; [exact Hlen'|].
    split; [exact Hread|].
    intros _. destruct ops as [|op' ops''].
    + simpl in Hr. injection Hr as <-. simpl. rewrite lookup_insert_eq. reflexivity.
    + apply Hsync. discriminate.
Qed.

(** The ledger in an execution of the component that starts without a
    stored history. *)
Lemma execution_ledger (storage : gmap string string) (key : option string)
    (evs : list Event) (w1 : World) :
  storage !! history_key = None ->
  run (boot storage key) evs = Some w1 ->
  exists l,
    recentFiles (app w1) = JArr l
    /\ (length l <= 10)%nat
    /\ (localStorage w1 !! history_key = JSON_stringify (JArr l)
        \/ (localStorage w1 !! history_key = None /\ l = []))
    /\ (forall tid now newFile analysis recent w2,
          tasks w1 !! tid = Some (PaceGenerate newFile analysis recent) ->
          step w1 (TimerFires tid now) = Some w2 ->
          recent = JArr l
          /\ (readable analysis = true ->
              exists summary stats,
                get_prop analysis "summary" = Ok summary
                /\ get_prop analysis "stats" = Ok stats
                /\ recentFiles (app w2)
                   = JArr (take 10 (newItem newFile now summary stats
                                      :: List.filter (other_id (fd_id newFile)) l)))).
Proof.
  intros Hnone Hrun.
  pose proof (run_closures_current evs _ w1 (boot_quiet storage key)
                (boot_closures_current storage key) Hrun) as Hcur.
  destruct (run_ledger_inv evs _ w1 (boot_ledger_inv storage key Hnone) Hrun)
    as ((l & Hl & Hlen & Hread) & _ & Hsync).
  exists l. split; [exact Hl|]. split; [exact Hlen|]. split.
  - rewrite Hl in Hsync. destruct Hsync as [Hs | [Hs Hnil]]; [left; exact Hs|].
    right. split; [exact Hs|congruence].
  - intros tid now newFile analysis recent w2 Ht Hstep.
    assert (Hrec : recent = JArr l).
    { rewrite <- Hl. apply (Hcur tid _ recent Ht). reflexivity. }
    split; [exact Hrec|]. intros Han.
    unfold step in Hstep. destruct (unmounted w1); [discriminate|].
    rewrite Ht in Hstep. injection Hstep as <-. subst recent.
    unfold generate_paced.
    match goal with
    | |- context [addToHistory (JArr l) newFile analysis now ?w0] =>
        destruct (addToHistory_spec w0 newFile analysis now l Hread Han)
          as (summary & stats & Hs & Hst & Hadd)
    end.
    exists summary, stats. split; [exact Hs|]. split; [exact Hst|].
    rewrite Hadd. reflexivity.
Qed.

(** C5.  A record operation on a ledger that is a list of entries puts the
    new entry at the front, removes every entry with the same document
    identity, keeps the others in their order, cuts the list to its first
    10 entries, and writes the serialised list to local storage; after any
    sequence of record operations the ledger is a list of at most 10
    entries whose serialisation is what local storage holds.  In every
    execution of the component that starts without a stored history the
    ledger is at all times a list of at most 10 entries, and local storage
    holds its serialisation as soon as one run has been recorded; the
    record operation at the end of a run is applied to the ledger as it is
    then. *)
Theorem C5_history_ledger (w : World) (items : list JSValue) :
  recentFiles (app w) = JArr items ->
  Forall (fun i => readable i = true) items ->
  (forall file analysis now,
      readable analysis = true ->
      exists w' summary stats l,
        record (file, analysis, now) w = Ok w'
        /\ get_prop analysis "summary" = Ok summary
        /\ get_prop analysis "stats" = Ok stats
        /\ recentFiles (app w') = JArr l
        /\ l = take 10 (newItem file now summary stats
                          :: List.filter (other_id (fd_id file)) items)
        /\ (length l <= 10)%nat
        /\ head l = Some (newItem file now summary stats)
        /\ List.filter (fun i => negb (other_id (fd_id file) i)) l
           = [newItem file now summary stats]
        /\ localStorage w' !! history_key = JSON_stringify (recentFiles (app w')))
  /\ (forall ops,
        (length items <= 10)%nat ->
        Forall (fun op => readable (snd (fst op)) = true) ops ->
        exists w' l,
          records ops w = Ok w'
          /\ recentFiles (app w') = JArr l
          /\ (length l <= 10)%nat
          /\ Forall (fun i => readable i = true) l
          /\ (ops <> [] ->
              localStorage w' !! history_key = JSON_stringify (recentFiles (app w'))))
  /\ (forall storage key evs w1,
        storage !! history_key = None ->
        run (boot storage key) evs = Some w1 ->
        exists l,
          recentFiles (app w1) = JArr l
          /\ (length l <= 10)%nat
          /\ (localStorage w1 !! history_key = JSON_stringify (JArr l)
              \/ (localStorage w1 !! history_key = None /\ l = []))
          /\ (forall tid now newFile analysis recent w2,
                tasks w1 !! tid = Some (PaceGenerate newFile analysis recent) ->
                step w1 (TimerFires tid now) = Some w2 ->
                recent = JArr l
                /\ (readable analysis = true ->
                    exists summary stats,
                      get_prop analysis "summary" = Ok summary
                      /\ get_prop analysis "stats" = Ok stats
                      /\ recentFiles (app w2)
                         = JArr (take 10 (newItem newFile now summary stats
                                            :: List.filter (other_id (fd_id newFile)) l))))).
Proof.
  intros Hw Hitems. split; [|split].
  - intros file analysis now Han. exact (record_spec w items file analysis now Hw Hitems Han).
  - intros ops Hlen Hops. exact (records_spec ops w items Hw Hitems Hlen Hops).
  - intros storage key evs w1 Hnone Hrun.
    exact (execution_ledger storage key evs w1 Hnone Hrun).
Qed.

Lemma C5_witness :
  exists items w' l,
    recentFiles (app chat_world) = JArr items
    /\ Forall (fun i => readable i = true) items
    /\ length items = 1%nat
    /\ readable (result_ (app chat_world)) = true
    /\ record (mkFileData "id-1" "report.pdf" 1000 "application/pdf" None (Some "QUJD") 0,
               result_ (app chat_world), 1700000005000%Z) chat_world = Ok w'
    /\ recentFiles (app w') = JArr l
    /\ length l = 1%nat
    /\ localStorage w' !! history_key
       = Some (js "[{'id':'id-1','fileName':'report.pdf','date':1700000005000,'summary':'S','stats':{'pageCount':1,'wordCount':500,'paragraphCount':3,'imageCount':0,'sentimentScore':70,'complexityScore':40,'readingTimeMin':2,'language':'en','category':'report','tone':'neutral'}}]").
Proof.
  destruct (recentFiles (app chat_world)) as [| | | | |items|] eqn:Hw;
    try (vm_compute in Hw; discriminate).
  assert (Hitems : Forall (fun i => readable i = true) items).
  { vm_compute in Hw. injection Hw as <-. repeat constructor. }
  assert (Han : readable (result_ (app chat_world)) = true) by (vm_compute; reflexivity).
  destruct (C5_history_ledger chat_world items Hw Hitems) as (Hone & _ & _).
  destruct (Hone (mkFileData "id-1" "report.pdf" 1000 "application/pdf" None (Some "QUJD") 0)
              (result_ (app chat_world)) 1700000005000%Z Han)
    as (w' & summary & stats & l & Hrec & Hs & Ht & Hrf & Hl & _ & _ & _ & Hsync).
  exists items, w', l.
  assert (Hitems' : items = match recentFiles (app chat_world) with JArr x => x | _ => [] end)
    by (rewrite Hw; reflexivity).
  vm_compute in Hs. injection Hs as <-. vm_compute in Ht. injection Ht as <-.
  split; [reflexivity|]. split; [exact Hitems|].
  split; [rewrite Hitems'; vm_compute; reflexivity|].
  split; [exact Han|]. split; [exact Hrec|]. split; [exact Hrf|].
  split; [rewrite Hl, Hitems'; vm_compute; reflexivity|].
  rewrite Hsync, Hrf, Hl, Hitems'. vm_compute. reflexivity.
Defined.

(** ** C7: the transcript of a sequence of questions *)

Lemma can_call_request (key : option string) (result : JSValue)
    (history : list ChatMessage) (message : string) :
  match (ctx ← get_prop result "markdownContent";
         chatWithDocument_request key history message ctx) with
  | Ok _ => can_call key result = true
  | Throw _ => can_call key result = false
  end.
Proof.
  unfold can_call, chatWithDocument_request. unfold_bind.
  destruct (get_prop result "markdownContent") as [ctx|e]; [|reflexivity].
  destruct (getClient key); [|reflexivity].
  destruct (contextPrompt ctx); reflexivity.
Qed.

Lemma chat_panel_result (w : World) :
  chat_panel w = true -> to_boolean (result_ (app w)) = true.
Proof.
  unfold chat_panel. intros H.
  apply andb_true_iff in H as [H _]. apply andb_true_iff in H as [_ H]. exact H.
Qed.

(** What [handleChat] does to the transcript at once. *)
Lemma handleChat_transcript (uuid : string) (now : Z) (w : World) :
  trim (chatInput (app w)) <> "" ->
  to_boolean (result_ (app w)) = true ->
  chatHistory (app (handleChat uuid now w))
  = chatHistory (app w) ++ [mkChatMessage uuid user (chatInput (app w)) now].
Proof.
  intros Hq Hr. unfold handleChat. apply String.eqb_neq in Hq. rewrite Hq, Hr. simpl.
  destruct (mbind _ _); reflexivity.
Qed.

Lemma ask_spec (w : World) (q : Ask) :
  unmounted w = false ->
  chat_panel w = true ->
  trim (question q) <> "" ->
  exists w',
    ask w q = Some w'
    /\ chatHistory (app w') = chatHistory (app w) ++ turns (API_KEY w) (result_ (app w)) q
    /\ API_KEY w' = API_KEY w
    /\ result_ (app w') = result_ (app w)
    /\ unmounted w' = false
    /\ chat_panel w' = true.
Proof.
  intros Hm Hp Hq.
  pose proof (chat_panel_result w Hp) as Hr.
  apply String.eqb_neq in Hq.
  unfold ask. rewrite (step_type w _ Hm Hp). cbn [mbind option_bind].
  set (w1 := with_app (setChatInput (question q)) w).
  rewrite (step_enter w1 _ _ Hm Hp). cbn [mbind option_bind].
  unfold handleChat.
  change (chatInput (app w1)) with (question q).
  change (result_ (app w1)) with (result_ (app w)).
  change (chatHistory (app w1)) with (chatHistory (app w)).
  change (API_KEY w1) with (API_KEY w).
  rewrite Hq, Hr. cbn [negb orb].
  pose proof (can_call_request (API_KEY w) (result_ (app w)) (chatHistory (app w))
                (question q)) as Hcall.
  unfold turns, answer.
  destruct (mbind _ (get_prop (result_ (app w)) "markdownContent")) as [req|e].
  - rewrite Hcall.
    cbn [next_task spawn send with_app]. rewrite Nat.eqb_refl.
    erewrite step_settle_chat; [|exact Hm|apply lookup_insert_eq].
    unfold chat_settled.
    destruct (chatWithDocument_response (outcome q)) as [text|e];
      (eexists; split; [reflexivity|]);
      (split; [simpl; rewrite <- ?app_assoc; reflexivity|]);
      (split; [reflexivity|]); (split; [reflexivity|]); (split; [exact Hm|]);
      exact Hp.
  - rewrite Hcall.
    cbn [next_task console_error with_app].
    replace (next_task w1 =? S (next_task w1))%nat with false
      by (symmetry; apply Nat.eqb_neq; lia).
    eexists. split; [reflexivity|].
    split; [reflexivity|]. split; [reflexivity|]. split; [reflexivity|].
    split; [exact Hm|exact Hp].
Qed.

Lemma asks_spec (w : World) (qs : list Ask) :
  unmounted w = false ->
  chat_panel w = true ->
  Forall (fun q => trim (question q) <> "") qs ->
  exists w',
    asks w qs = Some w'
    /\ chatHistory (app w')
       = chatHistory (app w) ++ concat (map (turns (API_KEY w) (result_ (app w))) qs).
Proof.
  intros Hm Hp Hqs. revert w Hm Hp.
  induction Hqs as [|q qs Hq Hqs IH]; intros w Hm Hp.
  - exists w. split; [reflexivity|]. simpl. rewrite app_nil_r. reflexivity.
  - destruct (ask_spec w q Hm Hp Hq) as (w1 & Hask & Hh & Hk & Hr & Hm1 & Hp1).
    destruct (IH w1 Hm1 Hp1) as (w' & Hasks & Hh').
    exists w'. simpl. rewrite Hask. cbn [mbind option_bind].
    split; [exact Hasks|].
    rewrite Hh', Hh, Hk, Hr, <- app_assoc. reflexivity.
Qed.

(** C7.  While the chat panel is on screen, [handleChat] appends the
    user's turn at once.  After any sequence of questions, each asked once
    the previous one has settled, the transcript is the old transcript
    followed, for each question in order, by its user turn and, if the
    call returned a text, one model turn with that text; a call that
    failed leaves only its user turn.  With three questions of which the
    second fails, five turns are added: user, model, user, user, model. *)
Theorem C7_transcript_of_questions (w : World) (qs : list Ask) :
  unmounted w = false ->
  chat_panel w = true ->
  Forall (fun q => trim (question q) <> "") qs ->
  (forall uuid now,
      trim (chatInput (app w)) <> "" ->
      chatHistory (app (handleChat uuid now w))
      = chatHistory (app w) ++ [mkChatMessage uuid user (chatInput (app w)) now])
  /\ exists w',
       asks w qs = Some w'
       /\ chatHistory (app w')
          = chatHistory (app w) ++ concat (map (turns (API_KEY w) (result_ (app w))) qs)
       /\ (forall q,
             In q qs ->
             match answer (API_KEY w) (result_ (app w)) q with
             | Some text => turns (API_KEY w) (result_ (app w)) q = [user_turn q; model_turn q text]
             | None => turns (API_KEY w) (result_ (app w)) q = [user_turn q]
             end)
       /\ (forall q1 q2 q3 a1 a3,
             qs = [q1; q2; q3] ->
             answer (API_KEY w) (result_ (app w)) q1 = Some a1 ->
             answer (API_KEY w) (result_ (app w)) q2 = None ->
             answer (API_KEY w) (result_ (app w)) q3 = Some a3 ->
             chatHistory (app w')
             = chatHistory (app w)
               ++ [user_turn q1; model_turn q1 a1; user_turn q2; user_turn q3;
                   model_turn q3 a3]
             /\ length (chatHistory (app w')) = (length (chatHistory (app w)) + 5)%nat).
Proof.
  intros Hm Hp Hqs. split.
  - intros uuid now Hq. apply handleChat_transcript; [exact Hq|].
    apply chat_panel_result, Hp.
  - destruct (asks_spec w qs Hm Hp Hqs) as (w' & Hasks & Hh).
    exists w'. split; [exact Hasks|]. split; [exact Hh|]. split.
    + intros q _. unfold turns. destruct (answer _ _ q); reflexivity.
    + intros q1 q2 q3 a1 a3 -> H1 H2 H3.
      assert (Heq : chatHistory (app w')
                    = chatHistory (app w)
                      ++ [user_turn q1; model_turn q1 a1; user_turn q2; user_turn q3;
                          model_turn q3 a3]).
      { rewrite Hh. simpl. unfold turns. rewrite H1, H2, H3. reflexivity. }
      split; [exact Heq|]. rewrite Heq, length_app. reflexivity.
Qed.

Lemma C7_witness :
  unmounted chat_world = false
  /\ chat_panel chat_world = true
  /\ Forall (fun q => trim (question q) <> "") three_questions
  /\ exists w',
       asks chat_world three_questions = Some w'
       /\ map (fun m => (msg_role m, msg_text m)) (chatHistory (app w'))
          = [(user, "What is it?"); (model, "A title."); (user, "Who wrote it?");
             (user, "How long is it?"); (model, "500 words.")]
       /\ length (chatHistory (app w')) = 5%nat.
Proof.
  assert (Hm : unmounted chat_world = false) by (vm_compute; reflexivity).
  assert (Hp : chat_panel chat_world = true) by (vm_compute; reflexivity).
  assert (Hqs : Forall (fun q => trim (question q) <> "") three_questions).
  { repeat constructor; vm_compute; discriminate. }
  destruct (C7_transcript_of_questions chat_world three_questions Hm Hp Hqs)
    as (_ & w' & Hasks & Hh & _ & Hscenario).
  split; [exact Hm|]. split; [exact Hp|]. split; [exact Hqs|].
  exists w'. split; [exact Hasks|].
  destruct (Hscenario _ _ _ "A title." "500 words." eq_refl) as (Heq & Hlen);
    try (vm_compute; reflexivity).
  split.
  - rewrite Heq. vm_compute. reflexivity.
  - rewrite Hlen. vm_compute. reflexivity.
Defined.

(** ** C8: a question asked while another is in flight *)

(** C8 (the code departs from it).  While a request is in flight the send
    button is disabled, but the Enter key calls [handleChat] all the same.
    With the question "What is it?" in flight, a second question entered
    with the key goes out at once, with a history that lacks the first
    answer; when the second answer arrives before the first, the
    transcript holds the two user turns, then the second answer, then the
    first. *)
Theorem C8_enter_key_not_serialized :
  isChatLoading (app asking_world) = true
  /\ (forall w uuid now,
        unmounted w = false -> chat_panel w = true -> isChatLoading (app w) = true ->
        step w (ClickSend uuid now) = None
        /\ step w (PressEnter uuid now) = Some (handleChat uuid now w))
  /\ exists w',
       run asking_world
           [TypeChatInput "Who wrote it?";
            PressEnter "id-4" 1700000001500;
            Settle 5 (Responded (Some "Second answer.")) "id-5" 1700000002000;
            Settle 4 (Responded (Some "First answer.")) "id-6" 1700000003000] = Some w'
       /\ map (fun m => (msg_role m, msg_text m)) (chatHistory (app w'))
          = [(user, "What is it?"); (user, "Who wrote it?");
             (model, "Second answer."); (model, "First answer.")]
       /\ match requests w' with
          | [_; SendMessage _ _ h1 m1; SendMessage _ _ h2 m2] =>
              h1 = [] /\ m1 = "What is it?"
              /\ h2 = [(user, "What is it?")] /\ m2 = "Who wrote it?"
          | _ => False
          end.
Proof.
  split; [vm_compute; reflexivity|]. split.
  - intros w uuid now Hm Hp Hl. unfold step. rewrite Hm, Hp, Hl.
    rewrite orb_true_r. split; reflexivity.
  - eexists. split; [vm_compute; reflexivity|].
    split; [vm_compute; reflexivity|]. vm_compute. repeat split; reflexivity.
Qed.

(** ** C9: loading the history *)

(** The side bar lists a ledger of the declared type without throwing. *)
Lemma recent_entries_history (open : bool) (v : JSValue) :
  is_history v = true -> exists l, recent_entries open v = Ok l.
Proof.
  destruct v as [| | | | |l|]; try discriminate. simpl.
  induction l as [|file l IH]; intros H; [exists []; reflexivity|].
  simpl in H. apply andb_true_iff in H as [Hf Hl].
  destruct (IH Hl) as [rest Hrest].
  destruct file as [| | | | | |m]; try discriminate Hf.
  simpl. rewrite Hrest. destruct open; eexists; reflexivity.
Qed.

(** C9, as stated, fails: a stored text that is not JSON makes the effect
    throw, which takes the component down.  A stored text that is JSON
    but not a list becomes the ledger as it is, and the side bar, which
    lists the ledger with [recentFiles.map], throws on it. *)
Lemma C9_counterexample :
  JSON_valid "{oops" = false
  /\ uncaught (boot {[history_key := "{oops"]} (Some "key")) = [SyntaxError "JSON.parse"]
  /\ unmounted (boot {[history_key := "{oops"]} (Some "key")) = true
  /\ recentFiles (app (boot {[history_key := "{oops"]} (Some "key"))) = JArr []
  /\ JSON_valid (js "{'a':1}") = true
  /\ forall open,
       recent_entries open
         (recentFiles (app (boot {[history_key := (js "{'a':1}")]} (Some "key"))))
       = Throw (TypeError "recentFiles.map is not a function").
Proof.
  vm_compute. repeat split; reflexivity.
Qed.

(** C9, amended.  The history is loaded once, by the effect that runs
    after the first render.  When nothing, or the empty text, is stored
    under [smartpdf_history], the ledger starts as the empty list and
    nothing is raised.  A stored list of history entries becomes the
    ledger as parsed; nothing is raised and the side bar lists it.  A
    stored text that is not JSON makes the effect throw a [SyntaxError]
    that nothing catches, and the component goes down.  Local storage is
    left as it was, and afterwards the ledger changes only when a run
    completes. *)
Theorem C9_history_load (storage : gmap string string) (key : option string) :
  (storage !! history_key = None \/ storage !! history_key = Some "" ->
   recentFiles (app (boot storage key)) = JArr []
   /\ uncaught (boot storage key) = [] /\ unmounted (boot storage key) = false)
  /\ (forall saved v,
        storage !! history_key = Some saved -> saved <> "" ->
        JSON_parse saved = Some v -> is_history v = true ->
        recentFiles (app (boot storage key)) = v
        /\ uncaught (boot storage key) = [] /\ unmounted (boot storage key) = false
        /\ forall open, exists l, recent_entries open v = Ok l)
  /\ (forall saved,
        storage !! history_key = Some saved -> saved <> "" -> JSON_valid saved = false ->
        uncaught (boot storage key) = [SyntaxError "JSON.parse"]
        /\ unmounted (boot storage key) = true)
  /\ localStorage (boot storage key) = storage
  /\ (forall w w' ev,
        step w ev = Some w' ->
        (forall tid now, ev <> TimerFires tid now) ->
        recentFiles (app w') = recentFiles (app w) /\ localStorage w' = localStorage w).
Proof.
  split; [|split; [|split; [|split]]].
  - intros Hmissing. rewrite boot_unfold.
    destruct Hmissing as [-> | ->]; repeat split; reflexivity.
  - intros saved v Hsaved Hne Hparse Hty. rewrite boot_unfold, Hsaved.
    apply String.eqb_neq in Hne. rewrite Hne, Hparse.
    split; [reflexivity|]. split; [reflexivity|]. split; [reflexivity|].
    intros open. exact (recent_entries_history open v Hty).
  - intros saved Hsaved Hne Hvalid. rewrite boot_unfold, Hsaved.
    apply String.eqb_neq in Hne. rewrite Hne, (JSON_invalid_parse saved Hvalid).
    split; reflexivity.
  - rewrite boot_unfold.
    destruct (storage !! history_key) as [saved|]; [|reflexivity].
    destruct (String.eqb saved ""); [reflexivity|].
    destruct (JSON_parse saved); reflexivity.
  - intros w w' ev Hstep Hev.
    destruct (step_ledger w w' ev Hstep) as [(tid & now & _ & _ & _ & -> & _) | H];
      [destruct (Hev tid now eq_refl)|exact H].
Qed.

Lemma C9_witness :
  (recentFiles (app (boot ∅ (Some "key"))) = JArr []
   /\ uncaught (boot ∅ (Some "key")) = [])
  /\ (exists v,
         JSON_parse stored_history = Some v
         /\ is_history v = true
         /\ v = recentFiles (app (or_boot sample_world))
         /\ recentFiles (app restarted_world) = v
         /\ uncaught restarted_world = []
         /\ unmounted restarted_world = false)
  /\ (JSON_valid "[1,2" = false
      /\ unmounted (boot {[history_key := "[1,2"]} (Some "key")) = true).
Proof.
  assert (H0 : (∅ : gmap string string) !! history_key = None
               \/ (∅ : gmap string string) !! history_key = Some "")
    by (left; reflexivity).
  destruct (C9_history_load ∅ (Some "key")) as (Hmissing & _).
  destruct (Hmissing H0) as (Hm1 & Hm2 & _).
  split; [split; [exact Hm1|exact Hm2]|].
  destruct (JSON_parse stored_history) as [v|] eqn:Hv;
    [|vm_compute in Hv; discriminate Hv].
  assert (Hs : ({[history_key := stored_history]} : gmap string string) !! history_key
               = Some stored_history) by apply lookup_singleton_eq.
  assert (Hne : stored_history <> "") by (vm_compute; discriminate).
  assert (Hty : is_history v = true).
  { vm_compute in Hv. injection Hv as <-. vm_compute. reflexivity. }
  destruct (C9_history_load {[history_key := stored_history]} (Some "key"))
    as (_ & Htyped & _).
  destruct (Htyped stored_history v Hs Hne Hv Hty) as (Hr & Hu & Hun & _).
  split.
  - exists v. split; [reflexivity|]. split; [exact Hty|].
    split; [vm_compute in Hv; injection Hv as <-; vm_compute; reflexivity|].
    split; [exact Hr|]. split; [exact Hu|exact Hun].
  - assert (Hs' : ({[history_key := "[1,2"]} : gmap string string) !! history_key
                  = Some "[1,2") by apply lookup_singleton_eq.
    assert (Hne' : "[1,2" <> "") by discriminate.
    assert (Hv' : JSON_valid "[1,2" = false) by (vm_compute; reflexivity).
    destruct (C9_history_load {[history_key := "[1,2"]} (Some "key"))
      as (_ & _ & Hbad & _).
    destruct (Hbad "[1,2" Hs' Hne' Hv') as (_ & Hdown).
    split; [exact Hv'|exact Hdown].
Defined.

(** ** C10: an answer without text *)

(** C10.  When the response to a chat request carries no text or the empty
    text, [chatWithDocument] returns "I couldn't generate a response." and
    does not throw; [handleChat] appends that string to the transcript as
    a model turn and logs no error. *)
Theorem C10_empty_answer_fallback (o : Outcome) (w : World) (tid : nat)
    (uuid : string) (now : Z) :
  o = Responded None \/ o = Responded (Some "") ->
  chatWithDocument_response o = Ok "I couldn't generate a response."
  /\ (unmounted w = false -> tasks w !! tid = Some ChatTask ->
      exists w',
        step w (Settle tid o uuid now) = Some w'
        /\ chatHistory (app w')
           = chatHistory (app w)
             ++ [mkChatMessage uuid model "I couldn't generate a response." now]
        /\ console_errors w' = console_errors w
        /\ uncaught w' = uncaught w).
Proof.
  intros Ho.
  assert (Hr : chatWithDocument_response o = Ok "I couldn't generate a response.").
  { destruct Ho as [-> | ->]; reflexivity. }
  split; [exact Hr|].
  intros Hm Ht. unfold step. rewrite Hm, Ht.
  eexists. split; [reflexivity|].
  unfold chat_settled. rewrite Hr. simpl. repeat split; reflexivity.
Qed.

Lemma C10_witness :
  (Responded None = Responded None \/ Responded None = Responded (Some ""))
  /\ unmounted asking_world = false
  /\ tasks asking_world !! 4%nat = Some ChatTask
  /\ chatWithDocument_response (Responded None) = Ok "I couldn't generate a response."
  /\ exists w',
       step asking_world (Settle 4 (Responded None) "id-3" 1700000002000) = Some w'
       /\ map (fun m => (msg_role m, msg_text m)) (chatHistory (app w'))
          = [(user, "What is it?"); (model, "I couldn't generate a response.")].
Proof.
  assert (H0 : Responded None = Responded None \/ Responded None = Responded (Some ""))
    by (left; reflexivity).
  assert (Hm : unmounted asking_world = false) by (vm_compute; reflexivity).
  assert (Ht : tasks asking_world !! 4%nat = Some ChatTask) by (vm_compute; reflexivity).
  destruct (C10_empty_answer_fallback (Responded None) asking_world 4 "id-3"
              1700000002000 H0) as [Hr Hs].
  destruct (Hs Hm Ht) as (w' & Hstep & Hh & _).
  split; [exact H0|]. split; [exact Hm|]. split; [exact Ht|]. split; [exact Hr|].
  exists w'. split; [exact Hstep|]. rewrite Hh. vm_compute. reflexivity.
Defined.

(** * Further properties of the code *)

(** ** The pipeline of [processFile] *)

Lemma allowed_assigned (s s' : AppState) : allowed s s' -> assigned s -> assigned s'.
Proof.
  unfold allowed, assigned.
  intros [-> | [[_ ->] | [[_ ->] | [[_ ->] | [_ ->]]]]] H; tauto.
Qed.

(** The error cell is only ever emptied or set to the message of the size
    check. *)
Lemma step_error (w w' : World) (ev : Event) :
  step w ev = Some w' ->
  error (app w') = error (app w)
  \/ error (app w') = None
  \/ error (app w') = Some "File size exceeds 20MB limit.".
Proof.
  intros Hstep. unfold step in Hstep.
  destruct (unmounted w); [discriminate|].
  destruct ev as [file|tid dataURL uuid now|tid|tid o uuid now|tid now|t| | |type|q|text
                 |uuid now|uuid now| |].
  - destruct (is_state IDLE w); [|discriminate]. injection Hstep as <-.
    unfold processFile. destruct (_ >? _)%Z; simpl; auto.
  - destruct (tasks w !! tid) as [[file recent| | | |]|]; try discriminate.
    injection Hstep as <-. left. unfold reader_onload.
    destruct (analyzeAndConvertPDF_request _ _ _); reflexivity.
  - destruct (tasks w !! tid) as [[file recent| | | |]|]; try discriminate.
    injection Hstep as <-. left. reflexivity.
  - destruct (tasks w !! tid) as [[|newFile recent| | |]|]; try discriminate;
      injection Hstep as <-; left.
    + unfold analysis_settled. destruct (analyzeAndConvertPDF_response o); reflexivity.
    + unfold chat_settled. destruct (chatWithDocument_response o); reflexivity.
  - destruct (tasks w !! tid) as [[| |newFile analysis recent|newFile analysis recent|]|];
      try discriminate; injection Hstep as <-; left; [reflexivity|].
    unfold generate_paced.
    destruct (addToHistory recent newFile analysis now _) as [w'|e] eqn:Hadd; [|reflexivity].
    unfold addToHistory in Hadd. unfold_bind.
    destruct (get_prop analysis "summary"); [|discriminate].
    destruct (get_prop analysis "stats"); [|discriminate].
    destruct (filter_recent _ recent); [|discriminate].
    injection Hadd as <-. reflexivity.
  - destruct (is_state COMPLETE w); [|discriminate]. injection Hstep as <-. left. reflexivity.
  - destruct (is_state COMPLETE w); [|discriminate]. injection Hstep as <-. left. reflexivity.
  - destruct (is_state COMPLETE w); [|discriminate]. injection Hstep as <-. left.
    destruct (to_boolean _); [|reflexivity].
    unfold onExport. destruct (mbind _ _); reflexivity.
  - destruct (_ && _); [|discriminate]. injection Hstep as <-. left.
    unfold onExport. destruct (mbind _ _); reflexivity.
  - destruct (_ && _); [|discriminate]. injection Hstep as <-. left. reflexivity.
  - destruct (chat_panel w); [|discriminate]. injection Hstep as <-. left. reflexivity.
  - destruct (chat_panel w); [|discriminate]. injection Hstep as <-. left.
    unfold handleChat. destruct (_ || _); [reflexivity|]. destruct (mbind _ _); reflexivity.
  - destruct (_ && _); [|discriminate]. injection Hstep as <-. left.
    unfold handleChat. destruct (_ || _); [reflexivity|]. destruct (mbind _ _); reflexivity.
  - destruct (error (app w)); [|discriminate]. injection Hstep as <-. right. left. reflexivity.
  - injection Hstep as <-. left. reflexivity.
Qed.

(** A stranded run stays stranded: no event changes the phase, publishes a
    result or sends a request. *)
Lemma step_stranded (w w' : World) (ev : Event) :
  stranded w ->
  step w ev = Some w' ->
  stranded w'
  /\ appState (app w') = appState (app w)
  /\ result_ (app w') = result_ (app w)
  /\ requests w' = requests w.
Proof.
  intros [Hs Hq] Hstep. unfold step in Hstep.
  destruct (unmounted w); [discriminate|].
  assert (Hidle : is_state IDLE w = false).
  { unfold is_state. apply bool_decide_eq_false_2. destruct Hs as [-> | ->]; discriminate. }
  assert (Hcomplete : is_state COMPLETE w = false).
  { unfold is_state. apply bool_decide_eq_false_2. destruct Hs as [-> | ->]; discriminate. }
  assert (Hpanel : chat_panel w = false) by (unfold chat_panel; rewrite Hcomplete; reflexivity).
  assert (Hkeep : forall w1, appState (app w1) = appState (app w) -> tasks w1 = tasks w ->
                             stranded w1).
  { intros w1 H1 H2. unfold stranded. rewrite H1, H2. auto. }
  destruct ev as [file|tid dataURL uuid now|tid|tid o uuid now|tid now|t| | |type|q|text
                 |uuid now|uuid now| |];
    rewrite ?Hidle, ?Hcomplete, ?Hpanel in Hstep; try discriminate.
  - destruct (tasks w !! tid) as [[file recent| | | |]|] eqn:Ht; try discriminate.
    pose proof (Hq tid _ Ht). discriminate.
  - destruct (tasks w !! tid) as [[file recent| | | |]|] eqn:Ht; try discriminate.
    pose proof (Hq tid _ Ht). discriminate.
  - destruct (tasks w !! tid) as [[|newFile recent| | |]|] eqn:Ht; try discriminate.
    + pose proof (Hq tid _ Ht). discriminate.
    + injection Hstep as <-. unfold chat_settled.
      destruct (chatWithDocument_response o); simpl;
        (split; [split; [exact Hs|apply quiet_delete, Hq]|repeat split; reflexivity]).
  - destruct (tasks w !! tid) as [[| |newFile analysis recent|newFile analysis recent|]|]
      eqn:Ht; try discriminate; pose proof (Hq tid _ Ht); discriminate.
  - destruct (error (app w)); [|discriminate]. injection Hstep as <-.
    split; [apply Hkeep; reflexivity|repeat split; reflexivity].
  - injection Hstep as <-. split; [apply Hkeep; reflexivity|repeat split; reflexivity].
Qed.

Lemma run_stranded (evs : list Event) (w w' : World) :
  stranded w ->
  run w evs = Some w' ->
  stranded w'
  /\ appState (app w') = appState (app w)
  /\ result_ (app w') = result_ (app w)
  /\ requests w' = requests w.
Proof.
  revert w. induction evs as [|ev evs IH]; intros w Hs Hrun.
  - injection Hrun as <-. auto.
  - simpl in Hrun. destruct (step w ev) as [w1|] eqn:Hstep; [|discriminate].
    destruct (step_stranded w w1 ev Hs Hstep) as (Hs1 & H1 & H2 & H3).
    destruct (IH w1 Hs1 Hrun) as (Hs' & H1' & H2' & H3').
    split; [exact Hs'|]. split; [congruence|]. split; congruence.
Qed.

(** What a step is made of, event by event. *)
Lemma step_inv (w w' : World) (ev : Event) :
  step w ev = Some w' ->
  unmounted w = false
  /\ match ev with
     | SelectFile file => is_state IDLE w = true /\ w' = processFile file w
     | ReaderLoad tid dataURL uuid now =>
         exists file recent,
           tasks w !! tid = Some (ReaderTask file recent)
           /\ w' = reader_onload file recent dataURL uuid now (finish tid w)
     | ReaderFail tid =>
         exists file recent,
           tasks w !! tid = Some (ReaderTask file recent) /\ w' = finish tid w
     | Settle tid o uuid now =>
         (exists newFile recent,
             tasks w !! tid = Some (AnalysisTask newFile recent)
             /\ w' = analysis_settled newFile recent o (finish tid w))
         \/ (tasks w !! tid = Some ChatTask /\ w' = chat_settled o uuid now (finish tid w))
     | TimerFires tid now =>
         (exists newFile analysis recent,
             tasks w !! tid = Some (PaceExtract newFile analysis recent)
             /\ w' = extract_paced newFile analysis recent (finish tid w))
         \/ (exists newFile analysis recent,
                tasks w !! tid = Some (PaceGenerate newFile analysis recent)
                /\ w' = generate_paced newFile analysis recent now (finish tid w))
     | ClickTab t => is_state COMPLETE w = true /\ w' = with_app (setActiveTab t) w
     | ClickClear => is_state COMPLETE w = true /\ w' = onClear w
     | ClickDownloadDocx =>
         is_state COMPLETE w = true
         /\ w' = (if to_boolean (result_ (app w)) then onExport doc w else w)
     | ClickExport type =>
         is_state COMPLETE w = true /\ to_boolean (result_ (app w)) = true
         /\ activeTab (app w) = settings /\ w' = onExport type w
     | ClickSuggestion q =>
         chat_panel w = true /\ chatHistory (app w) = [] /\ q ∈ suggestions
         /\ w' = with_app (setChatInput q) w
     | TypeChatInput text => chat_panel w = true /\ w' = with_app (setChatInput text) w
     | PressEnter uuid now => chat_panel w = true /\ w' = handleChat uuid now w
     | ClickSend uuid now =>
         chat_panel w = true /\ trim (chatInput (app w)) <> ""
         /\ isChatLoading (app w) = false /\ w' = handleChat uuid now w
     | DismissError => error (app w) <> None /\ w' = with_app (setError None) w
     | ToggleSidebar => w' = with_app (fun a => setSidebarOpen (negb (sidebarOpen a)) a) w
     end.
Proof.
  intros Hstep. unfold step in Hstep.
  destruct (unmounted w); [discriminate|]. split; [reflexivity|].
  destruct ev as [file|tid dataURL uuid now|tid|tid o uuid now|tid now|t| | |type|q|text
                 |uuid now|uuid now| |].
  - destruct (is_state IDLE w); [|discriminate]. injection Hstep as <-. auto.
  - destruct (tasks w !! tid) as [[file recent| | | |]|]; try discriminate.
    injection Hstep as <-. eauto.
  - destruct (tasks w !! tid) as [[file recent| | | |]|]; try discriminate.
    injection Hstep as <-. eauto.
  - destruct (tasks w !! tid) as [[|newFile recent| | |]|]; try discriminate;
      injection Hstep as <-; [left|right]; eauto.
  - destruct (tasks w !! tid) as [[| |newFile analysis recent|newFile analysis recent|]|];
      try discriminate; injection Hstep as <-; [left|right]; eauto 6.
  - destruct (is_state COMPLETE w); [|discriminate]. injection Hstep as <-. auto.
  - destruct (is_state COMPLETE w); [|discriminate]. injection Hstep as <-. auto.
  - destruct (is_state COMPLETE w); [|discriminate]. injection Hstep as <-. auto.
  - destruct (is_state COMPLETE w); [|discriminate].
    destruct (to_boolean _); [|discriminate].
    case_bool_decide; [|discriminate]. injection Hstep as <-. auto.
  - destruct (chat_panel w); [|discriminate].
    case_bool_decide; [|discriminate]. case_bool_decide; [|discriminate].
    injection Hstep as <-. auto.
  - destruct (chat_panel w); [|discriminate]. injection Hstep as <-. auto.
  - destruct (chat_panel w); [|discriminate]. injection Hstep as <-. auto.
  - destruct (chat_panel w); [|discriminate].
    destruct (String.eqb _ _) eqn:Hb; [discriminate|].
    destruct (isChatLoading _); [discriminate|]. injection Hstep as <-.
    apply String.eqb_neq in Hb. auto.
  - destruct (error (app w)); [|discriminate]. injection Hstep as <-. auto.
  - injection Hstep as <-. reflexivity.
Qed.

Lemma is_state_true (s : AppState) (w : World) : is_state s w = true -> appState (app w) = s.
Proof. unfold is_state. intros H. apply bool_decide_eq_true_1 in H. exact H. Qed.

Lemma chat_panel_complete (w : World) : chat_panel w = true -> appState (app w) = COMPLETE.
Proof.
  unfold chat_panel. intros H.
  apply andb_true_iff in H as [H _]. apply andb_true_iff in H as [H _].
  apply is_state_true, H.
Qed.

Lemma handleChat_result (uuid : string) (now : Z) (w : World) :
  result_ (app (handleChat uuid now w)) = result_ (app w).
Proof.
  unfold handleChat. destruct (_ || _); [reflexivity|]. destruct (mbind _ _); reflexivity.
Qed.

Lemma onExport_app (type : ExportType) (w : World) : app (onExport type w) = app w.
Proof. unfold onExport. destruct (mbind _ _); reflexivity. Qed.

Lemma chat_settled_frame (o : Outcome) (uuid : string) (now : Z) (w : World) :
  appState (app (chat_settled o uuid now w)) = appState (app w)
  /\ result_ (app (chat_settled o uuid now w)) = result_ (app w)
  /\ tasks (chat_settled o uuid now w) = tasks w
  /\ requests (chat_settled o uuid now w) = requests w.
Proof. unfold chat_settled. destruct (chatWithDocument_response o); repeat split. Qed.

(** A result is on display in the phase [COMPLETE] only. *)
Lemma step_result_null (w w' : World) (ev : Event) :
  one_run (tasks w) (appState (app w)) ->
  (appState (app w) <> COMPLETE -> result_ (app w) = JNull) ->
  step w ev = Some w' ->
  appState (app w') <> COMPLETE -> result_ (app w') = JNull.
Proof.
  intros Hone Hinv Hstep. apply step_inv in Hstep as [_ Hstep].
  destruct ev as [file|tid dataURL uuid now|tid|tid o uuid now|tid now|t| | |type|q|text
                 |uuid now|uuid now| |].
  - destruct Hstep as [Hs ->]. apply is_state_true in Hs.
    unfold processFile. destruct (_ >? _)%Z; simpl; [|reflexivity].
    intros _. apply Hinv. rewrite Hs. discriminate.
  - destruct Hstep as (file & recent & Ht & ->).
    destruct (one_run_pending _ _ _ _ _ Hone Ht eq_refl) as [Hs _].
    intros _. unfold reader_onload.
    destruct (analyzeAndConvertPDF_request _ _ _); simpl; apply Hinv; rewrite Hs; discriminate.
  - destruct Hstep as (file & recent & Ht & ->). exact Hinv.
  - destruct Hstep as [(newFile & recent & Ht & ->) | [Ht ->]].
    + destruct (one_run_pending _ _ _ _ _ Hone Ht eq_refl) as [Hs _].
      intros _. unfold analysis_settled.
      destruct (analyzeAndConvertPDF_response o); simpl; apply Hinv; rewrite Hs; discriminate.
    + destruct (chat_settled_frame o uuid now (finish tid w)) as (-> & -> & _). exact Hinv.
  - destruct Hstep as [(newFile & analysis & recent & Ht & ->)
                      | (newFile & analysis & recent & Ht & ->)].
    + destruct (one_run_pending _ _ _ _ _ Hone Ht eq_refl) as [Hs _].
      intros _. simpl. apply Hinv. rewrite Hs. discriminate.
    + destruct (generate_paced_cells newFile analysis recent now (finish tid w))
        as (_ & -> & _). intros H. destruct H. reflexivity.
  - destruct Hstep as [_ ->]. exact Hinv.
  - destruct Hstep as [_ ->]. reflexivity.
  - destruct Hstep as [_ ->]. destruct (to_boolean _); [|exact Hinv].
    rewrite onExport_app. exact Hinv.
  - destruct Hstep as (_ & _ & _ & ->). rewrite onExport_app. exact Hinv.
  - destruct Hstep as (_ & _ & _ & ->). exact Hinv.
  - destruct Hstep as [_ ->]. exact Hinv.
  - destruct Hstep as [_ ->]. rewrite handleChat_result.
    destruct (handleChat_frame uuid now w) as [-> _]. exact Hinv.
  - destruct Hstep as (_ & _ & _ & ->). rewrite handleChat_result.
    destruct (handleChat_frame uuid now w) as [-> _]. exact Hinv.
  - destruct Hstep as [_ ->]. exact Hinv.
  - rewrite Hstep. exact Hinv.
Qed.

Lemma boot_cells (storage : gmap string string) (key : option string) :
  appState (app (boot storage key)) = IDLE
  /\ result_ (app (boot storage key)) = JNull
  /\ error (app (boot storage key)) = None
  /\ chatHistory (app (boot storage key)) = []
  /\ requests (boot storage key) = []
  /\ tasks (boot storage key) = ∅
  /\ API_KEY (boot storage key) = key
  /\ downloads (boot storage key) = [].
Proof.
  rewrite boot_unfold.
  destruct (storage !! history_key) as [saved|];
    [destruct (String.eqb saved ""); [|destruct (JSON_parse saved)]|];
    repeat split; reflexivity.
Qed.

Lemma run_result_null (storage : gmap string string) (key : option string)
    (evs : list Event) (w : World) :
  run (boot storage key) evs = Some w ->
  one_run (tasks w) (appState (app w))
  /\ (appState (app w) <> COMPLETE -> result_ (app w) = JNull).
Proof.
  assert (Hgen : forall evs w0,
             one_run (tasks w0) (appState (app w0)) ->
             (appState (app w0) <> COMPLETE -> result_ (app w0) = JNull) ->
             run w0 evs = Some w ->
             one_run (tasks w) (appState (app w))
             /\ (appState (app w) <> COMPLETE -> result_ (app w) = JNull)).
  { clear. induction evs as [|ev evs IH]; intros w0 Hone Hinv Hrun.
    - injection Hrun as <-. auto.
    - simpl in Hrun. destruct (step w0 ev) as [w1|] eqn:Hstep; [|discriminate].
      apply (IH w1); [exact (proj1 (step_phase w0 w1 ev Hone Hstep))| |exact Hrun].
      exact (step_result_null w0 w1 ev Hone Hinv Hstep). }
  intros Hrun. apply (Hgen evs (boot storage key)); [apply boot_quiet| |exact Hrun].
  intros _. apply boot_cells.
Qed.

(** X2.  When the analysis of a run fails (the request is rejected, the
    response has no text, or the text is not JSON), the run never ends:
    whatever happens afterwards, the phase stays [PROCESSING], no result
    is shown, no further request is sent, and the upload box, rendered in
    the phase [IDLE] only, does not come back. *)
Theorem X2_failed_analysis_never_recovers (storage : gmap string string)
    (key : option string) (evs more : list Event) (w w' : World) (tid : nat)
    (newFile : FileData) (recent : JSValue) (o : Outcome) (e : JSError)
    (uuid : string) (now : Z) :
  run (boot storage key) evs = Some w ->
  tasks w !! tid = Some (AnalysisTask newFile recent) ->
  analyzeAndConvertPDF_response o = Throw e ->
  run w (Settle tid o uuid now :: more) = Some w' ->
  appState (app w') = PROCESSING
  /\ result_ (app w') = JNull
  /\ requests w' = requests w
  /\ (forall file, step w' (SelectFile file) = None)
  /\ step w' ClickClear = None.
Proof.
  intros Hrun Ht Ho Hmore.
  destruct (run_result_null storage key evs w Hrun) as [Hone Hnull].
  destruct (one_run_pending _ _ _ _ _ Hone Ht eq_refl) as [Hs Hq].
  simpl in Hmore. destruct (step w (Settle tid o uuid now)) as [w1|] eqn:Hstep; [|discriminate].
  apply step_inv in Hstep as [Hm [(newFile' & recent' & Ht' & ->) | [Ht' _]]];
    [|congruence].
  unfold analysis_settled in Hmore. rewrite Ho in Hmore.
  change (run (escape e (console_error e (finish tid w))) more = Some w') in Hmore.
  destruct (run_stranded more (escape e (console_error e (finish tid w))) w'
              (conj (or_intror Hs) Hq) Hmore) as (_ & H1 & H2 & H3).
  simpl in H1, H2, H3.
  split; [congruence|]. split; [rewrite H2; apply Hnull; rewrite Hs; discriminate|].
  split; [exact H3|].
  assert (Hidle : is_state IDLE w' = false).
  { unfold is_state. apply bool_decide_eq_false_2. rewrite H1, Hs. discriminate. }
  assert (Hcomplete : is_state COMPLETE w' = false).
  { unfold is_state. apply bool_decide_eq_false_2. rewrite H1, Hs. discriminate. }
  split; [intros file|]; unfold step; rewrite ?Hidle, ?Hcomplete;
    destruct (unmounted w'); reflexivity.
Qed.

Lemma X2_witness :
  run (boot ∅ (Some "key")) (take 2 (sample_run sample_payload)) = Some analysing_world
  /\ tasks analysing_world !! 1%nat = Some (AnalysisTask sample_fileData (JArr []))
  /\ analyzeAndConvertPDF_response (Responded (Some "not json"))
     = Throw (SyntaxError "JSON.parse")
  /\ run analysing_world [Settle 1 (Responded (Some "not json")) "" 0; ToggleSidebar]
     = Some failed_world
  /\ appState (app failed_world) = PROCESSING
  /\ result_ (app failed_world) = JNull
  /\ requests failed_world = requests analysing_world
  /\ step failed_world (SelectFile sample_file) = None.
Proof.
  assert (H1 : run (boot ∅ (Some "key")) (take 2 (sample_run sample_payload))
               = Some analysing_world) by (vm_compute; reflexivity).
  assert (H2 : tasks analysing_world !! 1%nat
               = Some (AnalysisTask sample_fileData (JArr []))) by (vm_compute; reflexivity).
  assert (H3 : analyzeAndConvertPDF_response (Responded (Some "not json"))
               = Throw (SyntaxError "JSON.parse")) by (vm_compute; reflexivity).
  assert (H4 : run analysing_world
                   [Settle 1 (Responded (Some "not json")) "" 0; ToggleSidebar]
               = Some failed_world) by (vm_compute; reflexivity).
  destruct (X2_failed_analysis_never_recovers ∅ (Some "key")
              (take 2 (sample_run sample_payload)) [ToggleSidebar] analysing_world
              failed_world 1 sample_fileData (JArr []) (Responded (Some "not json"))
              (SyntaxError "JSON.parse") "" 0 H1 H2 H3 H4) as (H5 & H6 & H7 & H8 & _).
  repeat (split; [assumption|]). exact (H8 sample_file).
Defined.

(** A message is on display in the phase [IDLE] only. *)
Lemma step_error_idle (w w' : World) (ev : Event) :
  one_run (tasks w) (appState (app w)) ->
  (appState (app w) <> IDLE -> error (app w) = None) ->
  step w ev = Some w' ->
  appState (app w') <> IDLE -> error (app w') = None.
Proof.
  intros Hone Hinv Hstep. apply step_inv in Hstep as [_ Hstep].
  assert (Hc : is_state COMPLETE w = true -> error (app w) = None).
  { intros H. apply is_state_true in H. apply Hinv. rewrite H. discriminate. }
  assert (Hp : chat_panel w = true -> error (app w) = None).
  { intros H. apply chat_panel_complete in H. apply Hinv. rewrite H. discriminate. }
  assert (Ht : forall tid t s, tasks w !! tid = Some t -> task_phase t = Some s ->
                               s <> IDLE -> error (app w) = None).
  { intros tid t s Hl Hph Hs.
    destruct (one_run_pending _ _ _ _ _ Hone Hl Hph) as [Heq _].
    apply Hinv. rewrite Heq. exact Hs. }
  destruct ev as [file|tid dataURL uuid now|tid|tid o uuid now|tid now|t| | |type|q|text
                 |uuid now|uuid now| |].
  - destruct Hstep as [Hs ->]. apply is_state_true in Hs.
    unfold processFile. destruct (_ >? _)%Z; simpl; [|reflexivity].
    intros H. destruct H. exact Hs.
  - destruct Hstep as (file & recent & Hl & ->). intros _.
    unfold reader_onload. destruct (analyzeAndConvertPDF_request _ _ _); simpl;
      apply (Ht _ _ _ Hl eq_refl); discriminate.
  - destruct Hstep as (file & recent & Hl & ->). exact Hinv.
  - destruct Hstep as [(newFile & recent & Hl & ->) | [Hl ->]].
    + intros _. unfold analysis_settled. destruct (analyzeAndConvertPDF_response o); simpl;
        apply (Ht _ _ _ Hl eq_refl); discriminate.
    + unfold chat_settled. destruct (chatWithDocument_response o); exact Hinv.
  - destruct Hstep as [(newFile & analysis & recent & Hl & ->)
                      | (newFile & analysis & recent & Hl & ->)]; intros _.
    + simpl. apply (Ht _ _ _ Hl eq_refl); discriminate.
    + assert (He : error (app w) = None) by (apply (Ht _ _ _ Hl eq_refl); discriminate).
      unfold generate_paced, addToHistory. unfold_bind.
      destruct (get_prop analysis "summary"); [|exact He].
      destruct (get_prop analysis "stats"); [|exact He].
      destruct (filter_recent _ recent); exact He.
  - destruct Hstep as [H ->]. intros _. exact (Hc H).
  - destruct Hstep as [H ->]. intros _. exact (Hc H).
  - destruct Hstep as [H ->]. intros _. destruct (to_boolean _); [|exact (Hc H)].
    rewrite onExport_app. exact (Hc H).
  - destruct Hstep as (H & _ & _ & ->). intros _. rewrite onExport_app. exact (Hc H).
  - destruct Hstep as (H & _ & _ & ->). intros _. exact (Hp H).
  - destruct Hstep as [H ->]. intros _. exact (Hp H).
  - destruct Hstep as [H ->]. intros _. unfold handleChat.
    destruct (_ || _); [exact (Hp H)|]. destruct (mbind _ _); exact (Hp H).
  - destruct Hstep as (H & _ & _ & ->). intros _. unfold handleChat.
    destruct (_ || _); [exact (Hp H)|]. destruct (mbind _ _); exact (Hp H).
  - destruct Hstep as [_ ->]. reflexivity.
  - rewrite Hstep. exact Hinv.
Qed.

Lemma run_error_idle (storage : gmap string string) (key : option string)
    (evs : list Event) (w : World) :
  run (boot storage key) evs = Some w ->
  appState (app w) <> IDLE -> error (app w) = None.
Proof.
  assert (Hgen : forall evs w0,
             one_run (tasks w0) (appState (app w0)) ->
             (appState (app w0) <> IDLE -> error (app w0) = None) ->
             run w0 evs = Some w ->
             appState (app w) <> IDLE -> error (app w) = None).
  { clear. induction evs as [|ev evs IH]; intros w0 Hone Hinv Hrun.
    - injection Hrun as <-. auto.
    - simpl in Hrun. destruct (step w0 ev) as [w1|] eqn:Hstep; [|discriminate].
      apply (IH w1); [exact (proj1 (step_phase w0 w1 ev Hone Hstep))| |exact Hrun].
      exact (step_error_idle w0 w1 ev Hone Hinv Hstep). }
  intros Hrun. apply (Hgen evs (boot storage key)); [apply boot_quiet| |exact Hrun].
  intros _. apply boot_cells.
Qed.

(** X3.  In every execution at most one task of the pipeline (the reader,
    the analysis or a pacing timer) is pending, it is the one of the
    current phase, and while it is pending no file can be selected: runs
    never overlap. *)
Theorem X3_runs_never_overlap (storage : gmap string string) (key : option string)
    (evs : list Event) (w : World) (t1 t2 : nat) (a b : Task) (s : AppState) :
  run (boot storage key) evs = Some w ->
  tasks w !! t1 = Some a ->
  tasks w !! t2 = Some b ->
  task_phase a = Some s ->
  task_phase b <> None ->
  t1 = t2 /\ appState (app w) = s /\ forall file, step w (SelectFile file) = None.
Proof.
  intros Hrun Ha Hb Hpa Hpb.
  pose proof (run_one_run evs _ w (boot_quiet storage key) Hrun) as Hone.
  destruct (one_run_pending _ _ _ _ _ Hone Ha Hpa) as [Hs Hq].
  split.
  - destruct (decide (t1 = t2)) as [|Hne]; [assumption|].
    destruct Hpb. apply (Hq t2). rewrite lookup_delete_ne by exact Hne. exact Hb.
  - split; [exact Hs|]. intros file. unfold step.
    destruct (unmounted w); [reflexivity|].
    assert (Hidle : is_state IDLE w = false).
    { unfold is_state. apply bool_decide_eq_false_2. rewrite Hs.
      destruct a; simpl in Hpa; try discriminate Hpa; injection Hpa as <-; discriminate. }
    rewrite Hidle. reflexivity.
Qed.

Lemma X3_witness :
  run (boot ∅ (Some "key")) (take 2 (sample_run sample_payload)) = Some analysing_world
  /\ tasks analysing_world !! 1%nat = Some (AnalysisTask sample_fileData (JArr []))
  /\ appState (app analysing_world) = PROCESSING
  /\ step analysing_world (SelectFile sample_file) = None.
Proof.
  assert (H1 : run (boot ∅ (Some "key")) (take 2 (sample_run sample_payload))
               = Some analysing_world) by (vm_compute; reflexivity).
  assert (H2 : tasks analysing_world !! 1%nat
               = Some (AnalysisTask sample_fileData (JArr []))) by (vm_compute; reflexivity).
  assert (H3 : task_phase (AnalysisTask sample_fileData (JArr [])) = Some PROCESSING)
    by reflexivity.
  assert (H4 : task_phase (AnalysisTask sample_fileData (JArr [])) <> None)
    by discriminate.
  destruct (X3_runs_never_overlap ∅ (Some "key") (take 2 (sample_run sample_payload))
              analysing_world 1 1 _ _ PROCESSING H1 H2 H2 H3 H4) as (_ & H5 & H6).
  repeat (split; [assumption|]). exact (H6 sample_file).
Defined.

Lemma getClient_no_key (key : option string) :
  no_key key -> getClient key = Throw (Error "API Key not found").
Proof. intros [-> | ->]; reflexivity. Qed.

(** Without a key nothing gets past the reader. *)
Lemma step_no_key (w w' : World) (ev : Event) :
  no_key (API_KEY w) ->
  requests w = [] ->
  result_ (app w) = JNull ->
  appState (app w) <> COMPLETE ->
  chatHistory (app w) = [] ->
  (forall tid t, tasks w !! tid = Some t -> past_reader t = false) ->
  step w ev = Some w' ->
  API_KEY w' = API_KEY w
  /\ requests w' = []
  /\ result_ (app w') = JNull
  /\ appState (app w') <> COMPLETE
  /\ chatHistory (app w') = []
  /\ (forall tid t, tasks w' !! tid = Some t -> past_reader t = false).
Proof.
  intros Hk Hr Hres Hs Hc Ht Hstep. apply step_inv in Hstep as [_ Hstep].
  assert (Hcomplete : is_state COMPLETE w = true -> False).
  { intros H. apply is_state_true in H. contradiction. }
  assert (Hpanel : chat_panel w = true -> False).
  { intros H. apply chat_panel_complete in H. contradiction. }
  destruct ev as [file|tid dataURL uuid now|tid|tid o uuid now|tid now|t| | |type|q|text
                 |uuid now|uuid now| |];
    try (lazymatch type of Hstep with
         | _ /\ _ =>
             destruct Hstep as [H Hrest]; first [destruct (Hcomplete H) | destruct (Hpanel H)]
         end).
  - destruct Hstep as [_ ->]. unfold processFile. destruct (_ >? _)%Z; simpl.
    + repeat split; assumption.
    + repeat split; try assumption; try discriminate.
      intros tid t Hl. apply lookup_insert_Some in Hl as [[_ <-] | [_ Hl]];
        [reflexivity|exact (Ht tid t Hl)].
  - destruct Hstep as (file & recent & Hl & ->). unfold reader_onload.
    unfold analyzeAndConvertPDF_request. simpl. rewrite (getClient_no_key _ Hk).
    unfold_bind. simpl. repeat split; try assumption; try discriminate.
    intros tid' t Hl'. apply lookup_delete_Some in Hl' as [_ Hl']. exact (Ht tid' t Hl').
  - destruct Hstep as (file & recent & Hl & ->). simpl. repeat split; try assumption.
    intros tid' t Hl'. apply lookup_delete_Some in Hl' as [_ Hl']. exact (Ht tid' t Hl').
  - destruct Hstep as [(newFile & recent & Hl & _) | [Hl _]];
      pose proof (Ht _ _ Hl); discriminate.
  - destruct Hstep as [(newFile & analysis & recent & Hl & _)
                      | (newFile & analysis & recent & Hl & _)];
      pose proof (Ht _ _ Hl); discriminate.
  - destruct Hstep as [_ ->]. simpl. repeat split; assumption.
  - rewrite Hstep. simpl. repeat split; assumption.
Qed.

(** X4.  With no API key in the build ([process.env.API_KEY] unset or
    empty) no execution sends a request, shows a result, completes a run
    or holds a chat turn; and when the reader delivers a file the run
    strands at once in the phase [PROCESSING], the only trace being the
    uncaught error "API Key not found": no message is shown. *)
Theorem X4_no_api_key (storage : gmap string string) (key : option string)
    (evs : list Event) (w : World) :
  no_key key ->
  run (boot storage key) evs = Some w ->
  requests w = []
  /\ result_ (app w) = JNull
  /\ appState (app w) <> COMPLETE
  /\ chatHistory (app w) = []
  /\ forall tid dataURL uuid now w',
       step w (ReaderLoad tid dataURL uuid now) = Some w' ->
       appState (app w') = PROCESSING
       /\ stranded w'
       /\ error (app w') = None
       /\ uncaught w' = uncaught w ++ [Error "API Key not found"].
Proof.
  intros Hk Hrun.
  assert (Hgen : forall evs w0,
             no_key (API_KEY w0) -> requests w0 = [] -> result_ (app w0) = JNull ->
             appState (app w0) <> COMPLETE -> chatHistory (app w0) = [] ->
             (forall tid t, tasks w0 !! tid = Some t -> past_reader t = false) ->
             run w0 evs = Some w ->
             no_key (API_KEY w) /\ requests w = [] /\ result_ (app w) = JNull
             /\ appState (app w) <> COMPLETE /\ chatHistory (app w) = []).
  { clear. induction evs as [|ev evs IH]; intros w0 Hk Hr Hres Hs Hc Ht Hrun.
    - injection Hrun as <-. auto.
    - simpl in Hrun. destruct (step w0 ev) as [w1|] eqn:Hstep; [|discriminate].
      destruct (step_no_key w0 w1 ev Hk Hr Hres Hs Hc Ht Hstep)
        as (Hk1 & Hr1 & Hres1 & Hs1 & Hc1 & Ht1).
      apply (IH w1); try assumption. rewrite Hk1. exact Hk. }
  destruct (boot_cells storage key) as (Hb1 & Hb2 & Hb3 & Hb4 & Hb5 & Hb6 & Hb7 & _).
  destruct (Hgen evs (boot storage key)) as (Hkw & Hr & Hres & Hs & Hc); try assumption.
  { rewrite Hb7. exact Hk. }
  { rewrite Hb1. discriminate. }
  { intros tid t. rewrite Hb6, lookup_empty. discriminate. }
  repeat split; try assumption.
  all: pose proof (run_one_run evs _ w (boot_quiet storage key) Hrun) as Hone.
  all: pose proof H as Hstep.
  all: apply step_inv in H as [_ (file & recent & Hl & ->)].
  all: destruct (one_run_pending _ _ _ _ _ Hone Hl eq_refl) as [Hup Hq].
  all: unfold reader_onload, analyzeAndConvertPDF_request.
  all: simpl; rewrite (getClient_no_key _ Hkw); unfold_bind; simpl.
  - reflexivity.
  - right. reflexivity.
  - exact Hq.
  - apply (run_error_idle storage key evs w Hrun). rewrite Hup. discriminate.
  - reflexivity.
Qed.

(** X1.  In no execution does the component reach [AppState.ERROR] or
    [AppState.ANALYZING], and the error cell never holds anything but the
    message of the size check, which is on display in the phase [IDLE]
    only: the [catch] of [processFile], which would set the phase to
    [ERROR] and the message "Failed to process file. Please try a
    different PDF.", covers only the registration of the reader, not the
    callback in which the analysis runs. *)
Theorem X1_error_phase_unreachable (storage : gmap string string) (key : option string)
    (evs : list Event) (w : World) :
  run (boot storage key) evs = Some w ->
  assigned (appState (app w))
  /\ appState (app w) <> ERROR
  /\ appState (app w) <> ANALYZING
  /\ phase_of (appState (app w)) <> Failed
  /\ (error (app w) = None \/ error (app w) = Some "File size exceeds 20MB limit.")
  /\ (appState (app w) <> IDLE -> error (app w) = None).
Proof.
  intros Hrun. pose proof (run_error_idle storage key evs w Hrun) as Hidle.
  assert (H : assigned (appState (app w))
              /\ (error (app w) = None
                  \/ error (app w) = Some "File size exceeds 20MB limit.")).
  { assert (Hgen : forall evs w0,
               one_run (tasks w0) (appState (app w0)) ->
               assigned (appState (app w0)) ->
               (error (app w0) = None
                \/ error (app w0) = Some "File size exceeds 20MB limit.") ->
               run w0 evs = Some w ->
               assigned (appState (app w))
               /\ (error (app w) = None
                   \/ error (app w) = Some "File size exceeds 20MB limit.")).
    { clear. induction evs as [|ev evs IH]; intros w0 Hone Hs He Hrun.
      - injection Hrun as <-. auto.
      - simpl in Hrun. destruct (step w0 ev) as [w1|] eqn:Hstep; [|discriminate].
        destruct (step_phase w0 w1 ev Hone Hstep) as [Hone1 Hall].
        apply (IH w1 Hone1); [exact (allowed_assigned _ _ Hall Hs)| |exact Hrun].
        destruct (step_error w0 w1 ev Hstep) as [-> | [-> | ->]]; auto. }
    apply (Hgen evs (boot storage key)); [apply boot_quiet| | |exact Hrun].
    - left. rewrite boot_unfold.
      destruct (storage !! history_key) as [saved|];
        [destruct (String.eqb saved ""); [|destruct (JSON_parse saved)]|]; reflexivity.
    - left. rewrite boot_unfold.
      destruct (storage !! history_key) as [saved|];
        [destruct (String.eqb saved ""); [|destruct (JSON_parse saved)]|]; reflexivity. }
  destruct H as [Hs He]. split; [exact Hs|].
  unfold assigned in Hs.
  repeat split; try exact He; try exact Hidle;
    destruct Hs as [Hs | [Hs | [Hs | Hs]]]; rewrite Hs; discriminate.
Qed.

Lemma X1_witness :
  run (boot ∅ (Some "key"))
      (take 2 (sample_run sample_payload) ++ [Settle 1 (Rejected (Error "503")) "" 0])
  = Some rejected_world
  /\ appState (app rejected_world) = PROCESSING
  /\ appState (app rejected_world) <> ERROR
  /\ error (app rejected_world) = None.
Proof.
  assert (H1 : run (boot ∅ (Some "key"))
                   (take 2 (sample_run sample_payload)
                    ++ [Settle 1 (Rejected (Error "503")) "" 0])
               = Some rejected_world) by (vm_compute; reflexivity).
  assert (H2 : appState (app rejected_world) = PROCESSING) by (vm_compute; reflexivity).
  destruct (X1_error_phase_unreachable ∅ (Some "key") _ rejected_world H1)
    as (_ & H3 & _ & _ & _ & H4).
  repeat (split; [assumption|]). apply H4. rewrite H2. discriminate.
Defined.

Lemma X4_witness :
  no_key (Some "")
  /\ run (boot ∅ (Some "")) [SelectFile sample_file] = Some keyless_world
  /\ requests keyless_world = []
  /\ exists w',
       step keyless_world (ReaderLoad 0 "data:application/pdf;base64,QUJD" "id-1" 5)
       = Some w'
       /\ appState (app w') = PROCESSING
       /\ uncaught w' = uncaught keyless_world ++ [Error "API Key not found"].
Proof.
  assert (H1 : no_key (Some "")) by (right; reflexivity).
  assert (H2 : run (boot ∅ (Some "")) [SelectFile sample_file] = Some keyless_world)
    by (vm_compute; reflexivity).
  destruct (X4_no_api_key ∅ (Some "") [SelectFile sample_file] keyless_world H1 H2)
    as (H3 & _ & _ & _ & H4).
  repeat (split; [assumption|]).
  destruct (step keyless_world (ReaderLoad 0 "data:application/pdf;base64,QUJD" "id-1" 5))
    as [w'|] eqn:Hstep; [|vm_compute in Hstep; discriminate].
  exists w'. destruct (H4 _ _ _ _ _ Hstep) as (H5 & _ & _ & H6). auto.
Defined.

(** ** The payload of the data URL *)

Lemma list_ascii_of_string_app (a b : string) :
  list_ascii_of_string (a +:+ b) = list_ascii_of_string a ++ list_ascii_of_string b.
Proof. induction a as [|c a IH]; simpl; [reflexivity|]. rewrite IH. reflexivity. Qed.

Lemma string_of_list_ascii_app (a b : list ascii) :
  string_of_list_ascii (a ++ b) = string_of_list_ascii a +:+ string_of_list_ascii b.
Proof. induction a as [|c a IH]; simpl; [reflexivity|]. rewrite IH. reflexivity. Qed.

Lemma split_comma_free (cur l : list ascii) :
  forallb (fun c => negb (Ascii.eqb c ",")) l = true ->
  split_comma cur l = [string_of_list_ascii (rev cur ++ l)].
Proof.
  revert cur. induction l as [|c l IH]; intros cur H; simpl in *.
  - rewrite app_nil_r. reflexivity.
  - apply andb_true_iff in H as [Hc Hl]. apply negb_true_iff in Hc. rewrite Hc.
    rewrite (IH _ Hl). simpl. rewrite <- app_assoc. reflexivity.
Qed.

Lemma split_comma_first (cur pre rest : list ascii) :
  forallb (fun c => negb (Ascii.eqb c ",")) pre = true ->
  split_comma cur (pre ++ "," %char :: rest)
  = string_of_list_ascii (rev cur ++ pre) :: split_comma [] rest.
Proof.
  revert cur. induction pre as [|c pre IH]; intros cur H; simpl in *.
  - rewrite app_nil_r. reflexivity.
  - apply andb_true_iff in H as [Hc Hl]. apply negb_true_iff in Hc. rewrite Hc.
    rewrite (IH _ Hl). simpl. rewrite <- app_assoc. reflexivity.
Qed.

(** X5.  The reader's callback sends, as the data of the PDF, what follows
    the comma of the data URL, together with the type the browser reported
    for the file; the same payload is kept in [fileData].  A data URL
    without a comma (the [data:] of an empty file) gives [undefined], and
    the request is sent all the same. *)
Theorem X5_payload_of_data_url (w : World) (file : File) (recent : JSValue)
    (header payload uuid k : string) (now : Z) :
  API_KEY w = Some k -> k <> "" ->
  comma_free header = true ->
  comma_free payload = true ->
  requests (reader_onload file recent (header +:+ "," +:+ payload) uuid now w)
  = requests w ++ [GenerateContent "gemini-2.5-flash" (file_type file) (Some payload) prompt
                     "application/json" responseSchema]
  /\ fileData (app (reader_onload file recent (header +:+ "," +:+ payload) uuid now w))
     = Some (mkFileData uuid (file_name file) (file_size file) (file_type file) None
               (Some payload) now)
  /\ requests (reader_onload file recent header uuid now w)
     = requests w ++ [GenerateContent "gemini-2.5-flash" (file_type file) None prompt
                        "application/json" responseSchema].
Proof.
  intros Hk Hne Hh Hp.
  assert (Hclient : getClient (API_KEY w) = Ok k).
  { rewrite Hk. simpl. apply String.eqb_neq in Hne. rewrite Hne. reflexivity. }
  assert (H1 : split_comma [] (list_ascii_of_string (header +:+ "," +:+ payload)) !! 1%nat
               = Some payload).
  { rewrite list_ascii_of_string_app.
    change (list_ascii_of_string ("," +:+ payload))
      with (","%char :: list_ascii_of_string payload).
    rewrite (split_comma_first [] _ _ Hh), (split_comma_free [] _ Hp). simpl.
    rewrite string_of_list_ascii_of_string. reflexivity. }
  assert (H2 : split_comma [] (list_ascii_of_string header) !! 1%nat = None).
  { rewrite (split_comma_free [] _ Hh). reflexivity. }
  unfold reader_onload, analyzeAndConvertPDF_request. rewrite H1, H2. simpl.
  rewrite Hclient. unfold_bind. simpl. auto.
Qed.

Lemma X5_witness :
  API_KEY (boot ∅ (Some "key")) = Some "key"
  /\ comma_free "data:application/pdf;base64" = true
  /\ comma_free "QUJD" = true
  /\ requests (reader_onload sample_file (JArr []) "data:application/pdf;base64,QUJD"
                 "id-1" 5 (boot ∅ (Some "key")))
     = requests (boot ∅ (Some "key"))
       ++ [GenerateContent "gemini-2.5-flash" "application/pdf" (Some "QUJD") prompt
             "application/json" responseSchema].
Proof.
  assert (H1 : API_KEY (boot ∅ (Some "key")) = Some "key") by (vm_compute; reflexivity).
  assert (H2 : "key" <> "") by discriminate.
  assert (H3 : comma_free "data:application/pdf;base64" = true) by reflexivity.
  assert (H4 : comma_free "QUJD" = true) by reflexivity.
  destruct (X5_payload_of_data_url (boot ∅ (Some "key")) sample_file (JArr [])
              "data:application/pdf;base64" "QUJD" "id-1" "key" 5 H1 H2 H3 H4) as (H5 & _).
  repeat (split; [assumption|]). exact H5.
Defined.

(** ** The list of steps *)

Lemma stage_of_phase (t : Task) (st : list ProcessingStep) :
  stage_of t = Some st -> exists s, task_phase t = Some s.
Proof. destruct t; simpl; intros H; try discriminate; eauto. Qed.

Lemma quiet_stage (m : gmap nat Task) (l : list ProcessingStep) :
  quiet m ->
  forall tid t st, m !! tid = Some t -> stage_of t = Some st -> l = st.
Proof.
  intros Hq tid t st Hl Hst. destruct (stage_of_phase t st Hst) as [s Hs].
  rewrite (Hq tid t Hl) in Hs. discriminate.
Qed.

Lemma stages_start (l : list ProcessingStep) :
  l ∈ stages -> mark "upload" active (all_pending l) = shown active pending pending pending.
Proof.
  unfold stages. intros H. repeat (apply elem_of_cons in H as [-> | H]; [reflexivity|]).
  apply elem_of_nil in H. destruct H.
Qed.

Lemma step_steps_inv (w w' : World) (ev : Event) :
  one_run (tasks w) (appState (app w)) ->
  steps_inv w ->
  step w ev = Some w' ->
  steps_inv w'.
Proof.
  intros Hone (Hin & Hdone & Htask) Hstep. apply step_inv in Hstep as [_ Hstep].
  assert (Hsame : forall w1, steps (app w1) = steps (app w) ->
                             appState (app w1) = appState (app w) ->
                             tasks w1 = tasks w -> steps_inv w1).
  { intros w1 H1 H2 H3. unfold steps_inv. rewrite H1, H2, H3. auto. }
  assert (Hchat : forall w1, steps (app w1) = steps (app w) ->
                             appState (app w1) = appState (app w) ->
                             (tasks w1 = tasks w
                              \/ tasks w1 = <[next_task w:=ChatTask]> (tasks w)) ->
                             steps_inv w1).
  { intros w1 H1 H2 [H3 | H3]; [apply Hsame; assumption|].
    unfold steps_inv. rewrite H1, H2, H3. split; [exact Hin|]. split; [exact Hdone|].
    intros tid t st Hl Hst. apply lookup_insert_Some in Hl as [[_ <-] | [_ Hl]];
      [discriminate|exact (Htask tid t st Hl Hst)]. }
  destruct ev as [file|tid dataURL uuid now|tid|tid o uuid now|tid now|t| | |type|q|text
                 |uuid now|uuid now| |].
  - destruct Hstep as [Hs ->]. apply is_state_true in Hs.
    unfold processFile. destruct (_ >? _)%Z; [apply Hsame; reflexivity|].
    unfold steps_inv. simpl. rewrite (stages_start _ Hin).
    split; [stage_membership|]. split; [discriminate|].
    intros tid t st Hl Hst. apply lookup_insert_Some in Hl as [[_ <-] | [_ Hl]].
    + injection Hst as <-. reflexivity.
    + assert (Hq : quiet (tasks w)).
      { apply (one_run_no_pipeline _ _ Hone); rewrite Hs; discriminate. }
      exact (quiet_stage _ _ Hq tid t st Hl Hst).
  - destruct Hstep as (file & recent & Hl & ->).
    destruct (one_run_pending _ _ _ _ _ Hone Hl eq_refl) as [Hs Hq].
    pose proof (Htask _ _ _ Hl eq_refl) as Hst.
    unfold reader_onload, steps_inv.
    destruct (analyzeAndConvertPDF_request _ _ _); simpl; rewrite Hst; simpl.
    + split; [stage_membership|]. split; [discriminate|].
      intros tid' t st' Hl' Hst'. apply lookup_insert_Some in Hl' as [[_ <-] | [_ Hl']].
      * injection Hst' as <-. reflexivity.
      * exact (quiet_stage _ _ Hq tid' t st' Hl' Hst').
    + split; [stage_membership|]. split; [discriminate|].
      exact (quiet_stage _ _ Hq).
  - destruct Hstep as (file & recent & Hl & ->).
    destruct (one_run_pending _ _ _ _ _ Hone Hl eq_refl) as [Hs Hq].
    unfold steps_inv. simpl. split; [exact Hin|]. split; [exact Hdone|].
    exact (quiet_stage _ _ Hq).
  - destruct Hstep as [(newFile & recent & Hl & ->) | [Hl ->]].
    + destruct (one_run_pending _ _ _ _ _ Hone Hl eq_refl) as [Hs Hq].
      pose proof (Htask _ _ _ Hl eq_refl) as Hst.
      unfold analysis_settled, steps_inv.
      destruct (analyzeAndConvertPDF_response o); simpl; rewrite ?Hst, ?Hs; simpl.
      * split; [stage_membership|]. split; [discriminate|].
        intros tid' t st' Hl' Hst'. apply lookup_insert_Some in Hl' as [[_ <-] | [_ Hl']].
        -- injection Hst' as <-. reflexivity.
        -- exact (quiet_stage _ _ Hq tid' t st' Hl' Hst').
      * split; [stage_membership|]. split; [discriminate|].
        exact (quiet_stage _ _ Hq).
    + unfold chat_settled, steps_inv.
      destruct (chatWithDocument_response o); simpl;
        (split; [exact Hin|]; split; [exact Hdone|];
         intros tid' t st' Hl' Hst'; apply lookup_delete_Some in Hl' as [_ Hl'];
         exact (Htask tid' t st' Hl' Hst')).
  - destruct Hstep as [(newFile & analysis & recent & Hl & ->)
                      | (newFile & analysis & recent & Hl & ->)];
      destruct (one_run_pending _ _ _ _ _ Hone Hl eq_refl) as [Hs Hq];
      pose proof (Htask _ _ _ Hl eq_refl) as Hst.
    + unfold extract_paced, steps_inv. simpl. rewrite Hst, Hs. simpl.
      split; [stage_membership|]. split; [discriminate|].
      intros tid' t st' Hl' Hst'. apply lookup_insert_Some in Hl' as [[_ <-] | [_ Hl']].
      * injection Hst' as <-. reflexivity.
      * exact (quiet_stage _ _ Hq tid' t st' Hl' Hst').
    + assert (Hsteps : steps (app (generate_paced newFile analysis recent now (finish tid w)))
                       = shown completed completed completed completed).
      { unfold generate_paced, addToHistory. unfold_bind.
        destruct (get_prop analysis "summary"); [|simpl; rewrite Hst; reflexivity].
        destruct (get_prop analysis "stats"); [|simpl; rewrite Hst; reflexivity].
        destruct (filter_recent _ recent); simpl; rewrite Hst; reflexivity. }
      unfold steps_inv. rewrite Hsteps, generate_paced_tasks.
      split; [stage_membership|]. split; [reflexivity|].
      exact (quiet_stage _ _ Hq).
  - destruct Hstep as [_ ->]. apply Hsame; reflexivity.
  - destruct Hstep as [Hs ->]. apply is_state_true in Hs.
    unfold steps_inv, onClear. simpl. split; [exact Hin|]. split; [discriminate|exact Htask].
  - destruct Hstep as [_ ->]. destruct (to_boolean _); [|apply Hsame; reflexivity].
    destruct (onExport_frame doc w) as [H1 H2].
    apply Hsame; [rewrite onExport_app; reflexivity|exact H1|exact H2].
  - destruct Hstep as (_ & _ & _ & ->). destruct (onExport_frame type w) as [H1 H2].
    apply Hsame; [rewrite onExport_app; reflexivity|exact H1|exact H2].
  - destruct Hstep as (_ & _ & _ & ->). apply Hsame; reflexivity.
  - destruct Hstep as [_ ->]. apply Hsame; reflexivity.
  - destruct Hstep as [_ ->]. destruct (handleChat_frame uuid now w) as [H1 H2].
    apply Hchat; [|exact H1|exact H2].
    unfold handleChat. destruct (_ || _); [reflexivity|]. destruct (mbind _ _); reflexivity.
  - destruct Hstep as (_ & _ & _ & ->). destruct (handleChat_frame uuid now w) as [H1 H2].
    apply Hchat; [|exact H1|exact H2].
    unfold handleChat. destruct (_ || _); [reflexivity|]. destruct (mbind _ _); reflexivity.
  - destruct Hstep as [_ ->]. apply Hsame; reflexivity.
  - rewrite Hstep. apply Hsame; reflexivity.
Qed.

Lemma run_steps_inv (storage : gmap string string) (key : option string)
    (evs : list Event) (w : World) :
  run (boot storage key) evs = Some w -> steps_inv w.
Proof.
  assert (Hgen : forall evs w0,
             one_run (tasks w0) (appState (app w0)) -> steps_inv w0 ->
             run w0 evs = Some w -> steps_inv w).
  { clear. induction evs as [|ev evs IH]; intros w0 Hone Hinv Hrun.
    - injection Hrun as <-. exact Hinv.
    - simpl in Hrun. destruct (step w0 ev) as [w1|] eqn:Hstep; [|discriminate].
      apply (IH w1); [exact (proj1 (step_phase w0 w1 ev Hone Hstep))| |exact Hrun].
      exact (step_steps_inv w0 w1 ev Hone Hinv Hstep). }
  intros Hrun. apply (Hgen evs (boot storage key)); [apply boot_quiet| |exact Hrun].
  destruct (boot_cells storage key) as (Hs & _ & _ & _ & _ & Ht & _).
  unfold steps_inv. rewrite Hs, Ht.
  split; [|split; [discriminate|intros tid t st; rewrite lookup_empty; discriminate]].
  rewrite boot_unfold.
  destruct (storage !! history_key) as [saved|];
    [destruct (String.eqb saved ""); [|destruct (JSON_parse saved)]|];
    simpl; stage_membership.
Qed.

(** X6.  The list of steps always shows the four steps in their order,
    with the completed ones first, then at most one active step (the only
    one with a moving bar), then the pending ones; the active step is the
    one of the pending task, and in the phase [COMPLETE] all four are
    completed. *)
Theorem X6_step_list (storage : gmap string string) (key : option string)
    (evs : list Event) (w : World) :
  run (boot storage key) evs = Some w ->
  steps (app w) ∈ stages
  /\ (length (List.filter (fun row => snd row) (Steps (steps (app w)))) <= 1)%nat
  /\ (appState (app w) = COMPLETE ->
      Steps (steps (app w))
      = [(CheckMark, "Secure Encryption", false); (CheckMark, "AI Deep Analysis", false);
         (CheckMark, "Extracting Entities", false);
         (CheckMark, "Generating Document", false)])
  /\ (forall tid t st, tasks w !! tid = Some t -> stage_of t = Some st -> steps (app w) = st).
Proof.
  intros Hrun. destruct (run_steps_inv storage key evs w Hrun) as (Hin & Hdone & Htask).
  split; [exact Hin|]. split; [|split; [|exact Htask]].
  - unfold stages in Hin.
    repeat (apply elem_of_cons in Hin as [-> | Hin]; [vm_compute; lia|]).
    apply elem_of_nil in Hin. destruct Hin.
  - intros Hs. rewrite (Hdone Hs). reflexivity.
Qed.

Lemma X6_witness :
  run (boot ∅ (Some "key"))
      (take 2 (sample_run sample_payload) ++ [Settle 1 (Rejected (Error "503")) "" 0])
  = Some rejected_world
  /\ Steps (steps (app rejected_world))
     = [(CheckMark, "Secure Encryption", false); (Number 2, "AI Deep Analysis", true);
        (Number 3, "Extracting Entities", false); (Number 4, "Generating Document", false)]
  /\ steps (app rejected_world) ∈ stages.
Proof.
  assert (H1 : run (boot ∅ (Some "key"))
                   (take 2 (sample_run sample_payload)
                    ++ [Settle 1 (Rejected (Error "503")) "" 0])
               = Some rejected_world) by (vm_compute; reflexivity).
  assert (H2 : Steps (steps (app rejected_world))
               = [(CheckMark, "Secure Encryption", false);
                  (Number 2, "AI Deep Analysis", true);
                  (Number 3, "Extracting Entities", false);
                  (Number 4, "Generating Document", false)]) by (vm_compute; reflexivity).
  destruct (X6_step_list ∅ (Some "key") _ rejected_world H1) as (H3 & _).
  repeat (split; [assumption|]). exact H3.
Defined.

(** ** The chat *)

Lemma drop_while_nil (p : ascii -> bool) (l : list ascii) :
  drop_while p l = [] <-> forallb p l = true.
Proof.
  induction l as [|c l IH]; simpl; [tauto|].
  destruct (p c); simpl; [exact IH|]. split; discriminate.
Qed.

Lemma drop_while_head (p : ascii -> bool) (l : list ascii) (c : ascii) (r : list ascii) :
  drop_while p l = c :: r -> p c = false.
Proof.
  induction l as [|d l IH]; simpl; [discriminate|].
  destruct (p d) eqn:Hd; [exact IH|]. intros H. injection H as <- _. exact Hd.
Qed.

Lemma string_of_list_ascii_nil (l : list ascii) : string_of_list_ascii l = "" <-> l = [].
Proof. destruct l; simpl; split; try discriminate; reflexivity. Qed.

Lemma trim_blank (s : string) : trim s = "" <-> blank s = true.
Proof.
  unfold trim, blank. rewrite string_of_list_ascii_nil.
  destruct (drop_while is_js_space (list_ascii_of_string s)) as [|c r] eqn:Hd.
  - simpl. split; [intros _|reflexivity]. apply drop_while_nil, Hd.
  - pose proof (drop_while_head _ _ _ _ Hd) as Hc. split.
    + intros H. apply (f_equal (@rev ascii)) in H. rewrite rev_involutive in H.
      apply drop_while_nil in H. rewrite forallb_forall in H.
      specialize (H c). rewrite Hc in H.
      assert (Hin : In c (rev (c :: r))) by (apply (proj1 (in_rev _ _)); left; reflexivity).
      specialize (H Hin). discriminate.
    + intros H. apply drop_while_nil in H. rewrite H in Hd. discriminate.
Qed.

(** X7.  [handleChat] does nothing at all exactly when the input holds
    nothing but white space or no result is there: otherwise the question
    enters the transcript. *)
Theorem X7_blank_question_ignored (uuid : string) (now : Z) (w : World) :
  handleChat uuid now w = w
  <-> blank (chatInput (app w)) = true \/ to_boolean (result_ (app w)) = false.
Proof.
  unfold handleChat. split.
  - destruct (String.eqb _ _) eqn:Hb; simpl.
    + intros _. left. apply trim_blank, String.eqb_eq, Hb.
    + destruct (to_boolean _); simpl; [|auto].
      intros H. apply (f_equal (fun x => length (chatHistory (app x)))) in H.
      destruct (mbind _ _); simpl in H; rewrite length_app in H; simpl in H; lia.
  - intros [H | H].
    + apply trim_blank, String.eqb_eq in H. rewrite H. reflexivity.
    + rewrite H. rewrite orb_true_r. reflexivity.
Qed.

Lemma string_take_length (n : N) (s : string) :
  N.of_nat (String.length (string_take n s)) = N.min n (N.of_nat (String.length s)).
Proof.
  revert n. induction s as [|c s IH]; intros n; simpl.
  - lia.
  - destruct (N.eqb_spec n 0) as [-> | Hn]; simpl; [lia|].
    specialize (IH (N.pred n)). lia.
Qed.

Lemma string_take_prefix (n : N) (s : string) : exists rest, s = string_take n s +:+ rest.
Proof.
  revert n. induction s as [|c s IH]; intros n; simpl.
  - exists "". reflexivity.
  - destruct (n =? 0)%N; [exists (String c s); reflexivity|].
    destruct (IH (N.pred n)) as [rest Hrest]. exists rest.
    change (String c s = String c (string_take (N.pred n) s +:+ rest)).
    rewrite <- Hrest. reflexivity.
Qed.

Lemma string_take_all (n : N) (s : string) :
  (N.of_nat (String.length s) <= n)%N -> string_take n s = s.
Proof.
  revert n. induction s as [|c s IH]; intros n H; simpl in *; [reflexivity|].
  destruct (N.eqb_spec n 0) as [-> | Hn]; [lia|].
  rewrite IH by lia. reflexivity.
Qed.

(** X8.  The system instruction of a chat request is the fixed text around
    the first 500000 characters of the document: the whole document when
    it is no longer than that, never more than 500000 characters of it. *)
Theorem X8_chat_context_bound (key : option string) (k : string)
    (history : list ChatMessage) (message md : string) :
  key = Some k -> k <> "" ->
  exists body rest,
    chatWithDocument_request key history message (JStr md)
    = Ok (SendMessage "gemini-2.5-flash" (context_head +:+ body +:+ context_tail)
            (map (fun h => (msg_role h, msg_text h)) history) message)
    /\ md = body +:+ rest
    /\ N.of_nat (String.length body) = N.min 500000 (N.of_nat (String.length md))
    /\ ((N.of_nat (String.length md) <= 500000)%N -> body = md).
Proof.
  intros -> Hk. destruct (string_take_prefix 500000 md) as [rest Hrest].
  exists (string_take 500000 md), rest.
  split; [|split; [exact Hrest|split; [apply string_take_length|apply string_take_all]]].
  unfold chatWithDocument_request, getClient. apply String.eqb_neq in Hk. rewrite Hk.
  reflexivity.
Qed.

Lemma X8_witness :
  exists body rest,
    chatWithDocument_request (Some "key") [] "What is it?" (JStr "# Title")
    = Ok (SendMessage "gemini-2.5-flash" (context_head +:+ body +:+ context_tail) []
            "What is it?")
    /\ "# Title" = body +:+ rest
    /\ body = "# Title".
Proof.
  destruct (X8_chat_context_bound (Some "key") "key" [] "What is it?" "# Title" eq_refl
              ltac:(discriminate)) as (body & rest & H1 & H2 & _ & H3).
  exists body, rest. split; [exact H1|]. split; [exact H2|]. apply H3. vm_compute.
  discriminate.
Defined.

(** X9.  When the result has no usable [markdownContent] (the field is
    missing or is neither a string nor an array), a question still enters
    the transcript and the input is emptied, but no request is sent and no
    answer is pending: the error is logged and the loading flag is off
    again, so the question stays unanswered. *)
Theorem X9_question_without_document (uuid : string) (now : Z) (w : World) (v : JSValue) :
  blank (chatInput (app w)) = false ->
  to_boolean (result_ (app w)) = true ->
  get_prop (result_ (app w)) "markdownContent" = Ok v ->
  match v with JStr _ | JArr _ => False | _ => True end ->
  requests (handleChat uuid now w) = requests w
  /\ tasks (handleChat uuid now w) = tasks w
  /\ chatHistory (app (handleChat uuid now w))
     = chatHistory (app w) ++ [mkChatMessage uuid user (chatInput (app w)) now]
  /\ chatInput (app (handleChat uuid now w)) = ""
  /\ isChatLoading (app (handleChat uuid now w)) = false
  /\ uncaught (handleChat uuid now w) = uncaught w
  /\ exists e, console_errors (handleChat uuid now w) = console_errors w ++ [e].
Proof.
  intros Hb Hr Hv Hbad. unfold handleChat.
  assert (Ht : String.eqb (trim (chatInput (app w))) "" = false).
  { apply String.eqb_neq. intros H. apply trim_blank in H. congruence. }
  rewrite Ht, Hr, Hv. simpl.
  assert (Hthrow : exists e, (chatWithDocument_request (API_KEY w) (chatHistory (app w))
                                (chatInput (app w)) v) = Throw e).
  { unfold chatWithDocument_request. destruct (getClient (API_KEY w)); [|simpl; eauto].
    unfold_bind. unfold contextPrompt.
    destruct v; simpl in *; try contradiction; unfold_bind; simpl; eauto. }
  destruct Hthrow as [e He]. unfold_bind. rewrite He. simpl.
  repeat split. eauto.
Qed.



Lemma chatWithDocument_response_text (o : Outcome) (text : string) :
  chatWithDocument_response o = Ok text -> text <> "".
Proof.
  destruct o as [e|[t|]]; simpl; [discriminate| |intros H; injection H as <-; discriminate].
  destruct (String.eqb t "") eqn:Ht; intros H; injection H as <-; [discriminate|].
  apply String.eqb_neq, Ht.
Qed.

Lemma not_blank_not_empty (s : string) : blank s = false -> s <> "".
Proof. intros H ->. discriminate. Qed.

Lemma handleChat_turns (uuid : string) (now : Z) (w : World) :
  Forall proper_turn (chatHistory (app w)) ->
  Forall proper_turn (chatHistory (app (handleChat uuid now w))).
Proof.
  intros H. unfold handleChat.
  destruct (String.eqb _ _) eqn:Hb; simpl; [exact H|].
  destruct (negb _); simpl; [exact H|].
  assert (Hnb : blank (chatInput (app w)) = false).
  { destruct (blank _) eqn:Hbl; [|reflexivity].
    apply trim_blank, String.eqb_eq in Hbl. congruence. }
  assert (Hnew : Forall proper_turn
                   (chatHistory (app w) ++ [mkChatMessage uuid user (chatInput (app w)) now])).
  { apply Forall_app. split; [exact H|]. constructor; [|constructor].
    split; simpl; [apply not_blank_not_empty, Hnb|intros _; exact Hnb]. }
  destruct (mbind _ _); simpl; exact Hnew.
Qed.

Lemma step_turns (w w' : World) (ev : Event) :
  Forall proper_turn (chatHistory (app w)) ->
  step w ev = Some w' ->
  Forall proper_turn (chatHistory (app w')).
Proof.
  intros H Hstep. apply step_inv in Hstep as [_ Hstep].
  destruct ev as [file|tid dataURL uuid now|tid|tid o uuid now|tid now|t| | |type|q|text
                 |uuid now|uuid now| |].
  - destruct Hstep as [_ ->]. unfold processFile. destruct (_ >? _)%Z; simpl; [exact H|].
    constructor.
  - destruct Hstep as (file & recent & _ & ->). unfold reader_onload.
    destruct (analyzeAndConvertPDF_request _ _ _); exact H.
  - destruct Hstep as (file & recent & _ & ->). exact H.
  - destruct Hstep as [(newFile & recent & _ & ->) | [_ ->]].
    + unfold analysis_settled. destruct (analyzeAndConvertPDF_response o); exact H.
    + unfold chat_settled.
      destruct (chatWithDocument_response o) as [text|e] eqn:Ho; simpl; [|exact H].
      apply Forall_app. split; [exact H|]. constructor; [|constructor].
      split; simpl; [exact (chatWithDocument_response_text o text Ho)|discriminate].
  - destruct Hstep as [(newFile & analysis & recent & _ & ->)
                      | (newFile & analysis & recent & _ & ->)]; [exact H|].
    destruct (generate_paced_cells newFile analysis recent now (finish tid w))
      as (_ & _ & ->). exact H.
  - destruct Hstep as [_ ->]. exact H.
  - destruct Hstep as [_ ->]. exact H.
  - destruct Hstep as [_ ->]. destruct (to_boolean _); [|exact H].
    rewrite onExport_app. exact H.
  - destruct Hstep as (_ & _ & _ & ->). rewrite onExport_app. exact H.
  - destruct Hstep as (_ & _ & _ & ->). exact H.
  - destruct Hstep as [_ ->]. exact H.
  - destruct Hstep as [_ ->]. apply handleChat_turns, H.
  - destruct Hstep as (_ & _ & _ & ->). apply handleChat_turns, H.
  - destruct Hstep as [_ ->]. exact H.
  - rewrite Hstep. exact H.
Qed.

(** X10.  In every execution no turn of the transcript has an empty text:
    a question of the user holds more than white space, and an answer of
    the model is the text of the response or, when that is missing or
    empty, the fallback sentence. *)
Theorem X10_no_empty_turn (storage : gmap string string) (key : option string)
    (evs : list Event) (w : World) (m : ChatMessage) :
  run (boot storage key) evs = Some w ->
  m ∈ chatHistory (app w) ->
  msg_text m <> "" /\ (msg_role m = user -> blank (msg_text m) = false).
Proof.
  intros Hrun Hm.
  assert (Hgen : forall evs w0, Forall proper_turn (chatHistory (app w0)) ->
                                run w0 evs = Some w ->
                                Forall proper_turn (chatHistory (app w))).
  { clear. induction evs as [|ev evs IH]; intros w0 H Hrun.
    - injection Hrun as <-. exact H.
    - simpl in Hrun. destruct (step w0 ev) as [w1|] eqn:Hstep; [|discriminate].
      exact (IH w1 (step_turns w0 w1 ev H Hstep) Hrun). }
  assert (Hall : Forall proper_turn (chatHistory (app w))).
  { apply (Hgen evs (boot storage key)); [|exact Hrun].
    destruct (boot_cells storage key) as (_ & _ & _ & -> & _). constructor. }
  rewrite Forall_forall in Hall. exact (Hall m Hm).
Qed.

Lemma X10_witness :
  run (boot ∅ (Some "key")) chat_run = Some fallback_world
  /\ mkChatMessage "id-3" model "I couldn't generate a response." 1700000002000
     ∈ chatHistory (app fallback_world)
  /\ msg_text (mkChatMessage "id-3" model "I couldn't generate a response." 1700000002000)
     <> "".
Proof.
  assert (H1 : run (boot ∅ (Some "key")) chat_run = Some fallback_world)
    by (vm_compute; reflexivity).
  assert (H2 : mkChatMessage "id-3" model "I couldn't generate a response." 1700000002000
               ∈ chatHistory (app fallback_world)).
  { apply (list_elem_of_lookup_2 _ 1). vm_compute. reflexivity. }
  split; [exact H1|]. split; [exact H2|].
  exact (proj1 (X10_no_empty_turn ∅ (Some "key") chat_run fallback_world _ H1 H2)).
Defined.

(** ** The ledger *)

Lemma has_id_readable (i : JSValue) : has_id i -> readable i = true.
Proof. intros [id H]. destruct i; simpl in *; try discriminate; reflexivity. Qed.

Lemma other_id_ne (id : string) (i : JSValue) :
  other_id id i = true -> item_id i <> JStr id.
Proof.
  unfold other_id, strict_ne_string. intros H Heq. rewrite Heq in H.
  rewrite String.eqb_refl in H. discriminate.
Qed.

Lemma NoDup_map_filter {A B} (f : A -> B) (p : A -> bool) (l : list A) :
  NoDup (map f l) -> NoDup (map f (List.filter p l)).
Proof.
  induction l as [|x l IH]; simpl; intros H; [constructor|].
  apply NoDup_cons in H as [Hx Hl]. destruct (p x); simpl; [|exact (IH Hl)].
  apply NoDup_cons. split; [|exact (IH Hl)].
  intros Hin. apply Hx. apply list_elem_of_In. apply list_elem_of_In in Hin.
  apply in_map_iff in Hin as (y & Hy & Hin). apply in_map_iff. exists y.
  split; [exact Hy|]. apply filter_In in Hin. tauto.
Qed.

Lemma In_take {A} (x : A) (n : nat) (l : list A) : In x (take n l) -> In x l.
Proof.
  revert n. induction l as [|y l IH]; intros [|n]; simpl; try tauto.
  intros [H | H]; [auto|right; exact (IH n H)].
Qed.

Lemma NoDup_map_take {A B} (f : A -> B) (n : nat) (l : list A) :
  NoDup (map f l) -> NoDup (map f (take n l)).
Proof.
  revert n. induction l as [|x l IH]; intros [|n]; simpl; intros H; try constructor.
  - apply NoDup_cons in H as [Hx Hl]. intros Hin. apply Hx.
    apply list_elem_of_In. apply list_elem_of_In in Hin.
    apply in_map_iff in Hin as (y & Hy & Hin). apply in_map_iff. exists y.
    split; [exact Hy|exact (In_take _ _ _ Hin)].
  - apply NoDup_cons in H as [_ Hl]. exact (IH n Hl).
Qed.

Lemma newItem_id (file : FileData) (now : Z) (summary stats : JSValue) :
  item_id (newItem file now summary stats) = JStr (fd_id file).
Proof. reflexivity. Qed.

(** Recording keeps the identities distinct. *)
Lemma generate_paced_distinct (newFile : FileData) (analysis : JSValue) (now : Z)
    (w : World) :
  distinct_ids (recentFiles (app w)) ->
  distinct_ids
    (recentFiles (app (generate_paced newFile analysis (recentFiles (app w)) now w))).
Proof.
  intros (l & Hl & Hnd & Hid). unfold generate_paced, addToHistory. unfold_bind.
  destruct (get_prop analysis "summary") as [summary|e]; [|exists l; auto].
  destruct (get_prop analysis "stats") as [stats|e]; [|exists l; auto].
  simpl. rewrite Hl. simpl.
  rewrite filter_other_ids_spec
    by (eapply Forall_impl; [exact Hid|]; intros i Hi; apply has_id_readable, Hi).
  simpl.
  exists (take 10 (newItem newFile now summary stats
                     :: List.filter (other_id (fd_id newFile)) l)).
  split; [reflexivity|]. split.
  - apply NoDup_map_take. simpl. apply NoDup_cons. split.
    + intros Hin. apply list_elem_of_In, in_map_iff in Hin as (y & Hy & Hin).
      apply filter_In in Hin as [_ Hother].
      apply other_id_ne in Hother. congruence.
    + apply NoDup_map_filter, Hnd.
  - apply Forall_take. constructor.
    + exists (fd_id newFile). reflexivity.
    + rewrite Forall_forall in Hid. apply Forall_forall. intros i Hi.
      apply Hid. apply list_elem_of_In. apply list_elem_of_In, filter_In in Hi. tauto.
Qed.

Lemma step_distinct (w w' : World) (ev : Event) :
  closures_current w ->
  distinct_ids (recentFiles (app w)) ->
  step w ev = Some w' ->
  distinct_ids (recentFiles (app w')).
Proof.
  intros Hcl Hd Hstep.
  destruct (step_ledger w w' ev Hstep)
    as [(tid & now & newFile & analysis & recent & -> & Ht) | [-> _]]; [|exact Hd].
  apply step_inv in Hstep as [_ [(nf & an & rc & Ht' & _) | (nf & an & rc & Ht' & ->)]];
    [congruence|].
  rewrite (Hcl tid _ rc Ht' eq_refl).
  apply (generate_paced_distinct nf an now (finish tid w)). exact Hd.
Qed.

(** X11.  Starting without a stored history, the entries of the ledger
    have pairwise distinct identities in every execution, even when two
    runs get the same identity: the later entry replaces the earlier one. *)
Theorem X11_ledger_ids_distinct (storage : gmap string string) (key : option string)
    (evs : list Event) (w : World) :
  storage !! history_key = None ->
  run (boot storage key) evs = Some w ->
  exists l,
    recentFiles (app w) = JArr l
    /\ NoDup (map item_id l)
    /\ Forall (fun i => exists id, item_id i = JStr id) l.
Proof.
  intros Hs Hrun.
  assert (Hgen : forall evs w0,
             one_run (tasks w0) (appState (app w0)) -> closures_current w0 ->
             distinct_ids (recentFiles (app w0)) ->
             run w0 evs = Some w -> distinct_ids (recentFiles (app w))).
  { clear. induction evs as [|ev evs IH]; intros w0 Hone Hcl Hd Hrun.
    - injection Hrun as <-. exact Hd.
    - simpl in Hrun. destruct (step w0 ev) as [w1|] eqn:Hstep; [|discriminate].
      apply (IH w1); [exact (proj1 (step_phase w0 w1 ev Hone Hstep))
                     |exact (step_closures_current w0 w1 ev Hone Hcl Hstep)
                     |exact (step_distinct w0 w1 ev Hcl Hd Hstep)|exact Hrun]. }
  apply (Hgen evs (boot storage key));
    [apply boot_quiet|apply boot_closures_current| |exact Hrun].
  rewrite boot_unfold, Hs. exists []. split; [reflexivity|]. split; constructor.
Qed.

Lemma X11_witness :
  (∅ : gmap string string) !! history_key = None
  /\ run (boot ∅ (Some "key")) twice_run = Some twice_world
  /\ exists l,
       recentFiles (app twice_world) = JArr l
       /\ length l = 1%nat
       /\ NoDup (map item_id l).
Proof.
  assert (H1 : (∅ : gmap string string) !! history_key = None) by reflexivity.
  assert (H2 : run (boot ∅ (Some "key")) twice_run = Some twice_world)
    by (vm_compute; reflexivity).
  destruct (X11_ledger_ids_distinct ∅ (Some "key") twice_run twice_world H1 H2)
    as (l & H3 & H4 & _).
  split; [exact H1|]. split; [exact H2|]. exists l. split; [exact H3|]. split; [|exact H4].
  assert (H5 : exists x, recentFiles (app twice_world) = JArr [x])
    by (vm_compute; eexists; reflexivity).
  destruct H5 as [x H5]. rewrite H5 in H3. injection H3 as <-. reflexivity.
Defined.

(** ** The export *)

Lemma string_list_string (s : string) : string_of_list_ascii (list_ascii_of_string s) = s.
Proof. apply string_of_list_ascii_of_string. Qed.

Lemma string_app_assoc (a b c : string) : (a +:+ b) +:+ c = a +:+ b +:+ c.
Proof.
  induction a as [|x a IH]; [reflexivity|].
  change ((String x a +:+ b) +:+ c) with (String x ((a +:+ b) +:+ c)).
  rewrite IH. reflexivity.
Qed.

Lemma string_app_nil_r (a : string) : a +:+ "" = a.
Proof.
  induction a as [|x a IH]; [reflexivity|].
  change (String x a +:+ "") with (String x (a +:+ "")). rewrite IH. reflexivity.
Qed.

Lemma replace_first_cons (pat rep : string) (c : ascii) (r : string) :
  replace_first pat rep (String c r)
  = if String.prefix pat (String c r)
    then rep +:+ string_of_list_ascii
                   (drop (String.length pat) (list_ascii_of_string (String c r)))
    else String c (replace_first pat rep r).
Proof. reflexivity. Qed.

Lemma prefix_cons (a c : ascii) (p r : string) :
  String.prefix (String a p) (String c r)
  = if ascii_dec a c then String.prefix p r else false.
Proof. reflexivity. Qed.

Lemma contains_cons (pat : string) (c : ascii) (r : string) :
  contains pat (String c r) = String.prefix pat (String c r) || contains pat r.
Proof. reflexivity. Qed.

(** A pattern without a dot that does not begin [s] does not begin [s]
    followed by a dot and more text either. *)
Lemma prefix_before_dot (p s rest : string) :
  free_of "." p = true ->
  String.prefix p s = false ->
  String.prefix p (s +:+ String "." rest) = false.
Proof.
  unfold free_of. revert s. induction p as [|a p IH]; intros s Hp Hs.
  - destruct s; discriminate Hs.
  - simpl in Hp. apply andb_true_iff in Hp as [Ha Hp]. apply negb_true_iff in Ha.
    destruct s as [|c s].
    + change ("" +:+ String "." rest) with (String "." rest). rewrite prefix_cons.
      destruct (ascii_dec a ".") as [-> | _]; [discriminate Ha|reflexivity].
    + change (String c s +:+ String "." rest) with (String c (s +:+ String "." rest)).
      rewrite prefix_cons in *.
      destruct (ascii_dec a c); [exact (IH s Hp Hs)|reflexivity].
Qed.

(** Before the first [.docx] of a name nothing is replaced: an occurrence
    cannot begin in [stem] and end in the [.docx] that follows, the dot
    being the first character of the pattern only. *)
Lemma replace_first_stem (stem tail : string) :
  contains ".docx" stem = false ->
  replace_first ".docx" "" (stem +:+ ".docx" +:+ tail)
  = stem +:+ replace_first ".docx" "" (".docx" +:+ tail).
Proof.
  induction stem as [|c stem IH]; intros H; [reflexivity|].
  rewrite contains_cons in H. apply orb_false_iff in H as [Hc Hs].
  change (String c stem +:+ ".docx" +:+ tail) with (String c (stem +:+ ".docx" +:+ tail)).
  change (String c stem +:+ replace_first ".docx" "" (".docx" +:+ tail))
    with (String c (stem +:+ replace_first ".docx" "" (".docx" +:+ tail))).
  rewrite <- (IH Hs), replace_first_cons.
  change ".docx" with (String "." "docx") in Hc.
  change ".docx" with (String "." "docx") at 1.
  rewrite prefix_cons in *.
  destruct (ascii_dec "." c) as [<- | Hne]; [|reflexivity].
  change (".docx" +:+ tail) with (String "." ("docx" +:+ tail)).
  rewrite (prefix_before_dot "docx" stem ("docx" +:+ tail) eq_refl Hc). reflexivity.
Qed.

Lemma replace_first_docx (tail : string) : replace_first ".docx" "" (".docx" +:+ tail) = tail.
Proof.
  destruct tail as [|c r]; [reflexivity|]. simpl.
  rewrite string_list_string. reflexivity.
Qed.

Lemma replace_first_absent (s : string) :
  contains ".docx" s = false -> replace_first ".docx" "" s = s.
Proof.
  induction s as [|c s IH]; intros H; [reflexivity|].
  rewrite contains_cons in H. apply orb_false_iff in H as [Hc Hs].
  rewrite replace_first_cons, Hc, (IH Hs). reflexivity.
Qed.

Lemma prefix_split (p s : string) :
  String.prefix p s = true ->
  s = p +:+ string_of_list_ascii (drop (String.length p) (list_ascii_of_string s)).
Proof.
  revert s. induction p as [|a p IH]; intros s H.
  - change (s = string_of_list_ascii (list_ascii_of_string s)).
    symmetry. apply string_list_string.
  - destruct s as [|c s]; [discriminate H|].
    rewrite prefix_cons in H. destruct (ascii_dec a c) as [<- | _]; [|discriminate H].
    change (String a s
            = String a (p +:+ string_of_list_ascii
                                (drop (String.length p) (list_ascii_of_string s)))).
    rewrite <- (IH s H). reflexivity.
Qed.

(** A name in which [.docx] occurs has a first occurrence. *)
Lemma first_docx (name : string) :
  contains ".docx" name = true ->
  exists stem tail,
    name = stem +:+ ".docx" +:+ tail /\ contains ".docx" stem = false.
Proof.
  induction name as [|c name IH]; intros H; [discriminate H|].
  destruct (String.prefix ".docx" (String c name)) eqn:Hp.
  - exists "", (string_of_list_ascii (drop 5 (list_ascii_of_string (String c name)))).
    split; [|reflexivity]. exact (prefix_split ".docx" (String c name) Hp).
  - rewrite contains_cons, Hp in H. destruct (IH H) as (stem & tail & -> & Hs).
    exists (String c stem), tail. split; [reflexivity|].
    rewrite contains_cons, Hs, orb_false_r.
    change ".docx" with (String "." "docx") in *. rewrite prefix_cons in *.
    destruct (ascii_dec "." c) as [<- | Hne]; [|reflexivity].
    destruct (String.prefix "docx" stem) eqn:Hd; [|reflexivity].
    exfalso. revert Hp Hd. clear. revert tail.
    assert (Hgen : forall p s rest, String.prefix p s = true ->
                                    String.prefix p (s +:+ rest) = true).
    { induction p as [|a p IHp]; intros s rest Hs; [destruct (s +:+ rest); reflexivity|].
      destruct s as [|x s]; [discriminate Hs|].
      change (String x s +:+ rest) with (String x (s +:+ rest)).
      rewrite prefix_cons in *. destruct (ascii_dec a x); [auto|discriminate Hs]. }
    intros tail Hp Hd. rewrite (Hgen _ _ _ Hd) in Hp. discriminate Hp.
Qed.

(** X12.  The name of a download is the suggested file name without its
    first [.docx], followed by a dot and the extension of the format; the
    MIME type is [application/msword] for [doc], [application/json] for
    [json] and [text/plain] otherwise.  [stem] is what comes before the
    first [.docx]: whatever it holds, other dots and extensions included,
    stays; only the first [.docx] goes, and a name without any is kept
    whole. *)
Theorem X12_download_name (content stem tail : string) (type : ExportType) :
  contains ".docx" stem = false ->
  (exists d,
      downloadContent (JStr content) (JStr (stem +:+ ".docx" +:+ tail)) type = Ok d
      /\ download_name d = stem +:+ tail +:+ "." +:+ ext_of type
      /\ blob_type d = match type with
                       | doc => "application/msword"
                       | json => "application/json"
                       | _ => "text/plain"
                       end)
  /\ (exists d,
         downloadContent (JStr content) (JStr stem) type = Ok d
         /\ download_name d = stem +:+ "." +:+ ext_of type).
Proof.
  intros H. split.
  - unfold downloadContent. rewrite (replace_first_stem stem _ H), replace_first_docx.
    destruct type; unfold_bind; simpl; eexists; (split; [reflexivity|]); split;
      try reflexivity; simpl; apply string_app_assoc.
  - unfold downloadContent. rewrite (replace_first_absent stem H).
    destruct type; unfold_bind; simpl; eexists; (split; [reflexivity|]); reflexivity.
Qed.

Lemma X12_witness :
  contains ".docx" "report.v2" = false
  /\ contains ".docx" "report.pdf" = false
  /\ (exists d,
         downloadContent (JStr "# Title") (JStr "report.v2.docx") md = Ok d
         /\ download_name d = "report.v2.md")
  /\ (exists d,
         downloadContent (JStr "# Title") (JStr "report.pdf") txt = Ok d
         /\ download_name d = "report.pdf.txt").
Proof.
  assert (H : contains ".docx" "report.v2" = false) by reflexivity.
  assert (H' : contains ".docx" "report.pdf" = false) by reflexivity.
  destruct (X12_download_name "# Title" "report.v2" "" md H) as [(d & H1 & H2 & _) _].
  destruct (X12_download_name "# Title" "report.pdf" "" txt H') as [_ (d' & H3 & H4)].
  split; [exact H|]. split; [exact H'|].
  split; [exists d; split; [exact H1|exact H2]|exists d'; split; [exact H3|exact H4]].
Defined.

Lemma map_lines_line (f : list ascii -> list ascii) (cur l : list ascii) :
  forallb (fun c => negb (is_line_terminator c)) l = true ->
  map_lines f cur l = f (rev cur ++ l).
Proof.
  revert cur. induction l as [|c l IH]; intros cur H; simpl in *.
  - rewrite app_nil_r. reflexivity.
  - apply andb_true_iff in H as [Hc Hl]. apply negb_true_iff in Hc. rewrite Hc.
    rewrite (IH _ Hl). simpl. rewrite <- app_assoc. reflexivity.
Qed.

Lemma map_lines_app (f : list ascii -> list ascii) (cur a : list ascii) (c : ascii)
    (b : list ascii) :
  is_line_terminator c = true ->
  map_lines f cur (a ++ c :: b) = map_lines f cur a ++ c :: map_lines f [] b.
Proof.
  intros Hc. revert cur. induction a as [|x a IH]; intros cur; simpl.
  - rewrite Hc. reflexivity.
  - destruct (is_line_terminator x); [|apply IH].
    rewrite IH, <- app_assoc. reflexivity.
Qed.

Lemma br_app (a b : list ascii) : br (a ++ b) = br a ++ br b.
Proof. unfold br. rewrite map_app, concat_app. reflexivity. Qed.

Lemma br_line (l : list ascii) :
  forallb (fun c => negb (is_line_terminator c)) l = true -> br l = l.
Proof.
  unfold br. induction l as [|c l IH]; intros H; simpl in *; [reflexivity|].
  apply andb_true_iff in H as [Hc Hl]. apply negb_true_iff in Hc.
  unfold is_line_terminator in Hc. apply orb_false_iff in Hc as [Hc _]. rewrite Hc.
  simpl. rewrite (IH Hl). reflexivity.
Qed.

(** X13.  The Word export converts a document line by line: the
    conversion of two texts joined by a line feed is the conversion of the
    first, the tag [<br>], and the conversion of the second. *)
Theorem X13_export_line_by_line (a b : string) :
  md_to_html (a +:+ LF +:+ b) = md_to_html a +:+ "<br>" +:+ md_to_html b.
Proof.
  unfold md_to_html. rewrite list_ascii_of_string_app.
  change (list_ascii_of_string (LF +:+ b))
    with (ascii_of_nat 10 :: list_ascii_of_string b).
  rewrite !(map_lines_app _ _ _ (ascii_of_nat 10)) by reflexivity.
  rewrite br_app. change (br (ascii_of_nat 10 :: ?x)) with (list_ascii_of_string "<br>" ++ br x).
  rewrite !string_of_list_ascii_app. reflexivity.
Qed.

Lemma split_stars_cons (seen : list ascii) (c : ascii) (r : list ascii) :
  c <> "*"%char -> split_stars seen (c :: r) = split_stars (c :: seen) r.
Proof.
  intros Hc. destruct c as [[] [] [] [] [] [] [] []]; try reflexivity.
  destruct Hc. reflexivity.
Qed.

Lemma split_stars_free (seen l : list ascii) :
  forallb (fun c => negb (Ascii.eqb c "*")) l = true -> split_stars seen l = None.
Proof.
  revert seen. induction l as [|c l IH]; intros seen H; [reflexivity|].
  simpl in H. apply andb_true_iff in H as [Hc Hl]. apply negb_true_iff in Hc.
  apply Ascii.eqb_neq in Hc. rewrite (split_stars_cons _ _ _ Hc). apply IH, Hl.
Qed.




Lemma bold_free (l : list ascii) :
  forallb (fun c => negb (Ascii.eqb c "*")) l = true -> bold l = l.
Proof. intros H. unfold bold. rewrite (split_stars_free [] l H). reflexivity. Qed.

Lemma heading_other (marker tag : string) (m : ascii) (ms : string) (l : list ascii) :
  marker = String m ms ->
  match l with [] => True | c :: _ => c <> m end ->
  heading marker tag l = l.
Proof.
  intros -> H. unfold heading. destruct l as [|c l]; [reflexivity|]. simpl.
  destruct (Ascii.eqb_spec m c) as [-> | Hne]; [destruct H; reflexivity|reflexivity].
Qed.

Lemma forallb_app_true {A} (p : A -> bool) (a b : list A) :
  forallb p a = true -> forallb p b = true -> forallb p (a ++ b) = true.
Proof. intros Ha Hb. rewrite forallb_app, Ha, Hb. reflexivity. Qed.



(** X15.  On a line without asterisks, the Word export turns a leading
    hash sign and blank into an [h1] element, two leading hash signs and a
    blank into an [h2] element, and leaves a line that does not start with
    a hash sign as it is: nothing else of Markdown is converted, and the
    characters that are special in HTML are not escaped. *)
Theorem X15_export_headings (t : string) :
  one_line t = true ->
  free_of "*" t = true ->
  md_to_html ("# " +:+ t) = "<h1>" +:+ t +:+ "</h1>"
  /\ md_to_html ("## " +:+ t) = "<h2>" +:+ t +:+ "</h2>"
  /\ (match t with String "#" _ => False | _ => True end -> md_to_html t = t).
Proof.
  unfold one_line, free_of. intros Hl Hs.
  assert (Happ : forall a b : list ascii,
             forallb (fun c => negb (is_line_terminator c)) a = true ->
             forallb (fun c => negb (is_line_terminator c)) b = true ->
             forallb (fun c => negb (is_line_terminator c))
                     (a ++ list_ascii_of_string t ++ b) = true).
  { intros a b Ha Hb. apply forallb_app_true; [exact Ha|].
    apply forallb_app_true; [exact Hl|exact Hb]. }
  assert (Hstar : forall a b : list ascii,
             forallb (fun c => negb (Ascii.eqb c "*")) a = true ->
             forallb (fun c => negb (Ascii.eqb c "*")) b = true ->
             forallb (fun c => negb (Ascii.eqb c "*"))
                     (a ++ list_ascii_of_string t ++ b) = true).
  { intros a b Ha Hb. apply forallb_app_true; [exact Ha|].
    apply forallb_app_true; [exact Hs|exact Hb]. }
  assert (Hpre : forall a : list ascii,
             forallb (fun c => negb (is_line_terminator c)) a = true ->
             forallb (fun c => negb (is_line_terminator c))
                     (a ++ list_ascii_of_string t) = true).
  { intros a Ha. apply forallb_app_true; [exact Ha|exact Hl]. }
  assert (Hpass : forall f l, forallb (fun c => negb (is_line_terminator c)) l = true ->
                             map_lines f [] l = f l).
  { intros f l H. exact (map_lines_line f [] l H). }
  unfold md_to_html. split; [|split].
  - rewrite list_ascii_of_string_app.
    change (list_ascii_of_string "# ") with ["#"%char; " "%char].
    rewrite (Hpass _ _ (Hpre ["#"%char; " "%char] eq_refl)).
    change (heading "# " "h1" (["#"%char; " "%char] ++ list_ascii_of_string t))
      with (list_ascii_of_string "<h1>" ++ list_ascii_of_string t
            ++ list_ascii_of_string "</h1>").
    rewrite (Hpass _ _ (Happ (list_ascii_of_string "<h1>") (list_ascii_of_string "</h1>")
                          eq_refl eq_refl)).
    rewrite (heading_other "## " "h2" "#" "# " _ eq_refl) by (simpl; discriminate).
    rewrite (Hpass _ _ (Happ (list_ascii_of_string "<h1>") (list_ascii_of_string "</h1>")
                          eq_refl eq_refl)).
    rewrite (bold_free _ (Hstar (list_ascii_of_string "<h1>") (list_ascii_of_string "</h1>")
                            eq_refl eq_refl)).
    rewrite (br_line _ (Happ (list_ascii_of_string "<h1>") (list_ascii_of_string "</h1>")
                          eq_refl eq_refl)).
    rewrite !string_of_list_ascii_app, !string_list_string. reflexivity.
  - rewrite list_ascii_of_string_app.
    change (list_ascii_of_string "## ") with ["#"%char; "#"%char; " "%char].
    rewrite (Hpass _ _ (Hpre ["#"%char; "#"%char; " "%char] eq_refl)).
    change (heading "# " "h1" (["#"%char; "#"%char; " "%char] ++ list_ascii_of_string t))
      with (["#"%char; "#"%char; " "%char] ++ list_ascii_of_string t).
    rewrite (Hpass _ _ (Hpre ["#"%char; "#"%char; " "%char] eq_refl)).
    change (heading "## " "h2" (["#"%char; "#"%char; " "%char] ++ list_ascii_of_string t))
      with (list_ascii_of_string "<h2>" ++ list_ascii_of_string t
            ++ list_ascii_of_string "</h2>").
    rewrite (Hpass _ _ (Happ (list_ascii_of_string "<h2>") (list_ascii_of_string "</h2>")
                          eq_refl eq_refl)).
    rewrite (bold_free _ (Hstar (list_ascii_of_string "<h2>") (list_ascii_of_string "</h2>")
                            eq_refl eq_refl)).
    rewrite (br_line _ (Happ (list_ascii_of_string "<h2>") (list_ascii_of_string "</h2>")
                          eq_refl eq_refl)).
    rewrite !string_of_list_ascii_app, !string_list_string. reflexivity.
  - intros Hstart.
    assert (Hfirst : forall m, m = "#"%char ->
                               match list_ascii_of_string t with
                               | [] => True
                               | c :: _ => c <> m
                               end).
    { intros m ->. destruct t as [|c r]; simpl; [exact I|].
      intros ->. exact Hstart. }
    rewrite (Hpass _ _ Hl).
    rewrite (heading_other "# " "h1" "#" " " _ eq_refl (Hfirst _ eq_refl)).
    rewrite (Hpass _ _ Hl).
    rewrite (heading_other "## " "h2" "#" "# " _ eq_refl (Hfirst _ eq_refl)).
    rewrite (Hpass _ _ Hl), (bold_free _ Hs), (br_line _ Hl).
    apply string_list_string.
Qed.

Lemma X15_witness :
  md_to_html "# Plan <draft>" = "<h1>Plan <draft></h1>"
  /\ md_to_html "## Plan <draft>" = "<h2>Plan <draft></h2>"
  /\ md_to_html "Plan <draft>" = "Plan <draft>".
Proof.
  destruct (X15_export_headings "Plan <draft>" eq_refl eq_refl) as (H1 & H2 & H3).
  split; [exact H1|]. split; [exact H2|]. apply H3. exact I.
Defined.

(** X16.  When the result carries no [suggestedFilename] that is a string
    (the response schema does not require the field), no export format
    hands out a file: the handler throws, the error is caught nowhere, and
    the component shows nothing of it. *)
Theorem X16_export_needs_file_name (type : ExportType) (w : World) (v : JSValue) :
  get_prop (result_ (app w)) "suggestedFilename" = Ok v ->
  match v with JStr _ => False | _ => True end ->
  downloads (onExport type w) = downloads w
  /\ app (onExport type w) = app w
  /\ exists e, uncaught (onExport type w) = uncaught w ++ [e].
Proof.
  intros Hv Hbad. unfold onExport. unfold_bind.
  destruct (get_prop (result_ (app w)) "markdownContent") as [c|e]; [|simpl; eauto].
  rewrite Hv.
  assert (Hd : exists e, downloadContent c v type = Throw e).
  { unfold downloadContent. unfold_bind.
    destruct (match type with doc => _ | _ => _ end); [|eauto].
    destruct v; simpl in *; try contradiction; eauto. }
  destruct Hd as [e ->]. simpl. eauto.
Qed.

Lemma X16_witness :
  get_prop (result_ (app nameless_world)) "suggestedFilename" = Ok JUndefined
  /\ appState (app nameless_world) = COMPLETE
  /\ downloads (onExport md nameless_world) = [].
Proof.
  assert (H1 : get_prop (result_ (app nameless_world)) "suggestedFilename" = Ok JUndefined)
    by (vm_compute; reflexivity).
  assert (H2 : appState (app nameless_world) = COMPLETE) by (vm_compute; reflexivity).
  destruct (X16_export_needs_file_name md nameless_world JUndefined H1 I) as (H3 & _).
  split; [exact H1|]. split; [exact H2|]. rewrite H3. vm_compute. reflexivity.
Defined.

(** X17.  When the result carries no [markdownContent] but a file name,
    the Markdown, JSON and text exports hand out a file whose text is the
    word [undefined]; the Word export throws and hands out nothing. *)
Theorem X17_export_without_content (type : ExportType) (w : World) (f : string) :
  get_prop (result_ (app w)) "markdownContent" = Ok JUndefined ->
  get_prop (result_ (app w)) "suggestedFilename" = Ok (JStr f) ->
  match type with
  | doc => downloads (onExport doc w) = downloads w
  | _ =>
      downloads (onExport type w)
      = downloads w ++ [mkDownload "undefined"
                          (match type with json => "application/json" | _ => "text/plain" end)
                          (replace_first ".docx" "" f +:+ "." +:+ ext_of type)]
  end.
Proof.
  intros Hc Hf. unfold onExport. rewrite Hc, Hf. destruct type; reflexivity.
Qed.

Lemma X17_witness :
  get_prop (result_ (app textless_world)) "markdownContent" = Ok JUndefined
  /\ get_prop (result_ (app textless_world)) "suggestedFilename" = Ok (JStr "report.docx")
  /\ downloads (onExport txt textless_world)
     = [mkDownload "undefined" "text/plain" "report.txt"].
Proof.
  assert (H1 : get_prop (result_ (app textless_world)) "markdownContent" = Ok JUndefined)
    by (vm_compute; reflexivity).
  assert (H2 : get_prop (result_ (app textless_world)) "suggestedFilename"
               = Ok (JStr "report.docx")) by (vm_compute; reflexivity).
  pose proof (X17_export_without_content txt textless_world "report.docx" H1 H2) as H3.
  split; [exact H1|]. split; [exact H2|]. simpl in H3. rewrite H3. vm_compute. reflexivity.
Defined.

Lemma X9_witness :
  blank (chatInput (app textless_chat_world)) = false
  /\ to_boolean (result_ (app textless_chat_world)) = true
  /\ get_prop (result_ (app textless_chat_world)) "markdownContent" = Ok JUndefined
  /\ requests (handleChat "id-2" 5 textless_chat_world) = requests textless_chat_world
  /\ map msg_text (chatHistory (app (handleChat "id-2" 5 textless_chat_world)))
     = ["Summarize this"].
Proof.
  assert (H1 : blank (chatInput (app textless_chat_world)) = false)
    by (vm_compute; reflexivity).
  assert (H2 : to_boolean (result_ (app textless_chat_world)) = true)
    by (vm_compute; reflexivity).
  assert (H3 : get_prop (result_ (app textless_chat_world)) "markdownContent"
               = Ok JUndefined) by (vm_compute; reflexivity).
  destruct (X9_question_without_document "id-2" 5 textless_chat_world JUndefined
              H1 H2 H3 I) as (H4 & _ & H5 & _).
  repeat (split; [assumption|]). rewrite H5. vm_compute. reflexivity.
Defined.

(** ** The entity chart *)

Lemma insert_sorted_perm (e : Entity) (l : list Entity) :
  insert_sorted by_count_desc e l ≡ₚ e :: l.
Proof.
  induction l as [|x r IH]; simpl; [reflexivity|].
  destruct (_ <? 0)%Z; [|reflexivity].
  rewrite IH. apply Permutation_swap.
Qed.

Lemma sort_perm (l : list Entity) : sort by_count_desc l ≡ₚ l.
Proof.
  induction l as [|e l IH]; simpl; [reflexivity|].
  rewrite insert_sorted_perm, IH. reflexivity.
Qed.

Lemma insert_sorted_descending (e : Entity) (l : list Entity) :
  descending l -> descending (insert_sorted by_count_desc e l).
Proof.
  induction l as [|x r IH]; simpl; intros H; [split; [constructor|exact I]|].
  destruct H as [Hx Hr]. unfold by_count_desc at 1.
  destruct (Z.ltb_spec (ent_count e - ent_count x) 0) as [Hlt | Hge]; simpl.
  - split; [|exact (IH Hr)].
    rewrite (insert_sorted_perm e r). constructor; [lia|exact Hx].
  - split; [|split; [exact Hx|exact Hr]].
    constructor; [lia|]. eapply Forall_impl; [exact Hx|]. simpl. intros y Hy. lia.
Qed.

Lemma sort_descending (l : list Entity) : descending (sort by_count_desc l).
Proof.
  induction l as [|e l IH]; simpl; [exact I|]. apply insert_sorted_descending, IH.
Qed.

Lemma descending_lookup (l : list Entity) (i j : nat) (a b : Entity) :
  descending l -> (i < j)%nat -> l !! i = Some a -> l !! j = Some b ->
  (ent_count b <= ent_count a)%Z.
Proof.
  revert i j. induction l as [|x r IH]; intros i j Hd Hij Ha Hb; [discriminate|].
  destruct Hd as [Hx Hr]. destruct j as [|j]; [lia|]. simpl in Hb.
  destruct i as [|i]; simpl in Ha.
  - injection Ha as <-. rewrite Forall_forall in Hx. apply Hx.
    exact (list_elem_of_lookup_2 _ _ _ Hb).
  - apply (IH i j Hr); [lia|exact Ha|exact Hb].
Qed.

(** Sorting keeps the entities of one count in their order. *)
Lemma insert_sorted_filter (c : Z) (e : Entity) (l : list Entity) :
  List.filter (fun x => (ent_count x =? c)%Z) (insert_sorted by_count_desc e l)
  = List.filter (fun x => (ent_count x =? c)%Z) (e :: l).
Proof.
  induction l as [|x r IH]; [reflexivity|].
  simpl insert_sorted. unfold by_count_desc at 1.
  destruct (Z.ltb_spec (ent_count e - ent_count x) 0) as [Hlt | Hge]; [|reflexivity].
  simpl. simpl in IH. rewrite IH.
  destruct (Z.eqb_spec (ent_count x) c) as [Hx | Hx],
           (Z.eqb_spec (ent_count e) c) as [He | He]; try reflexivity.
  exfalso. lia.
Qed.

Lemma sort_filter (c : Z) (l : list Entity) :
  List.filter (fun x => (ent_count x =? c)%Z) (sort by_count_desc l)
  = List.filter (fun x => (ent_count x =? c)%Z) l.
Proof.
  induction l as [|e l IH]; [reflexivity|].
  simpl sort. rewrite insert_sorted_filter. simpl. rewrite IH. reflexivity.
Qed.

Lemma sort_sorted (l : list Entity) : descending l -> sort by_count_desc l = l.
Proof.
  induction l as [|x r IH]; [reflexivity|]. intros [Hx Hr]. simpl. rewrite (IH Hr).
  destruct r as [|y r']; [reflexivity|]. simpl. unfold by_count_desc.
  apply Forall_cons in Hx as [Hy _].
  destruct (Z.ltb_spec (ent_count x - ent_count y) 0) as [Hlt | Hge]; [lia|reflexivity].
Qed.

Lemma substring_length (n : nat) (s : string) :
  String.length (String.substring 0 n s) = Nat.min n (String.length s).
Proof.
  revert s. induction n as [|n IH]; intros [|c s]; simpl; try reflexivity.
  rewrite IH. reflexivity.
Qed.

Lemma string_app_length (a b : string) :
  String.length (a +:+ b) = (String.length a + String.length b)%nat.
Proof.
  induction a as [|c a IH]; [reflexivity|].
  change (String c a +:+ b) with (String c (a +:+ b)). simpl. rewrite IH. reflexivity.
Qed.

(** X18.  The bar chart shows the five most frequent entities, the most
    frequent first: its rows are the first five of the entities arranged
    by descending count (all of them when there are fewer), each with its
    count and type, and no entity left out has a higher count than one
    that is shown. *)
Theorem X18_chart_top_five (entities : list Entity) :
  let (chart, sorted) := entityData entities in
  sorted ≡ₚ entities
  /\ (forall i j a b, (i < j)%nat -> sorted !! i = Some a -> sorted !! j = Some b ->
                      (ent_count b <= ent_count a)%Z)
  /\ length chart = Nat.min 5 (length entities)
  /\ map ent_count chart = map ent_count (take 5 sorted)
  /\ map ent_type chart = map ent_type (take 5 sorted)
  /\ (forall d o, d ∈ chart -> o ∈ drop 5 sorted -> (ent_count o <= ent_count d)%Z).
Proof.
  unfold entityData. set (sorted := sort by_count_desc entities).
  assert (Hperm : sorted ≡ₚ entities) by apply sort_perm.
  assert (Hdesc : descending sorted) by apply sort_descending.
  split; [exact Hperm|]. split; [|split; [|split; [|split]]].
  - intros i j a b. apply descending_lookup, Hdesc.
  - rewrite length_map, length_take, (Permutation_length Hperm). reflexivity.
  - rewrite map_map. reflexivity.
  - rewrite map_map. reflexivity.
  - intros d o Hd Ho. apply list_elem_of_In, in_map_iff in Hd as (e & <- & He).
    apply list_elem_of_In, list_elem_of_lookup in He as [i Hi].
    apply list_elem_of_lookup in Ho as [j Hj].
    rewrite lookup_take_Some in Hi. destruct Hi as [Hi Hlt].
    rewrite lookup_drop in Hj. simpl.
    apply (descending_lookup sorted i (5 + j) e o Hdesc); [lia|exact Hi|exact Hj].
Qed.

(** X19.  Sorting keeps entities of equal count in the order of the
    response, and since the array of the result is sorted in place,
    rendering the charts again finds it sorted and shows the same rows. *)
Theorem X19_chart_stable (entities : list Entity) (c : Z) :
  List.filter (fun e => (ent_count e =? c)%Z) (snd (entityData entities))
  = List.filter (fun e => (ent_count e =? c)%Z) entities
  /\ entityData (snd (entityData entities)) = entityData entities.
Proof.
  unfold entityData. simpl. split; [apply sort_filter|].
  rewrite (sort_sorted _ (sort_descending entities)). reflexivity.
Qed.

(** X20.  A row of the bar chart has a name of at most 13 characters: the
    name of its entity when that has at most ten characters, and otherwise
    its first ten characters followed by three dots. *)
Theorem X20_chart_names (entities : list Entity) (d : Entity) :
  d ∈ fst (entityData entities) ->
  (String.length (ent_name d) <= 13)%nat
  /\ exists e,
       e ∈ entities
       /\ ent_count d = ent_count e /\ ent_type d = ent_type e
       /\ ((String.length (ent_name e) <= 10)%nat -> ent_name d = ent_name e)
       /\ ((10 < String.length (ent_name e))%nat ->
           exists first, String.length first = 10%nat
                         /\ String.prefix first (ent_name e) = true
                         /\ ent_name d = first +:+ "...").
Proof.
  unfold entityData. simpl. intros Hd.
  apply list_elem_of_In, in_map_iff in Hd as (e & <- & He).
  apply In_take in He. apply list_elem_of_In in He. rewrite sort_perm in He.
  unfold bar. simpl. split.
  - destruct (Nat.ltb_spec 10 (String.length (ent_name e))) as [Hlong | Hshort]; [|lia].
    rewrite string_app_length, substring_length.
    change (String.length "...") with 3%nat. lia.
  - exists e. split; [exact He|]. split; [reflexivity|]. split; [reflexivity|].
    destruct (Nat.ltb_spec 10 (String.length (ent_name e))) as [Hlong | Hshort].
    + split; [lia|]. intros _. exists (String.substring 0 10 (ent_name e)).
      split; [rewrite substring_length; lia|]. split; [|reflexivity].
      clear. generalize 10%nat. intros n. revert n.
      induction (ent_name e) as [|c s IH]; intros [|n]; simpl; try reflexivity.
      destruct (ascii_dec c c) as [_ | Hne]; [apply IH|destruct Hne; reflexivity].
    + split; [reflexivity|lia].
Qed.

Lemma X20_witness :
  mkEntity "Internatio..." "Organization" 7 ∈ fst (entityData sample_entities)
  /\ (String.length "Internatio..." <= 13)%nat.
Proof.
  assert (H : mkEntity "Internatio..." "Organization" 7 ∈ fst (entityData sample_entities)).
  { apply (list_elem_of_lookup_2 _ 0). reflexivity. }
  split; [exact H|]. exact (proj1 (X20_chart_names sample_entities _ H)).
Defined.

Example entityData_sample :
  entityData sample_entities
  = ([mkEntity "Internatio..." "Organization" 7; mkEntity "Bob" "Person" 7;
      mkEntity "Rome" "Location" 3; mkEntity "Ada" "Person" 2; mkEntity "Paris" "Location" 2],
     [mkEntity "International Business Machines" "Organization" 7; mkEntity "Bob" "Person" 7;
      mkEntity "Rome" "Location" 3; mkEntity "Ada" "Person" 2; mkEntity "Paris" "Location" 2;
      mkEntity "Entropy" "Concept" 2; mkEntity "1999" "Date" 1]).
Proof. reflexivity. Qed.

(** * The second revision of the component *)

Section RevisionTwo.
Import Rev2.

Lemma tick_iter (n : nat) :
  Nat.iter n tick 0%Z = Z.min (5 * Z.of_nat n) (Z.min (2 * Z.of_nat n + 30) 90).
Proof.
  induction n as [|n IH]; [reflexivity|].
  change (Nat.iter (S n) tick 0%Z) with (tick (Nat.iter n tick 0%Z)). rewrite IH.
  unfold tick.
  destruct (Z.geb_spec (Z.min (5 * Z.of_nat n) (Z.min (2 * Z.of_nat n + 30) 90)) 90);
    [lia|].
  destruct (Z.ltb_spec (Z.min (5 * Z.of_nat n) (Z.min (2 * Z.of_nat n + 30) 90)) 50);
    lia.
Qed.

Lemma ticked_bounds (p : Z) : ticked p -> (0 <= p <= 90)%Z.
Proof. intros [n ->]. rewrite tick_iter. lia. Qed.

Lemma ticked_tick (p : Z) : ticked p -> ticked (tick p).
Proof. intros [n ->]. exists (S n). reflexivity. Qed.

Lemma ticked_0 : ticked 0.
Proof. exists 0%nat. reflexivity. Qed.

(** X21.  The interval raises the percentage by 5 up to 50 and by 2 from
    there to 90, where it stays: after [n] ticks from 0 it is the least of
    [5 n], [2 n + 30] and 90, so it never goes down and never passes 90,
    and the caption under the bar changes at the 6th, the 15th and the
    30th tick. *)
Theorem X21_progress_ticks (n : nat) :
  Nat.iter n tick 0%Z = Z.min (5 * Z.of_nat n) (Z.min (2 * Z.of_nat n + 30) 90)
  /\ (Nat.iter n tick 0%Z <= Nat.iter (S n) tick 0%Z <= 90)%Z
  /\ caption (Nat.iter n tick 0%Z)
     = if (n <? 6)%nat then "Encrypting & Uploading..."
       else if (n <? 15)%nat then "Analyzing Content Structure..."
       else if (n <? 30)%nat then "Extracting Entities & Action Items..."
       else "Finalizing Document...".
Proof.
  split; [apply tick_iter|]. split; [rewrite !tick_iter; lia|].
  rewrite tick_iter. unfold caption.
  destruct (Nat.ltb_spec n 6); [destruct (Z.ltb_spec (Z.min (5 * Z.of_nat n)
              (Z.min (2 * Z.of_nat n + 30) 90)) 30); [reflexivity|lia]|].
  destruct (Z.ltb_spec (Z.min (5 * Z.of_nat n) (Z.min (2 * Z.of_nat n + 30) 90)) 30);
    [lia|].
  destruct (Nat.ltb_spec n 15); [destruct (Z.ltb_spec (Z.min (5 * Z.of_nat n)
              (Z.min (2 * Z.of_nat n + 30) 90)) 60); [reflexivity|lia]|].
  destruct (Z.ltb_spec (Z.min (5 * Z.of_nat n) (Z.min (2 * Z.of_nat n + 30) 90)) 60);
    [lia|].
  destruct (Nat.ltb_spec n 30); [destruct (Z.ltb_spec (Z.min (5 * Z.of_nat n)
              (Z.min (2 * Z.of_nat n + 30) 90)) 90); [reflexivity|lia]|].
  destruct (Z.ltb_spec (Z.min (5 * Z.of_nat n) (Z.min (2 * Z.of_nat n + 30) 90)) 90);
    [lia|reflexivity].
Qed.

Lemma step2_inv (w w' : World) (ev : Event) :
  step w ev = Some w' ->
  match ev with
  | SelectFile file =>
      activeTab (app w) = dashboard /\ appState (app w) = IDLE /\ w' = processFile file w
  | Tick tid => tasks w !! tid = Some Interval /\ w' = with_app (setProgress tick) w
  | ReaderLoad tid dataURL uuid now =>
      exists file recent iv,
        tasks w !! tid = Some (ReaderTask file recent iv)
        /\ w' = reader_onload file recent iv dataURL uuid now (finish tid w)
  | ReaderFail tid =>
      exists file recent iv,
        tasks w !! tid = Some (ReaderTask file recent iv) /\ w' = finish tid w
  | Settle tid o =>
      exists newFile recent iv,
        tasks w !! tid = Some (AnalysisTask newFile recent iv)
        /\ w' = analysis_settled newFile recent iv o (finish tid w)
  | TimerFires tid now =>
      exists newFile analysis recent,
        tasks w !! tid = Some (Finalize newFile analysis recent)
        /\ w' = finalize newFile analysis recent now (finish tid w)
  | ClickNav item => (item = dashboard \/ item = docs) /\ w' = handleTabChange item w
  | ClickReset =>
      appState (app w) = COMPLETE /\ activeTab (app w) <> docs
      /\ activeTab (app w) <> settings /\ w' = onReset w
  | ClickExport =>
      appState (app w) = COMPLETE /\ activeTab (app w) <> docs
      /\ activeTab (app w) <> settings
      /\ w' = (if to_boolean (result_ (app w)) then onExport doc w else w)
  | ClickExportAs type =>
      activeTab (app w) = settings /\ to_boolean (result_ (app w)) = true
      /\ w' = onExport type w
  | ClickUnlock =>
      activeTab (app w) = settings /\ to_boolean (result_ (app w)) = false
      /\ w' = with_app (setActiveTab dashboard) w
  | ClickClearHistory => activeTab (app w) = settings /\ w' = clearHistory w
  | DismissError => error (app w) <> None /\ w' = with_app (setError None) w
  | OpenMenu => w' = with_app (setMobileMenuOpen true) w
  | CloseMenu => w' = with_app (setMobileMenuOpen false) w
  end.
Proof.
  intros Hstep. unfold step in Hstep. destruct (unmounted w); [discriminate|].
  destruct ev as [file|tid|tid dataURL uuid now|tid|tid o|tid now|item| | |type| | | | |].
  - unfold on_tab, is_state in Hstep.
    do 2 (case_bool_decide; [|discriminate]). injection Hstep as <-. auto.
  - destruct (tasks w !! tid) as [[| | |]|]; try discriminate. injection Hstep as <-. auto.
  - destruct (tasks w !! tid) as [[|file recent iv| |]|]; try discriminate.
    injection Hstep as <-. eauto 6.
  - destruct (tasks w !! tid) as [[|file recent iv| |]|]; try discriminate.
    injection Hstep as <-. eauto 6.
  - destruct (tasks w !! tid) as [[| |newFile recent iv|]|]; try discriminate.
    injection Hstep as <-. eauto 6.
  - destruct (tasks w !! tid) as [[| | |newFile analysis recent]|]; try discriminate.
    injection Hstep as <-. eauto 6.
  - case_bool_decide as Hin; [|discriminate]. injection Hstep as <-.
    split; [|reflexivity]. unfold navItems in Hin.
    apply elem_of_cons in Hin as [-> | Hin]; [auto|].
    apply elem_of_cons in Hin as [-> | Hin]; [auto|]. apply elem_of_nil in Hin. destruct Hin.
  - unfold header_buttons, is_state, on_tab in Hstep.
    do 3 (case_bool_decide; simpl in Hstep; try discriminate). injection Hstep as <-. auto.
  - unfold header_buttons, is_state, on_tab in Hstep.
    do 3 (case_bool_decide; simpl in Hstep; try discriminate). injection Hstep as <-. auto.
  - unfold on_tab in Hstep. case_bool_decide; [|discriminate].
    destruct (to_boolean _) eqn:Hr; [|discriminate]. injection Hstep as <-. auto.
  - unfold on_tab in Hstep. case_bool_decide; [|discriminate].
    destruct (to_boolean _) eqn:Hr; [discriminate|]. injection Hstep as <-. auto.
  - unfold on_tab in Hstep. case_bool_decide; [|discriminate]. injection Hstep as <-. auto.
  - destruct (error (app w)); [|discriminate]. injection Hstep as <-. auto.
  - injection Hstep as <-. reflexivity.
  - injection Hstep as <-. reflexivity.
Qed.

Lemma onExport2_frame (type : ExportType) (w : World) :
  app (onExport type w) = app w /\ tasks (onExport type w) = tasks w
  /\ next_task (onExport type w) = next_task w
  /\ requests (onExport type w) = requests w
  /\ localStorage (onExport type w) = localStorage w.
Proof. unfold onExport. destruct (mbind _ _); repeat split. Qed.

Lemma finalize_frame (newFile : FileData) (analysis recent : JSValue) (now : Z) (w : World) :
  appState (app (finalize newFile analysis recent now w)) = COMPLETE
  /\ result_ (app (finalize newFile analysis recent now w)) = analysis
  /\ progress (app (finalize newFile analysis recent now w)) = progress (app w)
  /\ chatHistory (app (finalize newFile analysis recent now w)) = chatHistory (app w)
  /\ tasks (finalize newFile analysis recent now w) = tasks w
  /\ next_task (finalize newFile analysis recent now w) = next_task w
  /\ requests (finalize newFile analysis recent now w) = requests w
  /\ (activeTab (app (finalize newFile analysis recent now w)) = dashboard
      \/ (activeTab (app (finalize newFile analysis recent now w)) = activeTab (app w)
          /\ exists e, uncaught (finalize newFile analysis recent now w) = uncaught w ++ [e])).
Proof.
  unfold finalize, addToHistory. unfold_bind.
  destruct (get_prop analysis "summary"); [|simpl; repeat split; right; eauto].
  destruct (get_prop analysis "stats"); [|simpl; repeat split; right; eauto].
  destruct (filter_recent _ recent); simpl; repeat split; auto. right. eauto.
Qed.

Lemma step2_inv_kept (w w' : World) (ev : Event) : inv w -> step w ev = Some w' -> inv w'.
Proof.
  intros (Hsit & Htab & Hchat & Hfresh) Hstep. apply step2_inv in Hstep.
  destruct w as [[tab st fd res err p ch ci icl mm rf] ls key ts nt rq dl ce uc um].
  simpl in *.
  destruct ev as [file|tid|tid dataURL uuid now|tid|tid o|tid now|item| | |type| | | | |].
  - destruct Hstep as (-> & -> & ->). unfold processFile. simpl.
    destruct (_ >? _)%Z; [unfold inv; simpl; auto|].
    inversion Hsit; subst. unfold inv. simpl.
    split; [|split; [auto|split; [reflexivity|]]].
    + rewrite insert_empty. apply sit_reading; [lia|apply ticked_0].
    + intros tid t Hl. apply lookup_insert_Some in Hl as [[<- _] | [_ Hl]]; [lia|].
      apply lookup_insert_Some in Hl as [[<- _] | [_ Hl]]; [lia|].
      rewrite lookup_empty in Hl. discriminate.
  - destruct Hstep as [Hl ->]. unfold inv. simpl. split; [|auto].
    inversion Hsit; subst.
    + rewrite lookup_empty in Hl. discriminate.
    + apply sit_reading; [assumption|apply ticked_tick; assumption].
    + apply sit_unread. apply ticked_tick. assumption.
    + apply sit_analysing; [assumption|apply ticked_tick; assumption].
    + apply sit_failed. apply ticked_tick. assumption.
    + apply lookup_singleton_Some in Hl as [_ Hl]. discriminate.
    + rewrite lookup_empty in Hl. discriminate.
  - destruct Hstep as (file & recent & iv & Hl & ->).
    inversion Hsit; subst;
      try (rewrite lookup_empty in Hl; discriminate);
      try (apply lookup_singleton_Some in Hl as [_ Hl]; discriminate);
      try (apply lookup_insert_Some in Hl as [[_ Hl] | [_ Hl]];
           [discriminate|apply lookup_singleton_Some in Hl as [_ Hl]; discriminate]).
    apply lookup_insert_Some in Hl as [[-> Hl] | [_ Hl]];
      [|apply lookup_singleton_Some in Hl as [_ Hl]; discriminate].
    injection Hl as -> -> ->.
    assert (Hiv : (iv < nt)%nat).
    { apply (Hfresh iv Interval). rewrite lookup_insert_ne by congruence.
      apply lookup_singleton_eq. }
    unfold reader_onload, finish, inv. simpl.
    rewrite delete_insert_eq, delete_singleton_ne by congruence.
    destruct (analyzeAndConvertPDF_request _ _ _); simpl.
    + split; [apply sit_analysing; [lia|assumption]|]. split; [auto|]. split; [auto|].
      intros t x Hx. apply lookup_insert_Some in Hx as [[<- _] | [_ Hx]]; [lia|].
      apply lookup_singleton_Some in Hx as [<- _]. lia.
    + split; [apply sit_failed; assumption|]. split; [auto|]. split; [auto|].
      intros t x Hx. apply lookup_singleton_Some in Hx as [<- _]. lia.
  - destruct Hstep as (file & recent & iv & Hl & ->).
    inversion Hsit; subst;
      try (rewrite lookup_empty in Hl; discriminate);
      try (apply lookup_singleton_Some in Hl as [_ Hl]; discriminate);
      try (apply lookup_insert_Some in Hl as [[_ Hl] | [_ Hl]];
           [discriminate|apply lookup_singleton_Some in Hl as [_ Hl]; discriminate]).
    apply lookup_insert_Some in Hl as [[-> Hl] | [_ Hl]];
      [|apply lookup_singleton_Some in Hl as [_ Hl]; discriminate].
    injection Hl as -> -> ->.
    assert (Hiv : (iv < nt)%nat).
    { apply (Hfresh iv Interval). rewrite lookup_insert_ne by congruence.
      apply lookup_singleton_eq. }
    unfold finish, inv. simpl.
    rewrite delete_insert_eq, delete_singleton_ne by congruence.
    split; [apply sit_unread; assumption|]. split; [auto|]. split; [auto|].
    intros t x Hx. apply lookup_singleton_Some in Hx as [<- _]. lia.
  - destruct Hstep as (newFile & recent & iv & Hl & ->).
    inversion Hsit; subst;
      try (rewrite lookup_empty in Hl; discriminate);
      try (apply lookup_singleton_Some in Hl as [_ Hl]; discriminate);
      try (apply lookup_insert_Some in Hl as [[_ Hl] | [_ Hl]];
           [discriminate|apply lookup_singleton_Some in Hl as [_ Hl]; discriminate]).
    apply lookup_insert_Some in Hl as [[-> Hl] | [_ Hl]];
      [|apply lookup_singleton_Some in Hl as [_ Hl]; discriminate].
    injection Hl as -> -> ->.
    assert (Hiv : (iv < nt)%nat).
    { apply (Hfresh iv Interval). rewrite lookup_insert_ne by congruence.
      apply lookup_singleton_eq. }
    unfold analysis_settled, clearInterval, finish, inv. simpl.
    rewrite delete_insert_eq, delete_singleton_ne by congruence.
    destruct (analyzeAndConvertPDF_response o); simpl.
    + rewrite delete_singleton_eq, insert_empty.
      split; [apply sit_finalizing|]. split; [auto|]. split; [auto|].
      intros t x Hx. apply lookup_singleton_Some in Hx as [<- _]. lia.
    + split; [apply sit_failed; assumption|]. split; [auto|]. split; [auto|].
      intros t x Hx. apply lookup_singleton_Some in Hx as [<- _]. lia.
  - destruct Hstep as (newFile & analysis & recent & Hl & ->).
    inversion Hsit; subst;
      try (rewrite lookup_empty in Hl; discriminate);
      try (apply lookup_singleton_Some in Hl as [_ Hl]; discriminate);
      try (apply lookup_insert_Some in Hl as [[_ Hl] | [_ Hl]];
           [discriminate|apply lookup_singleton_Some in Hl as [_ Hl]; discriminate]).
    apply lookup_singleton_Some in Hl as [-> Hl].
    match goal with
    | |- inv (finalize ?a ?b ?c ?d ?x) =>
        destruct (finalize_frame a b c d x) as (H1 & H2 & H3 & H4 & H5 & H6 & _ & H7)
    end.
    unfold inv. split; [|split; [|split]].
    + rewrite H1, H2, H3, H5. simpl. rewrite delete_singleton_eq. apply sit_complete.
    + destruct H7 as [-> | [-> _]]; [auto|exact Htab].
    + rewrite H4. reflexivity.
    + rewrite H5. simpl. rewrite delete_singleton_eq.
      intros t x Hx. rewrite lookup_empty in Hx. discriminate.
  - destruct Hstep as [Hitem ->]. unfold handleTabChange, inv. simpl.
    destruct (_ && _); destruct item; simpl; destruct Hitem as [H | H]; try discriminate;
      auto.
  - destruct Hstep as (-> & _ & _ & ->). inversion Hsit; subst.
    unfold onReset, inv. simpl. split; [apply sit_idle|]. auto.
  - destruct Hstep as (_ & _ & _ & ->). destruct (to_boolean res); [|unfold inv; simpl; auto].
    match goal with
    | |- inv (onExport ?t ?x) => destruct (onExport2_frame t x) as (H1 & H2 & H3 & _)
    end.
    unfold inv. rewrite H1, H2, H3. simpl. auto.
  - destruct Hstep as (-> & _). destruct Htab; discriminate.
  - destruct Hstep as (-> & _). destruct Htab; discriminate.
  - destruct Hstep as (-> & _). destruct Htab; discriminate.
  - destruct Hstep as [_ ->]. unfold inv. simpl. auto.
  - rewrite Hstep. unfold inv. simpl. auto.
  - rewrite Hstep. unfold inv. simpl. auto.
Qed.

Lemma boot2_inv (storage : gmap string string) (key : option string) :
  inv (boot storage key).
Proof.
  unfold boot, load_history. simpl.
  destruct (storage !! history_key) as [saved|];
    [destruct (String.eqb saved ""); [|destruct (JSON_parse saved)]|];
    (split; [apply sit_idle|]; split; [auto|]; split; [reflexivity|];
     intros tid t Hl; simpl in Hl; rewrite lookup_empty in Hl; discriminate).
Qed.

Lemma run2_inv (evs : list Event) (w w' : World) : inv w -> run w evs = Some w' -> inv w'.
Proof.
  revert w. induction evs as [|ev evs IH]; intros w Hinv Hrun.
  - injection Hrun as <-. exact Hinv.
  - simpl in Hrun. destruct (step w ev) as [w1|] eqn:Hstep; [|discriminate].
    exact (IH w1 (step2_inv_kept w w1 ev Hinv Hstep) Hrun).
Qed.

Lemma inv_progress (w : World) :
  inv w ->
  (0 <= progress (app w) <= 100)%Z
  /\ (appState (app w) = IDLE -> progress (app w) = 0%Z /\ tasks w = ∅)
  /\ (appState (app w) = COMPLETE -> progress (app w) = 100%Z /\ tasks w = ∅)
  /\ (forall iv, tasks w !! iv = Some Interval ->
                 ticked (progress (app w)) /\ (progress (app w) <= 90)%Z
                 /\ (appState (app w) = UPLOADING \/ appState (app w) = PROCESSING)
                 /\ forall iv', tasks w !! iv' = Some Interval -> iv' = iv)
  /\ (progress (app w) = 100%Z ->
      appState (app w) = COMPLETE
      \/ exists ft newFile analysis recent,
           tasks w = {[ft := Finalize newFile analysis recent]})
  /\ appState (app w) <> ERROR /\ appState (app w) <> ANALYZING.
Proof.
  intros (Hsit & _).
  inversion Hsit as [Hs Ht Hp Hr|iv rt f r p Hne Hp Hs Ht Hp' Hr|iv p Hp Hs Ht Hp' Hr
                     |iv at_ nf r p Hne Hp Hs Ht Hp' Hr|iv p Hp Hs Ht Hp' Hr
                     |ft nf an r Hs Ht Hp Hr|r Hs Ht Hp Hr];
    try pose proof (ticked_bounds _ Hp) as Hb.
  all: split; [lia|]. 
  all: split; [intros H; try discriminate H; auto|].
  all: split; [intros H; try discriminate H; auto|].
  all: split; [|split; [intros H100; try lia; eauto 6|split; discriminate]].
  - intros iv Hl. rewrite lookup_empty in Hl. discriminate.
  - intros iv0 Hl. interval_id Hl. repeat split; auto; try lia.
    intros iv' Hl'. interval_id Hl'. reflexivity.
  - intros iv0 Hl. interval_id Hl. repeat split; auto; try lia.
    intros iv' Hl'. interval_id Hl'. reflexivity.
  - intros iv0 Hl. interval_id Hl. repeat split; auto; try lia.
    intros iv' Hl'. interval_id Hl'. reflexivity.
  - intros iv0 Hl. interval_id Hl. repeat split; auto; try lia.
    intros iv' Hl'. interval_id Hl'. reflexivity.
  - intros iv0 Hl. apply lookup_singleton_Some in Hl as [_ Hl]. discriminate.
  - intros iv Hl. rewrite lookup_empty in Hl. discriminate.
Qed.

(** X22.  In every execution of the second revision the percentage is
    0 in the phase [IDLE] and 100 in the phase [COMPLETE]; while the
    interval is pending it is a value the ticks reach from 0, so at most
    90, the phase is [UPLOADING] or [PROCESSING], and there is no second
    interval; it is 100 only in the phase [COMPLETE] or while the timer
    that ends a successful run is pending. *)
Theorem X22_progress_bar (storage : gmap string string) (key : option string)
    (evs : list Event) (w : World) :
  run (boot storage key) evs = Some w ->
  (0 <= progress (app w) <= 100)%Z
  /\ (appState (app w) = IDLE -> progress (app w) = 0%Z /\ tasks w = ∅)
  /\ (appState (app w) = COMPLETE -> progress (app w) = 100%Z /\ tasks w = ∅)
  /\ (forall iv, tasks w !! iv = Some Interval ->
                 ticked (progress (app w)) /\ (progress (app w) <= 90)%Z
                 /\ (appState (app w) = UPLOADING \/ appState (app w) = PROCESSING)
                 /\ forall iv', tasks w !! iv' = Some Interval -> iv' = iv)
  /\ (progress (app w) = 100%Z ->
      appState (app w) = COMPLETE
      \/ exists ft newFile analysis recent,
           tasks w = {[ft := Finalize newFile analysis recent]})
  /\ appState (app w) <> ERROR /\ appState (app w) <> ANALYZING.
Proof.
  intros Hrun. exact (inv_progress w (run2_inv evs _ w (boot2_inv storage key) Hrun)).
Qed.

Lemma step2_mounted (w w' : World) (ev : Event) :
  step w ev = Some w' -> unmounted w = false /\ unmounted w' = false.
Proof.
  intros Hstep.
  assert (Hm : unmounted w = false).
  { unfold step in Hstep. destruct (unmounted w); [discriminate|reflexivity]. }
  split; [exact Hm|]. apply step2_inv in Hstep.
  destruct ev as [file|tid|tid dataURL uuid now|tid|tid o|tid now|item| | |type| | | | |].
  - destruct Hstep as (_ & _ & ->). unfold processFile. destruct (_ >? _)%Z; exact Hm.
  - destruct Hstep as [_ ->]. exact Hm.
  - destruct Hstep as (file & recent & iv & _ & ->). unfold reader_onload.
    destruct (analyzeAndConvertPDF_request _ _ _); exact Hm.
  - destruct Hstep as (file & recent & iv & _ & ->). exact Hm.
  - destruct Hstep as (newFile & recent & iv & _ & ->). unfold analysis_settled.
    destruct (analyzeAndConvertPDF_response o); exact Hm.
  - destruct Hstep as (newFile & analysis & recent & _ & ->).
    unfold finalize, addToHistory. unfold_bind.
    destruct (get_prop analysis "summary"); [|exact Hm].
    destruct (get_prop analysis "stats"); [|exact Hm].
    destruct (filter_recent _ recent); exact Hm.
  - destruct Hstep as [_ ->]. unfold handleTabChange.
    destruct (_ && _); destruct item; exact Hm.
  - destruct Hstep as (_ & _ & _ & ->). exact Hm.
  - destruct Hstep as (_ & _ & _ & ->). destruct (to_boolean _); [|exact Hm].
    unfold onExport. destruct (mbind _ _); exact Hm.
  - destruct Hstep as (_ & _ & ->). unfold onExport. destruct (mbind _ _); exact Hm.
  - destruct Hstep as (_ & _ & ->). exact Hm.
  - destruct Hstep as (_ & ->). exact Hm.
  - destruct Hstep as [_ ->]. exact Hm.
  - rewrite Hstep. exact Hm.
  - rewrite Hstep. exact Hm.
Qed.

(** Once the interval alone is pending in the phase [PROCESSING], nothing
    but the percentage, the tab, the menu and the message changes. *)
Lemma step2_stranded (w w' : World) (ev : Event) (iv : nat) :
  inv w ->
  appState (app w) = PROCESSING ->
  tasks w = {[iv := Interval]} ->
  step w ev = Some w' ->
  appState (app w') = PROCESSING
  /\ tasks w' = {[iv := Interval]}
  /\ result_ (app w') = result_ (app w)
  /\ requests w' = requests w
  /\ localStorage w' = localStorage w.
Proof.
  intros (_ & Htab & _) Hs Ht Hstep. apply step2_inv in Hstep.
  destruct ev as [file|tid|tid dataURL uuid now|tid|tid o|tid now|item| | |type| | | | |].
  - destruct Hstep as (_ & Hidle & _). congruence.
  - destruct Hstep as [_ ->]. auto.
  - destruct Hstep as (file & recent & iv' & Hl & _). rewrite Ht in Hl.
    apply lookup_singleton_Some in Hl as [_ Hl]. discriminate.
  - destruct Hstep as (file & recent & iv' & Hl & _). rewrite Ht in Hl.
    apply lookup_singleton_Some in Hl as [_ Hl]. discriminate.
  - destruct Hstep as (newFile & recent & iv' & Hl & _). rewrite Ht in Hl.
    apply lookup_singleton_Some in Hl as [_ Hl]. discriminate.
  - destruct Hstep as (newFile & analysis & recent & Hl & _). rewrite Ht in Hl.
    apply lookup_singleton_Some in Hl as [_ Hl]. discriminate.
  - destruct Hstep as [_ ->]. unfold handleTabChange.
    destruct (_ && _); destruct item; auto.
  - destruct Hstep as (Hc & _). congruence.
  - destruct Hstep as (Hc & _). congruence.
  - destruct Hstep as (Hset & _). destruct Htab; congruence.
  - destruct Hstep as (Hset & _). destruct Htab; congruence.
  - destruct Hstep as (Hset & _). destruct Htab; congruence.
  - destruct Hstep as [_ ->]. auto.
  - rewrite Hstep. auto.
  - rewrite Hstep. auto.
Qed.

Lemma run2_stranded (evs : list Event) (w w' : World) (iv : nat) :
  inv w ->
  appState (app w) = PROCESSING ->
  tasks w = {[iv := Interval]} ->
  run w evs = Some w' ->
  appState (app w') = PROCESSING
  /\ tasks w' = {[iv := Interval]}
  /\ result_ (app w') = result_ (app w)
  /\ requests w' = requests w
  /\ localStorage w' = localStorage w
  /\ inv w'.
Proof.
  revert w. induction evs as [|ev evs IH]; intros w Hinv Hs Ht Hrun.
  - injection Hrun as <-. auto 6.
  - simpl in Hrun. destruct (step w ev) as [w1|] eqn:Hstep; [|discriminate].
    destruct (step2_stranded w w1 ev iv Hinv Hs Ht Hstep) as (H1 & H2 & H3 & H4 & H5).
    destruct (IH w1 (step2_inv_kept w w1 ev Hinv Hstep) H1 H2 Hrun)
      as (H1' & H2' & H3' & H4' & H5' & H6').
    split; [assumption|]. split; [assumption|]. split; [congruence|].
    split; [congruence|]. split; [congruence|assumption].
Qed.

(** X23.  When the analysis fails in the second revision, the interval is
    never cleared: whatever happens afterwards it stays pending and keeps
    ticking, the percentage stays at 90 or below, the phase stays
    [PROCESSING] with the caption of the bar on the screen, no result
    appears, no request is sent, and no file can be selected. *)
Theorem X23_failed_run_keeps_ticking (storage : gmap string string)
    (key : option string) (evs more : list Event) (w w' : World) (tid iv : nat)
    (newFile : FileData) (recent : JSValue) (o : Outcome) (e : JSError) :
  run (boot storage key) evs = Some w ->
  tasks w !! tid = Some (AnalysisTask newFile recent iv) ->
  analyzeAndConvertPDF_response o = Throw e ->
  run w (Settle tid o :: more) = Some w' ->
  appState (app w') = PROCESSING
  /\ tasks w' = {[iv := Interval]}
  /\ (progress (app w') <= 90)%Z
  /\ result_ (app w') = JNull
  /\ requests w' = requests w
  /\ (forall file, step w' (SelectFile file) = None)
  /\ step w' (Tick iv) = Some (with_app (setProgress tick) w').
Proof.
  intros Hrun Ht Ho Hmore.
  pose proof (run2_inv evs _ w (boot2_inv storage key) Hrun) as Hinv.
  simpl in Hmore. destruct (step w (Settle tid o)) as [w1|] eqn:Hstep; [|discriminate].
  change (run w1 more = Some w') in Hmore.
  pose proof (step2_inv_kept w w1 _ Hinv Hstep) as Hinv1.
  pose proof (step2_mounted w w1 _ Hstep) as [_ Hm1].
  apply step2_inv in Hstep as (nf & rc & iv' & Ht' & ->).
  rewrite Ht in Ht'. injection Ht' as <- <- <-.
  destruct Hinv as (Hsit & _).
  assert (Hw1 : appState (app (analysis_settled newFile recent iv o (finish tid w)))
                = PROCESSING
                /\ tasks (analysis_settled newFile recent iv o (finish tid w))
                   = {[iv := Interval]}
                /\ result_ (app (analysis_settled newFile recent iv o (finish tid w)))
                   = JNull
                /\ requests (analysis_settled newFile recent iv o (finish tid w))
                   = requests w).
  { unfold analysis_settled. rewrite Ho. simpl.
    inversion Hsit as [Hs Hts Hp Hr|iv0 rt f r p Hne Hp Hs Hts Hp' Hr|iv0 p Hp Hs Hts Hp' Hr
                       |iv0 at_ nf r p Hne Hp Hs Hts Hp' Hr|iv0 p Hp Hs Hts Hp' Hr
                       |ft nf an r Hs Hts Hp Hr|r Hs Hts Hp Hr];
      rewrite <- Hts in Ht;
      try (rewrite lookup_empty in Ht; discriminate);
      try (apply lookup_singleton_Some in Ht as [_ Ht]; discriminate);
      try (apply lookup_insert_Some in Ht as [[_ Ht] | [_ Ht]];
           [discriminate|apply lookup_singleton_Some in Ht as [_ Ht]; discriminate]).
    apply lookup_insert_Some in Ht as [[-> Ht] | [_ Ht]];
      [|apply lookup_singleton_Some in Ht as [_ Ht]; discriminate].
    injection Ht as -> -> ->.
    rewrite delete_insert_eq, delete_singleton_ne by congruence. auto. }
  destruct Hw1 as (H1 & H2 & H3 & H4).
  destruct (run2_stranded more _ w' iv Hinv1 H1 H2 Hmore) as (H1' & H2' & H3' & H4' & _ & Hinv').
  assert (Hm' : unmounted w' = false).
  { clear - Hmore Hm1. revert Hmore Hm1.
    generalize (analysis_settled newFile recent iv o (finish tid w)). intros w0.
    revert w0. induction more as [|ev more IH]; intros w0 Hrun Hm.
    - injection Hrun as <-. exact Hm.
    - simpl in Hrun. destruct (step w0 ev) as [w2|] eqn:Hstep; [|discriminate].
      exact (IH w2 Hrun (proj2 (step2_mounted w0 w2 ev Hstep))). }
  split; [exact H1'|]. split; [exact H2'|]. split.
  { destruct (inv_progress w' Hinv') as (_ & _ & _ & Hiv & _).
    destruct (Hiv iv) as (_ & Hle & _); [|exact Hle].
    rewrite H2'. apply lookup_singleton_eq. }
  split; [congruence|]. split; [congruence|]. split.
  - intros file. unfold step. rewrite Hm'. unfold is_state. rewrite H1'.
    rewrite andb_comm. reflexivity.
  - unfold step. rewrite Hm', H2', lookup_singleton_eq. reflexivity.
Qed.

Lemma downloadContent_doc (content filename : JSValue) (d : Download) :
  downloadContent content filename doc = Ok d -> blob_type d = "application/msword".
Proof.
  unfold downloadContent. unfold_bind.
  destruct content; try discriminate. destruct filename; try discriminate.
  intros H. injection H as <-. reflexivity.
Qed.

(** What a step of the second revision hands out and stores. *)
Lemma step2_effects (w w' : World) (ev : Event) :
  inv w ->
  step w ev = Some w' ->
  (downloads w' = downloads w
   \/ exists d, downloads w' = downloads w ++ [d] /\ blob_type d = "application/msword")
  /\ (localStorage w' = localStorage w
      \/ exists v, localStorage w' = <[history_key:=v]> (localStorage w)).
Proof.
  intros (_ & Htab & _) Hstep. apply step2_inv in Hstep.
  assert (Hdoc : forall x,
             (downloads (onExport doc x) = downloads x
              \/ exists d, downloads (onExport doc x) = downloads x ++ [d]
                           /\ blob_type d = "application/msword")
             /\ (localStorage (onExport doc x) = localStorage x
                 \/ exists v, localStorage (onExport doc x)
                              = <[history_key:=v]> (localStorage x))).
  { intros x. unfold onExport. unfold_bind.
    destruct (get_prop (result_ (app x)) "markdownContent") as [c|]; [|simpl; auto].
    destruct (get_prop (result_ (app x)) "suggestedFilename") as [f|]; [|simpl; auto].
    destruct (downloadContent c f doc) as [d|] eqn:Hd; simpl; [|auto].
    split; [right|auto]. exists d. split; [reflexivity|exact (downloadContent_doc c f d Hd)]. }
  destruct ev as [file|tid|tid dataURL uuid now|tid|tid o|tid now|item| | |type| | | | |].
  - destruct Hstep as (_ & _ & ->). unfold processFile. destruct (_ >? _)%Z; auto.
  - destruct Hstep as [_ ->]. auto.
  - destruct Hstep as (file & recent & iv & _ & ->). unfold reader_onload.
    destruct (analyzeAndConvertPDF_request _ _ _); auto.
  - destruct Hstep as (file & recent & iv & _ & ->). auto.
  - destruct Hstep as (newFile & recent & iv & _ & ->). unfold analysis_settled.
    destruct (analyzeAndConvertPDF_response o); auto.
  - destruct Hstep as (newFile & analysis & recent & _ & ->).
    unfold finalize, addToHistory. unfold_bind.
    destruct (get_prop analysis "summary"); [|auto].
    destruct (get_prop analysis "stats"); [|auto].
    destruct (filter_recent _ recent); simpl; eauto.
  - destruct Hstep as [_ ->]. unfold handleTabChange.
    destruct (_ && _); destruct item; auto.
  - destruct Hstep as (_ & _ & _ & ->). auto.
  - destruct Hstep as (_ & _ & _ & ->). destruct (to_boolean _); [apply Hdoc|auto].
  - destruct Hstep as (Hset & _). destruct Htab; congruence.
  - destruct Hstep as (Hset & _). destruct Htab; congruence.
  - destruct Hstep as (Hset & _). destruct Htab; congruence.
  - destruct Hstep as [_ ->]. auto.
  - rewrite Hstep. auto.
  - rewrite Hstep. auto.
Qed.

(** X24.  In the second revision only the tabs of the navigation can be
    selected, the dashboard and the documentation: the settings tab is
    never on the screen, so in no execution can the history be cleared or
    a format other than Word be exported, a stored history is never
    removed, and the transcript of the chat stays empty. *)
Theorem X24_settings_unreachable (storage : gmap string string) (key : option string)
    (evs : list Event) (w : World) :
  run (boot storage key) evs = Some w ->
  (activeTab (app w) = dashboard \/ activeTab (app w) = docs)
  /\ chatHistory (app w) = []
  /\ step w ClickClearHistory = None
  /\ step w ClickUnlock = None
  /\ (forall type, step w (ClickExportAs type) = None)
  /\ Forall (fun d => blob_type d = "application/msword") (downloads w)
  /\ (storage !! history_key <> None -> localStorage w !! history_key <> None).
Proof.
  intros Hrun.
  pose proof (run2_inv evs _ w (boot2_inv storage key) Hrun) as Hinv.
  destruct Hinv as (Hsit & Htab & Hchat & Hfresh).
  assert (Hset : on_tab settings w = false).
  { unfold on_tab. apply bool_decide_eq_false_2. destruct Htab as [-> | ->]; discriminate. }
  split; [exact Htab|]. split; [exact Hchat|].
  split; [unfold step; rewrite Hset; destruct (unmounted w); reflexivity|].
  split; [unfold step; rewrite Hset; destruct (unmounted w); reflexivity|].
  split; [intros type; unfold step; rewrite Hset; destruct (unmounted w); reflexivity|].
  assert (Hgen : forall evs w0,
             inv w0 ->
             Forall (fun d => blob_type d = "application/msword") (downloads w0) ->
             (storage !! history_key <> None -> localStorage w0 !! history_key <> None) ->
             run w0 evs = Some w ->
             Forall (fun d => blob_type d = "application/msword") (downloads w)
             /\ (storage !! history_key <> None -> localStorage w !! history_key <> None)).
  { clear. induction evs as [|ev evs IH]; intros w0 Hinv Hd Hs Hrun.
    - injection Hrun as <-. auto.
    - simpl in Hrun. destruct (step w0 ev) as [w1|] eqn:Hstep; [|discriminate].
      destruct (step2_effects w0 w1 ev Hinv Hstep) as [Hd1 Hs1].
      apply (IH w1 (step2_inv_kept w0 w1 ev Hinv Hstep)); [| |exact Hrun].
      + destruct Hd1 as [-> | (d & -> & Hd1)]; [exact Hd|].
        apply Forall_app. split; [exact Hd|]. constructor; [exact Hd1|constructor].
      + intros Hst. specialize (Hs Hst). destruct Hs1 as [-> | (v & ->)]; [exact Hs|].
        rewrite lookup_insert_eq. discriminate. }
  apply (Hgen evs (boot storage key) (boot2_inv storage key)); [| |exact Hrun].
  - unfold boot, load_history. simpl.
    destruct (storage !! history_key) as [saved|];
      [destruct (String.eqb saved ""); [|destruct (JSON_parse saved)]|]; constructor.
  - unfold boot, load_history. simpl.
    destruct (storage !! history_key) as [saved|] eqn:Hl;
      [destruct (String.eqb saved ""); [|destruct (JSON_parse saved)]|]; simpl;
      rewrite ?Hl; auto.
Qed.

Lemma X22_witness :
  run (boot ∅ (Some "key")) (sample_run sample_payload) = Some sample_world
  /\ appState (app sample_world) = COMPLETE
  /\ progress (app sample_world) = 100%Z
  /\ tasks sample_world = ∅.
Proof.
  assert (H1 : run (boot ∅ (Some "key")) (sample_run sample_payload) = Some sample_world)
    by (vm_compute; reflexivity).
  assert (H2 : appState (app sample_world) = COMPLETE) by (vm_compute; reflexivity).
  destruct (X22_progress_bar ∅ (Some "key") _ sample_world H1) as (_ & _ & H3 & _).
  split; [exact H1|]. split; [exact H2|]. exact (H3 H2).
Defined.

Lemma X23_witness :
  run (boot ∅ (Some "key")) (take 3 failed_run) = Some analysing_world
  /\ tasks analysing_world !! 2%nat = Some (AnalysisTask sample_fileData (JArr []) 0)
  /\ run analysing_world [Settle 2 (Rejected (Error "503")); Tick 0; ClickNav docs]
     = Some (with_app (setActiveTab docs)
               (with_app (setProgress (fun _ => 10%Z)) failed_world))
  /\ tasks (with_app (setActiveTab docs)
              (with_app (setProgress (fun _ => 10%Z)) failed_world))
     = {[0%nat := Interval]}.
Proof.
  assert (H1 : run (boot ∅ (Some "key")) (take 3 failed_run) = Some analysing_world)
    by (vm_compute; reflexivity).
  assert (H2 : tasks analysing_world !! 2%nat
               = Some (AnalysisTask sample_fileData (JArr []) 0))
    by (vm_compute; reflexivity).
  assert (H3 : analyzeAndConvertPDF_response (Rejected (Error "503")) = Throw (Error "503"))
    by reflexivity.
  assert (H4 : run analysing_world [Settle 2 (Rejected (Error "503")); Tick 0; ClickNav docs]
               = Some (with_app (setActiveTab docs)
                         (with_app (setProgress (fun _ => 10%Z)) failed_world)))
    by (vm_compute; reflexivity).
  destruct (X23_failed_run_keeps_ticking ∅ (Some "key") _ [Tick 0; ClickNav docs]
              analysing_world _ 2 0 sample_fileData (JArr []) (Rejected (Error "503"))
              (Error "503") H1 H2 H3 H4) as (_ & H5 & _).
  repeat (split; [assumption|]). exact H5.
Defined.

Lemma X24_witness :
  run (boot ∅ (Some "key")) (sample_run sample_payload ++ [ClickExport])
  = Some exported_world
  /\ map download_name (downloads exported_world) = ["report.doc"]
  /\ step exported_world (ClickExportAs md) = None
  /\ step exported_world ClickClearHistory = None.
Proof.
  assert (H1 : run (boot ∅ (Some "key")) (sample_run sample_payload ++ [ClickExport])
               = Some exported_world) by (vm_compute; reflexivity).
  assert (H2 : map download_name (downloads exported_world) = ["report.doc"])
    by (vm_compute; reflexivity).
  destruct (X24_settings_unreachable ∅ (Some "key") _ exported_world H1)
    as (_ & _ & H3 & _ & H4 & _).
  split; [exact H1|]. split; [exact H2|]. split; [exact (H4 md)|exact H3].
Defined.

End RevisionTwo.

(** ** C6: the transcript and the active result *)

Lemma handleChat_appends (uuid : string) (now : Z) (w : World) :
  chatHistory (app (handleChat uuid now w)) = chatHistory (app w)
  \/ exists m, chatHistory (app (handleChat uuid now w)) = chatHistory (app w) ++ [m].
Proof.
  unfold handleChat. destruct (_ || _); [left; reflexivity|].
  right. exists (mkChatMessage uuid user (chatInput (app w)) now).
  destruct (mbind _ _); reflexivity.
Qed.

(** What a step does to the transcript: nothing, or it empties it, which
    only a selected file does, or it appends one turn. *)
Lemma step_transcript (w w' : World) (ev : Event) :
  step w ev = Some w' ->
  chatHistory (app w') = chatHistory (app w)
  \/ (exists file, ev = SelectFile file /\ chatHistory (app w') = [])
  \/ (exists m, chatHistory (app w') = chatHistory (app w) ++ [m]).
Proof.
  intros Hstep. apply step_inv in Hstep as [_ Hstep].
  destruct ev as [file|tid dataURL uuid now|tid|tid o uuid now|tid now|t| | |type|q|text
                 |uuid now|uuid now| |].
  - destruct Hstep as [_ ->]. unfold processFile.
    destruct (_ >? _)%Z; [left; reflexivity|]. right. left. exists file. split; reflexivity.
  - destruct Hstep as (file & recent & _ & ->). left. unfold reader_onload.
    destruct (analyzeAndConvertPDF_request _ _ _); reflexivity.
  - destruct Hstep as (file & recent & _ & ->). left. reflexivity.
  - destruct Hstep as [(newFile & recent & _ & ->) | [_ ->]].
    + left. unfold analysis_settled. destruct (analyzeAndConvertPDF_response o); reflexivity.
    + unfold chat_settled.
      destruct (chatWithDocument_response o) as [text|e]; [|left; reflexivity].
      right. right. eexists. reflexivity.
  - destruct Hstep as [(newFile & analysis & recent & _ & ->)
                      | (newFile & analysis & recent & _ & ->)]; [left; reflexivity|].
    destruct (generate_paced_cells newFile analysis recent now (finish tid w))
      as (_ & _ & ->). left. reflexivity.
  - destruct Hstep as [_ ->]. left. reflexivity.
  - destruct Hstep as [_ ->]. left. reflexivity.
  - destruct Hstep as [_ ->]. left. destruct (to_boolean _); [|reflexivity].
    rewrite onExport_app. reflexivity.
  - destruct Hstep as (_ & _ & _ & ->). left. rewrite onExport_app. reflexivity.
  - destruct Hstep as (_ & _ & _ & ->). left. reflexivity.
  - destruct Hstep as [_ ->]. left. reflexivity.
  - destruct Hstep as [_ ->].
    destruct (handleChat_appends uuid now w) as [H | H]; [left|right; right]; exact H.
  - destruct Hstep as (_ & _ & _ & ->).
    destruct (handleChat_appends uuid now w) as [H | H]; [left|right; right]; exact H.
  - destruct Hstep as [_ ->]. left. reflexivity.
  - rewrite Hstep. left. reflexivity.
Qed.

(** C6, as stated, fails in the first revision.  After a question was
    asked and answered, the Clear button removes the active result and
    leaves the two turns in the transcript.  And with a question in
    flight, the Clear button removes the active result, and the answer
    that arrives afterwards is appended to the transcript in the phase
    Idle, with no active result. *)
Lemma C6_counterexample :
  (length (chatHistory (app answered_world)) = 2%nat
   /\ exists w',
        step answered_world ClickClear = Some w'
        /\ result_ (app w') = JNull
        /\ length (chatHistory (app w')) = 2%nat)
  /\ (map msg_role (chatHistory (app asking_world)) = [user]
      /\ exists w1 w2,
           step asking_world ClickClear = Some w1
           /\ result_ (app w1) = JNull
           /\ step w1 (Settle 4 (Responded (Some "A title.")) "id-3" 1700000002000) = Some w2
           /\ result_ (app w2) = JNull
           /\ appState (app w2) = IDLE
           /\ map (fun m => (msg_role m, msg_text m)) (chatHistory (app w2))
              = [(user, "What is it?"); (model, "A title.")]).
Proof.
  split.
  - split; [vm_compute; reflexivity|].
    eexists. split; [vm_compute; reflexivity|]. vm_compute. split; reflexivity.
  - split; [vm_compute; reflexivity|].
    eexists. eexists. split; [vm_compute; reflexivity|].
    split; [vm_compute; reflexivity|].
    split; [vm_compute; reflexivity|]. vm_compute. repeat split; reflexivity.
Qed.

(** C6, amended.  In the first revision the transcript is emptied
    whenever a new document begins ingestion: [processFile], for a file
    within the size limit, empties it together with the active result.
    Nothing else empties it: every other step leaves the transcript as it
    is or appends one turn to it.  The Clear button removes the active
    result and returns the phase to Idle, and leaves the transcript as it
    is.  In the second revision, whose reset button also returns the
    progress to 0 and the view to the dashboard, the transcript is empty
    in every state of every execution, before the reset and after it. *)
Theorem C6_transcript_reset :
  (forall w file,
      (file_size file <= 20 * 1024 * 1024)%Z ->
      chatHistory (app (processFile file w)) = []
      /\ result_ (app (processFile file w)) = JNull
      /\ phase_of (appState (app (processFile file w))) = Ingesting)
  /\ (forall w,
        result_ (app (onClear w)) = JNull
        /\ phase_of (appState (app (onClear w))) = Idle
        /\ chatHistory (app (onClear w)) = chatHistory (app w))
  /\ (forall w w' ev,
        step w ev = Some w' ->
        chatHistory (app w') = chatHistory (app w)
        \/ (exists file,
               ev = SelectFile file /\ (file_size file <= 20 * 1024 * 1024)%Z
               /\ chatHistory (app w') = [])
        \/ (exists m, chatHistory (app w') = chatHistory (app w) ++ [m]))
  /\ (forall storage key evs w,
        Rev2.run (Rev2.boot storage key) evs = Some w ->
        Rev2.chatHistory (Rev2.app w) = []
        /\ forall w',
             Rev2.step w Rev2.ClickReset = Some w' ->
             Rev2.chatHistory (Rev2.app w') = []
             /\ Rev2.result_ (Rev2.app w') = JNull
             /\ phase_of (Rev2.appState (Rev2.app w')) = Idle
             /\ Rev2.progress (Rev2.app w') = 0%Z
             /\ Rev2.activeTab (Rev2.app w') = Rev2.dashboard).
Proof.
  split; [|split; [|split]].
  - intros w file Hsize. unfold processFile.
    assert (Hle : (file_size file >? size_limit)%Z = false).
    { unfold size_limit. rewrite Z.gtb_ltb. apply Z.ltb_ge. lia. }
    rewrite Hle. repeat split; reflexivity.
  - intros w. repeat split; reflexivity.
  - intros w w' ev Hstep.
    destruct (step_transcript w w' ev Hstep) as [H | [(file & -> & H) | H]];
      [left; exact H| |right; right; exact H].
    apply step_inv in Hstep as [_ [_ ->]]. unfold processFile in *.
    destruct (file_size file >? size_limit)%Z eqn:Hgt; [left; reflexivity|].
    right. left. exists file. split; [reflexivity|]. split; [|reflexivity].
    unfold size_limit in Hgt. rewrite Z.gtb_ltb in Hgt. apply Z.ltb_ge in Hgt. lia.
  - intros storage key evs w Hrun.
    destruct (run2_inv evs _ w (boot2_inv storage key) Hrun) as (_ & _ & Hchat & _).
    split; [exact Hchat|]. intros w' Hstep. unfold Rev2.step in Hstep.
    destruct (Rev2.unmounted w); [discriminate Hstep|].
    destruct (Rev2.header_buttons w); [|discriminate Hstep].
    injection Hstep as <-. split; [exact Hchat|]. repeat split; reflexivity.
Qed.

Lemma C6_witness :
  (file_size sample_file <= 20 * 1024 * 1024)%Z
  /\ chatHistory (app (processFile sample_file answered_world)) = []
  /\ result_ (app (processFile sample_file answered_world)) = JNull
  /\ chatHistory (app (onClear answered_world)) = chatHistory (app answered_world)
  /\ Rev2.run (Rev2.boot ∅ (Some "key")) (Rev2.sample_run sample_payload)
     = Some Rev2.sample_world
  /\ Rev2.chatHistory (Rev2.app Rev2.sample_world) = []
  /\ exists w',
       Rev2.step Rev2.sample_world Rev2.ClickReset = Some w'
       /\ Rev2.chatHistory (Rev2.app w') = []
       /\ Rev2.result_ (Rev2.app w') = JNull.
Proof.
  assert (Hs : (file_size sample_file <= 20 * 1024 * 1024)%Z) by (simpl; lia).
  assert (Hr : Rev2.run (Rev2.boot ∅ (Some "key")) (Rev2.sample_run sample_payload)
               = Some Rev2.sample_world) by (vm_compute; reflexivity).
  destruct C6_transcript_reset as (Hp & Hc & _ & H2).
  destruct (Hp answered_world sample_file Hs) as (Hh & Hres & _).
  destruct (Hc answered_world) as (_ & _ & Hkeep).
  destruct (H2 ∅ (Some "key") _ _ Hr) as (Hempty & Hreset).
  destruct (Rev2.step Rev2.sample_world Rev2.ClickReset) as [w'|] eqn:Hstep;
    [|vm_compute in Hstep; discriminate Hstep].
  destruct (Hreset w' eq_refl) as (Hc' & Hr' & _).
  split; [exact Hs|]. split; [exact Hh|]. split; [exact Hres|]. split; [exact Hkeep|].
  split; [exact Hr|]. split; [exact Hempty|].
  exists w'. split; [reflexivity|]. split; [exact Hc'|exact Hr'].
Defined.
